(** * sodasql.scan.scan : a shallow embedding of [Scan] and its properties

    The development follows [src/sodasql/scan/scan.py].  Python values are
    modelled by the types [scalar] and [value]; exceptions by the error type
    [result]; the dictionaries of the source by stdpp's [gmap]; the objects
    the scan talks to (dialect, warehouse, configuration) by records of
    functions. *)

From Stdlib Require Import ZArith QArith Qreduction Lia Bool Ascii String DecimalString.
From stdpp Require Import base option list gmap strings.

Local Open Scope string_scope.
Local Open Scope list_scope.

(** ** Exceptions and fallible computations

    The exceptions of Python that the scan can raise; [WarehouseError]
    stands for the failure of a query, and [Unmodelled] marks the two places
    where the model stops. *)

Inductive exn : Type :=
  | ZeroDivisionError
  | TypeError
  | NameError
  | IndexError
  | KeyError
  | AttributeError
  | AssertionError
  | WarehouseError
  | Unmodelled.

Inductive result (A : Type) : Type :=
  | Ok (a : A)
  | Err (e : exn).

Arguments Ok {A} a.
Arguments Err {A} e.

#[global] Instance result_ret : MRet result := fun A a => Ok a.

#[global] Instance result_bind : MBind result := fun A B k r =>
  match r with
  | Ok a => k a
  | Err e => Err e
  end.

(** [l[i]] on a Python list or tuple. *)
Definition py_index {A : Type} (l : list A) (i : nat) : result A :=
  match l !! i with
  | Some x => Ok x
  | None => Err IndexError
  end.

(** [d[k]] on a Python dict. *)
Definition py_getitem {A : Type} (d : gmap string A) (k : string) : result A :=
  match d !! k with
  | Some x => Ok x
  | None => Err KeyError
  end.

(** ** Strings *)

Definition nl : string := String "010"%char EmptyString.

(** [sep.join(l)] *)
Fixpoint join (sep : string) (l : list string) : string :=
  match l with
  | [] => ""
  | [x] => x
  | x :: rest => x +:+ sep +:+ join sep rest
  end.

(** [s in t] on strings: [s] occurs in [t] as a substring. *)
Fixpoint py_contains (s t : string) : bool :=
  String.prefix s t ||
  match t with
  | EmptyString => false
  | String _ t' => py_contains s t'
  end.

(** [s.startswith(p)] *)
Definition startswith (s p : string) : bool := String.prefix p s.

(** [str(n)] for an integer. *)
Definition str_of_Z (z : Z) : string := NilZero.string_of_int (Z.to_int z).

Fixpoint repeat_string (n : nat) (s : string) : string :=
  match n with
  | O => ""
  | S n' => s +:+ repeat_string n' s
  end.

(** ** Columns and metrics *)

Record Column : Type := mkColumn {
  col_name : string;
  col_type : string;
  col_nullable : bool
}.

#[global] Instance Column_eq_dec : EqDecision Column.
Proof. solve_decision. Defined.

(** Modelled from the spec: the constants of the class [Metric], which is
    imported by scan.py and not part of it.  A metric is a string (the test
    evaluator looks for it inside the text of a test); each constant is
    taken to be its own identifier in lower case. *)
Definition Metric : Type := string.

Module Metric.
Definition SCHEMA : Metric := "schema".
Definition ROW_COUNT : Metric := "row_count".
Definition MISSING_COUNT : Metric := "missing_count".
Definition MISSING_PERCENTAGE : Metric := "missing_percentage".
Definition VALUES_COUNT : Metric := "values_count".
Definition VALUES_PERCENTAGE : Metric := "values_percentage".
Definition VALID_COUNT : Metric := "valid_count".
Definition VALID_PERCENTAGE : Metric := "valid_percentage".
Definition INVALID_COUNT : Metric := "invalid_count".
Definition INVALID_PERCENTAGE : Metric := "invalid_percentage".
Definition MIN_LENGTH : Metric := "min_length".
Definition MAX_LENGTH : Metric := "max_length".
Definition MIN : Metric := "min".
Definition MAX : Metric := "max".
Definition AVG : Metric := "avg".
Definition SUM : Metric := "sum".
Definition DISTINCT : Metric := "distinct".
Definition UNIQUENESS : Metric := "uniqueness".
Definition UNIQUE_COUNT : Metric := "unique_count".
Definition MINS : Metric := "mins".
Definition MAXS : Metric := "maxs".
Definition FREQUENT_VALUES : Metric := "frequent_values".
End Metric.

(** ** Python values

    A [scalar] is a cell of a query result.  A Python float is modelled by
    the exact rational it stands for, kept in lowest terms: rounding and
    overflow of binary floating point are outside the model.  The lists of
    a scan hold cells (the values of mins, maxs and frequent values) or
    columns (the value of the schema measurement).  [VBuiltin] is an object
    of the module [builtins], [VBuiltins] the namespace of that module. *)

Inductive scalar : Type :=
  | SNone
  | SBool (b : bool)
  | SInt (z : Z)
  | SFloat (q : Q)
  | SStr (s : string).

Inductive item : Type :=
  | IScalar (c : scalar)
  | IColumn (c : Column).

Inductive value : Type :=
  | VScalar (c : scalar)
  | VList (l : list item)
  | VBuiltin (name : string)
  | VBuiltins.

Coercion VScalar : scalar >-> value.

Definition VNone : value := VScalar SNone.
Definition VInt (z : Z) : value := VScalar (SInt z).
Definition VFloat (q : Q) : value := VScalar (SFloat q).
Definition VBool (b : bool) : value := VScalar (SBool b).

(** The numeric reading of a value: [bool] is a subclass of [int]. *)
Inductive number : Type :=
  | NInt (z : Z)
  | NFloat (q : Q).

Definition as_number (v : value) : option number :=
  match v with
  | VScalar (SBool b) => Some (NInt (if b then 1 else 0))
  | VScalar (SInt z) => Some (NInt z)
  | VScalar (SFloat q) => Some (NFloat q)
  | _ => None
  end.

Definition to_Q (n : number) : Q :=
  match n with
  | NInt z => inject_Z z
  | NFloat q => q
  end.

(** [a - b] *)
Definition py_sub (a b : value) : result value :=
  match as_number a, as_number b with
  | Some (NInt x), Some (NInt y) => Ok (VInt (x - y))
  | Some x, Some y => Ok (VFloat (Qred (to_Q x - to_Q y)))
  | _, _ => Err TypeError
  end.

(** [a / b]: true division, a float whatever the operands. *)
Definition py_truediv (a b : value) : result value :=
  match as_number a, as_number b with
  | Some x, Some y =>
      if Qeq_bool (to_Q y) 0 then Err ZeroDivisionError
      else Ok (VFloat (Qred (to_Q x / to_Q y)))
  | _, _ => Err TypeError
  end.

(** [a * b]: product of numbers, repetition of a sequence by an integer. *)
Definition py_mul (a b : value) : result value :=
  match as_number a, as_number b with
  | Some (NInt x), Some (NInt y) => Ok (VInt (x * y))
  | Some x, Some y => Ok (VFloat (Qred (to_Q x * to_Q y)))
  | Some (NInt n), None =>
      match b with
      | VScalar (SStr s) => Ok (VScalar (SStr (repeat_string (Z.to_nat n) s)))
      | VList l => Ok (VList (concat (replicate (Z.to_nat n) l)))
      | _ => Err TypeError
      end
  | None, Some (NInt n) =>
      match a with
      | VScalar (SStr s) => Ok (VScalar (SStr (repeat_string (Z.to_nat n) s)))
      | VList l => Ok (VList (concat (replicate (Z.to_nat n) l)))
      | _ => Err TypeError
      end
  | _, _ => Err TypeError
  end.

(** Truth value of an object, as [if x] and [bool(x)] take it. *)
Definition truthy (v : value) : bool :=
  match v with
  | VScalar SNone => false
  | VScalar (SBool b) => b
  | VScalar (SInt z) => negb (Z.eqb z 0)
  | VScalar (SFloat q) => negb (Qeq_bool q 0)
  | VScalar (SStr s) => negb (String.eqb s "")
  | VList l => match l with [] => false | _ => true end
  | VBuiltin _ => true
  | VBuiltins => true
  end.

(** ** Comparisons *)

Inductive cmpop : Type := CEq | CNotEq | CLt | CLtE | CGt | CGtE.

Definition Qlt_bool (x y : Q) : bool := negb (Qle_bool y x).

Definition cmp_Q (op : cmpop) (x y : Q) : bool :=
  match op with
  | CEq => Qeq_bool x y
  | CNotEq => negb (Qeq_bool x y)
  | CLt => Qlt_bool x y
  | CLtE => Qle_bool x y
  | CGt => Qlt_bool y x
  | CGtE => Qle_bool y x
  end.

Definition cmp_string (op : cmpop) (s t : string) : bool :=
  match op with
  | CEq => String.eqb s t
  | CNotEq => negb (String.eqb s t)
  | CLt => String.ltb s t
  | CLtE => String.leb s t
  | CGt => String.ltb t s
  | CGtE => String.leb t s
  end.

Definition cmp_nat (op : cmpop) (n m : nat) : bool :=
  match op with
  | CEq => Nat.eqb n m
  | CNotEq => negb (Nat.eqb n m)
  | CLt => Nat.ltb n m
  | CLtE => Nat.leb n m
  | CGt => Nat.ltb m n
  | CGtE => Nat.leb m n
  end.

(** [a == b] on scalars never raises. *)
Definition scalar_eq (a b : scalar) : bool :=
  match as_number a, as_number b with
  | Some x, Some y => Qeq_bool (to_Q x) (to_Q y)
  | _, _ =>
      match a, b with
      | SNone, SNone => true
      | SStr s, SStr t => String.eqb s t
      | _, _ => false
      end
  end.

(** An ordering comparison is defined between numbers and between strings. *)
Definition scalar_order (op : cmpop) (a b : scalar) : result bool :=
  match as_number a, as_number b with
  | Some x, Some y => Ok (cmp_Q op (to_Q x) (to_Q y))
  | _, _ =>
      match a, b with
      | SStr s, SStr t => Ok (cmp_string op s t)
      | _, _ => Err TypeError
      end
  end.

Definition scalar_cmp (op : cmpop) (a b : scalar) : result bool :=
  match op with
  | CEq => Ok (scalar_eq a b)
  | CNotEq => Ok (negb (scalar_eq a b))
  | _ => scalar_order op a b
  end.

(** Lists compare on their first pair of unequal items, or else on their
    lengths. *)
Fixpoint list_cmp {A : Type} (eq : A -> A -> bool) (cmp : A -> A -> result bool)
    (orig : cmpop) (l1 l2 : list A) (n1 n2 : nat) : result bool :=
  match l1, l2 with
  | x :: l1', y :: l2' =>
      if eq x y then list_cmp eq cmp orig l1' l2' n1 n2
      else match orig with
           | CEq => Ok false
           | CNotEq => Ok true
           | _ => cmp x y
           end
  | _, _ => Ok (cmp_nat orig n1 n2)
  end.

(** Modelled from the spec: [Column] is a plain record {name, declared
    type, nullable} whose class is not part of scan.py; it is taken to
    define neither an equality of its own nor an ordering.  The columns that
    a comparison of two lists of a scan meets at the same place are the same
    object when they are equal as records. *)
Definition item_eq (a b : item) : bool :=
  match a, b with
  | IScalar x, IScalar y => scalar_eq x y
  | IColumn x, IColumn y => bool_decide (x = y)
  | _, _ => false
  end.

Definition item_order (op : cmpop) (a b : item) : result bool :=
  match a, b with
  | IScalar x, IScalar y => scalar_order op x y
  | _, _ => Err TypeError
  end.

(** [a == b] on objects that are not both scalars or both lists: the
    identity of the object. *)
Definition same_object (a b : value) : bool :=
  match a, b with
  | VBuiltin f, VBuiltin g => String.eqb f g
  | VBuiltins, VBuiltins => true
  | _, _ => false
  end.

Definition py_compare (op : cmpop) (a b : value) : result value :=
  match a, b with
  | VScalar x, VScalar y => b' ← scalar_cmp op x y; Ok (VBool b')
  | VList l1, VList l2 =>
      b' ← list_cmp item_eq (item_order op) op l1 l2 (length l1) (length l2);
      Ok (VBool b')
  | _, _ =>
      match op with
      | CEq => Ok (VBool (same_object a b))
      | CNotEq => Ok (VBool (negb (same_object a b)))
      | _ => Err TypeError
      end
  end.

(** ** Rule expressions

    A test of the configuration is the text of a Python expression, handed
    to [eval].  The expressions modelled are the boolean predicates over
    metric names: names, non-negative integer literals, comparisons and
    [and]/[or]/[not].  A test is kept as its syntax tree; [source_text]
    gives the text it is written as, every compound operand in
    parentheses.  The tree is the one Python parses from that text when its
    names are (ASCII) identifiers that are not keywords: [well_formed]. *)

Inductive expr : Type :=
  | EName (id : string)
  | ENum (n : N)
  | ECompare (op : cmpop) (l r : expr)
  | EAnd (l r : expr)
  | EOr (l r : expr)
  | ENot (e : expr).

Definition cmpop_text (op : cmpop) : string :=
  match op with
  | CEq => "=="
  | CNotEq => "!="
  | CLt => "<"
  | CLtE => "<="
  | CGt => ">"
  | CGtE => ">="
  end.

Definition is_atom (e : expr) : bool :=
  match e with
  | EName _ | ENum _ => true
  | _ => false
  end.

Fixpoint source_text (e : expr) : string :=
  let operand (e' : expr) (t : string) : string :=
    if is_atom e' then t else "(" +:+ t +:+ ")" in
  match e with
  | EName id => id
  | ENum n => NilZero.string_of_uint (N.to_uint n)
  | ECompare op l r =>
      operand l (source_text l) +:+ " " +:+ cmpop_text op +:+ " "
        +:+ operand r (source_text r)
  | EAnd l r =>
      operand l (source_text l) +:+ " and " +:+ operand r (source_text r)
  | EOr l r =>
      operand l (source_text l) +:+ " or " +:+ operand r (source_text r)
  | ENot e' => "not " +:+ operand e' (source_text e')
  end.

Definition is_letter (a : ascii) : bool :=
  let n := nat_of_ascii a in
  (Nat.leb 65 n && Nat.leb n 90) || (Nat.leb 97 n && Nat.leb n 122) || Nat.eqb n 95.

Definition is_digit (a : ascii) : bool :=
  let n := nat_of_ascii a in
  Nat.leb 48 n && Nat.leb n 57.

(** The keywords of Python 3, and the constant [__debug__]. *)
Definition keywords : list string :=
  ["False"; "None"; "True"; "and"; "as"; "assert"; "async"; "await"; "break";
   "class"; "continue"; "def"; "del"; "elif"; "else"; "except"; "finally";
   "for"; "from"; "global"; "if"; "import"; "in"; "is"; "lambda"; "nonlocal";
   "not"; "or"; "pass"; "raise"; "return"; "try"; "while"; "with"; "yield";
   "__debug__"].

Definition is_identifier (s : string) : bool :=
  match s with
  | EmptyString => false
  | String a rest =>
      is_letter a
      && forallb (fun c => is_letter c || is_digit c) (list_ascii_of_string rest)
      && negb (existsb (String.eqb s) keywords)
  end.

Fixpoint well_formed (e : expr) : bool :=
  match e with
  | EName id => is_identifier id
  | ENum _ => true
  | ECompare _ l r => well_formed l && well_formed r
  | EAnd l r => well_formed l && well_formed r
  | EOr l r => well_formed l && well_formed r
  | ENot e' => well_formed e'
  end.

(** The operand that the evaluation of an expression reaches first, when it
    is a name. *)
Fixpoint first_name (e : expr) : option string :=
  match e with
  | EName id => Some id
  | ENum _ => None
  | ECompare _ l _ => first_name l
  | EAnd l _ => first_name l
  | EOr l _ => first_name l
  | ENot e' => first_name e'
  end.

(** [eval(test, globals)]: a name is looked up in [globals], then among the
    names of the module [builtins] (reached through the entry
    [__builtins__] that [eval] puts in [globals]); a name found in neither
    raises NameError.  Were [__builtins__] bound by the caller to a cell or
    to a list, which cannot be subscripted by a name, the lookup through it
    raises TypeError; to an object of the builtins, it is not modelled.
    [and] and [or] short-circuit and return the operand that decided
    them. *)
Fixpoint eval_expr (builtins : gset string) (globals : gmap string value)
    (e : expr) : result value :=
  match e with
  | EName id =>
      match globals !! id with
      | Some v => Ok v
      | None =>
          match globals !! "__builtins__" with
          | Some VBuiltins | None =>
              if bool_decide (id ∈ builtins) then Ok (VBuiltin id)
              else Err NameError
          | Some (VBuiltin _) => Err Unmodelled
          | Some _ => Err TypeError
          end
      end
  | ENum n => Ok (VInt (Z.of_N n))
  | ECompare op l r =>
      a ← eval_expr builtins globals l;
      b ← eval_expr builtins globals r;
      py_compare op a b
  | EAnd l r =>
      a ← eval_expr builtins globals l;
      if truthy a then eval_expr builtins globals r else Ok a
  | EOr l r =>
      a ← eval_expr builtins globals l;
      if truthy a then Ok a else eval_expr builtins globals r
  | ENot e' =>
      a ← eval_expr builtins globals e';
      Ok (VBool (negb (truthy a)))
  end.

(** The dictionary passed as [globals] is the caller's own object: [eval]
    stores the module [builtins] in it under [__builtins__] when that key
    is absent, before the expression is evaluated. *)
Definition eval_globals (globals : gmap string value) : gmap string value :=
  match globals !! "__builtins__" with
  | Some _ => globals
  | None => <["__builtins__" := VBuiltins]> globals
  end.

Definition py_eval (builtins : gset string) (e : expr)
    (globals : gmap string value) : result value * gmap string value :=
  let globals := eval_globals globals in
  (if well_formed e then eval_expr builtins globals e else Err Unmodelled, globals).

(** ** The objects a scan works with *)

Record Measurement : Type := mkMeasurement {
  metric : Metric;
  column_name : option string;
  value_of : value
}.

(** [Measurement(metric, column_name=None, value=None)] *)
Definition set_value (v : value) (m : Measurement) : Measurement :=
  mkMeasurement (metric m) (column_name m) v.

Record TestResult : Type := mkTestResult {
  passed : bool;
  test : string;
  values : gmap string value;
  test_column_name : string
}.

Record ScanResult : Type := mkScanResult {
  measurements : list Measurement;
  test_results : list TestResult
}.

(** Modelled from the spec: [ScanResult.get], the lookup by (metric,
    column_name) that the scan result exposes; its class is imported by
    scan.py and not part of it.  The value of the first measurement recorded
    for the pair, [None] when there is none. *)
Definition ScanResult_get (r : ScanResult) (m : Metric) (c : string) : value :=
  match List.find (fun x => bool_decide (metric x = m ∧ column_name x = Some c))
          (measurements r) with
  | Some x => value_of x
  | None => VNone
  end.

Record ScanConfigurationColumn : Type := mkScanConfigurationColumn {
  tests : list expr
}.

(** The configuration is consumed through its methods.  [columns] is the
    dictionary of the configured columns, in insertion order. *)
Record ScanConfiguration : Type := mkScanConfiguration {
  table_name : string;
  sample_method : string;
  sample_percentage : option Z;
  is_metric_enabled : string -> Metric -> bool;
  get_validity_format : Column -> option string;
  get_mins_maxs_limit : string -> Z;
  get_frequent_values_limit : string -> Z;
  columns : list (string * ScanConfigurationColumn)
}.

(** Modelled from the spec: [ScanConfiguration.is_any_metric_enabled], a
    method of a class that is not part of scan.py: some metric of the list
    is enabled for the column. *)
Definition is_any_metric_enabled (cfg : ScanConfiguration) (c : string)
    (ms : list Metric) : bool :=
  existsb (is_metric_enabled cfg c) ms.

(** [dict.get(k)] on the configured columns. *)
Fixpoint columns_get (l : list (string * ScanConfigurationColumn)) (k : string)
    : option ScanConfigurationColumn :=
  match l with
  | [] => None
  | (k', c) :: rest => if String.eqb k' k then Some c else columns_get rest k
  end.

(** The validity configuration of a column: scan.py only tests it against
    [None]. *)
Inductive Validity : Type := validity_object.

Module ScanColumnCache.
Record t : Type := mk {
  validity : option Validity;
  is_validity_metric_enabled : bool;
  is_missing_metric_enabled : bool;
  non_missing_and_valid_condition : string;
  missing_condition : string;
  is_text : bool;
  is_number : bool;
  validity_format : option string;
  is_column_numeric_text_format : bool
}.

Definition set_is_text (b : bool) (c : t) : t :=
  mk (validity c) (is_validity_metric_enabled c) (is_missing_metric_enabled c)
     (non_missing_and_valid_condition c) (missing_condition c)
     b (is_number c) (validity_format c) (is_column_numeric_text_format c).

Definition set_is_number (b : bool) (c : t) : t :=
  mk (validity c) (is_validity_metric_enabled c) (is_missing_metric_enabled c)
     (non_missing_and_valid_condition c) (missing_condition c)
     (is_text c) b (validity_format c) (is_column_numeric_text_format c).

Definition set_validity_format (f : option string) (c : t) : t :=
  mk (validity c) (is_validity_metric_enabled c) (is_missing_metric_enabled c)
     (non_missing_and_valid_condition c) (missing_condition c)
     (is_text c) (is_number c) f (is_column_numeric_text_format c).

Definition set_is_column_numeric_text_format (b : bool) (c : t) : t :=
  mk (validity c) (is_validity_metric_enabled c) (is_missing_metric_enabled c)
     (non_missing_and_valid_condition c) (missing_condition c)
     (is_text c) (is_number c) (validity_format c) b.
End ScanColumnCache.

(** The dialect: the SQL fragments of one database engine.  An expression
    argument that scan.py can pass as [None] is an [option]. *)
Class Dialect : Type := {
  sql_columns_metadata_query : ScanConfiguration -> string;
  sql_expr_count_all : string;
  sql_expr_count_conditional : string -> string;
  sql_expr_conditional : string -> string -> string;
  sql_expr_length : string -> string;
  sql_expr_min : option string -> string;
  sql_expr_max : option string -> string;
  sql_expr_avg : option string -> string;
  sql_expr_sum : option string -> string;
  sql_expr_cast_text_to_number : string -> option string -> string;
  qualify_table_name : string -> string;
  qualify_column_name : string -> string;
  is_text : Column -> bool;
  is_number : Column -> bool
}.

(** The warehouse: a query gives one row, or all rows, of scalars, or
    fails. *)
Record Warehouse : Type := mkWarehouse {
  warehouse_name : string;
  execute_query_one : string -> result (list scalar);
  execute_query_all : string -> result (list (list scalar))
}.

(** ** The state of a scan *)

(** The fields of [self] that the methods read and write.  [sent] is the log
    of the batches forwarded to the reporting sink. *)
Record Scan : Type := mkScan {
  scan_result : ScanResult;
  scan_columns : list Column;
  column_caches : gmap string ScanColumnCache.t;
  sent : list (list Measurement)
}.

(** What the loop over the columns builds: the fields of the SELECT, the
    placeholder measurements, the indices of the missing and valid counts of
    each column, and the column caches it updates in place. *)
Record Batch : Type := mkBatch {
  b_fields : list string;
  b_measurements : list Measurement;
  b_column_metric_indices : gmap string (gmap string nat);
  b_caches : gmap string ScanColumnCache.t
}.

(** ** A small warehouse, for examples

    One table [customers] with one integer column [age]; the dialect writes
    standard SQL. *)

Module Example.

Definition sql : Dialect := {|
  sql_columns_metadata_query := fun cfg =>
    "SELECT column_name, data_type, is_nullable FROM information_schema.columns "
      +:+ "WHERE lower(table_name) = '" +:+ table_name cfg +:+ "'";
  sql_expr_count_all := "COUNT(*)";
  sql_expr_count_conditional := fun c => "COUNT(CASE WHEN " +:+ c +:+ " THEN 1 END)";
  sql_expr_conditional := fun c e => "CASE WHEN " +:+ c +:+ " THEN " +:+ e +:+ " END";
  sql_expr_length := fun e => "LENGTH(" +:+ e +:+ ")";
  sql_expr_min := fun e => "MIN(" +:+ default "None" e +:+ ")";
  sql_expr_max := fun e => "MAX(" +:+ default "None" e +:+ ")";
  sql_expr_avg := fun e => "AVG(" +:+ default "None" e +:+ ")";
  sql_expr_sum := fun e => "SUM(" +:+ default "None" e +:+ ")";
  sql_expr_cast_text_to_number := fun e _ => "CAST(" +:+ e +:+ " AS NUMERIC)";
  qualify_table_name := fun t => t;
  qualify_column_name := fun c => c;
  is_text := fun c => String.eqb (col_type c) "character varying";
  is_number := fun c => String.eqb (col_type c) "integer"
|}.

Definition age : Column := mkColumn "age" "integer" true.

(** The metrics [enabled] for every column, and the tests [ts] on [age]. *)
Definition configuration (enabled : list Metric) (ts : list expr) : ScanConfiguration := {|
  table_name := "customers";
  sample_method := "SYSTEM";
  sample_percentage := None;
  is_metric_enabled := fun _ m => bool_decide (m ∈ enabled);
  get_validity_format := fun _ => None;
  get_mins_maxs_limit := fun _ => 20%Z;
  get_frequent_values_limit := fun _ => 20%Z;
  columns := [("age", mkScanConfigurationColumn ts)]
|}.

(** A column cache without validity configuration; [missing] tells whether
    a missing metric is enabled. *)
Definition new_cache (missing : bool) (_ : ScanConfiguration) (c : Column)
    : ScanColumnCache.t :=
  ScanColumnCache.mk None false missing
    (col_name c +:+ " IS NOT NULL") (col_name c +:+ " IS NULL")
    false false None false.

(** The warehouse answers the aggregation query with the row [aggregates]
    and the distinct query of the grouped statistics with [grouped]. *)
Definition warehouse (aggregates grouped : list scalar) : Warehouse := {|
  warehouse_name := "example";
  execute_query_one := fun q =>
    if String.prefix "WITH" q then Ok grouped else Ok aggregates;
  execute_query_all := fun q =>
    if String.prefix "WITH" q then Ok []
    else Ok [[SStr "age"; SStr "integer"; SStr "YES"]]
|}.

(** Some of the built-in functions of Python 3. *)
Definition builtins : gset string :=
  list_to_set ["abs"; "all"; "any"; "bool"; "float"; "int"; "len"; "max"; "min";
               "pow"; "round"; "str"; "sum"].

Definition cache (missing : bool) : ScanColumnCache.t :=
  new_cache missing (configuration [] []) age.

(** The scan as [execute] has it when the aggregation pass starts. *)
Definition scan (missing : bool) : Scan :=
  mkScan (mkScanResult [mkMeasurement Metric.SCHEMA None (VList [IColumn age])] [])
    [age] {["age" := cache missing]} [].

(** The scan when the grouped statistics start, with the valid count [v]
    in its result. *)
Definition scan_with_valid_count (v : Z) : Scan :=
  mkScan (mkScanResult [mkMeasurement Metric.SCHEMA None (VList [IColumn age]);
                        mkMeasurement Metric.VALID_COUNT (Some "age") (VInt v)] [])
    [age] {["age" := cache false]} [].

(** The cache of [age] once the aggregation pass has classified the
    column. *)
Definition scanned_cache (missing : bool) : ScanColumnCache.t :=
  ScanColumnCache.set_is_number true (cache missing).

(** The batch of a scan that computes the row count only. *)
Definition batch_row_count : Batch :=
  mkBatch ["COUNT(*)"] [mkMeasurement Metric.ROW_COUNT None VNone]
    {["age" := ∅]} {["age" := scanned_cache false]}.

(** The batch of a scan that computes the missing count of [age]. *)
Definition batch_missing : Batch :=
  mkBatch ["COUNT(*)"; "COUNT(CASE WHEN age IS NULL THEN 1 END)"]
    [mkMeasurement Metric.ROW_COUNT None VNone;
     mkMeasurement Metric.MISSING_COUNT (Some "age") VNone]
    {["age" := {["missing" := 1]}]} {["age" := scanned_cache true]}.

(** The batch of a scan that computes the missing and valid counts of
    [age]. *)
Definition batch_counts : Batch :=
  mkBatch ["COUNT(*)"; "COUNT(CASE WHEN age IS NULL THEN 1 END)";
           "COUNT(CASE WHEN age IS NOT NULL THEN 1 END)"]
    [mkMeasurement Metric.ROW_COUNT None VNone;
     mkMeasurement Metric.MISSING_COUNT (Some "age") VNone;
     mkMeasurement Metric.VALID_COUNT (Some "age") VNone]
    {["age" := <["valid" := 2]> {["missing" := 1]}]} {["age" := scanned_cache false]}.

(** The measurements of the aggregation pass for 10 rows, 2 of them
    missing and 8 valid. *)
Definition measurements_counts : list Measurement :=
  [mkMeasurement Metric.ROW_COUNT None (VInt 10);
   mkMeasurement Metric.MISSING_COUNT (Some "age") (VInt 2);
   mkMeasurement Metric.VALID_COUNT (Some "age") (VInt 8);
   mkMeasurement Metric.MISSING_PERCENTAGE (Some "age") (VFloat 20);
   mkMeasurement Metric.VALUES_COUNT (Some "age") (VInt 8);
   mkMeasurement Metric.VALUES_PERCENTAGE (Some "age") (VFloat 80);
   mkMeasurement Metric.INVALID_PERCENTAGE (Some "age") (VFloat 0);
   mkMeasurement Metric.INVALID_COUNT (Some "age") (VInt 0);
   mkMeasurement Metric.VALID_PERCENTAGE (Some "age") (VFloat 80)].

(** Two rules: on a metric of the scan, and on a name of the builtins. *)
Definition missing_percentage_below_10 : expr :=
  ECompare CLt (EName "missing_percentage") (ENum 10).

Definition min_is_0 : expr := ECompare CEq (EName "min") (ENum 0).

(** The text of each test of a scan with its outcome. *)
Definition outcomes (r : result Scan) : result (list (string * bool)) :=
  s ← r; Ok (map (fun t => (test t, passed t)) (test_results (scan_result s))).

(** The values of three metrics of [age]. *)
Definition computed : gmap string value :=
  <["min" := VInt 18]> (<["max" := VInt 65]> {["missing_percentage" := VFloat 20]}).

(** A warehouse that answers the metadata query with the rows [metadata],
    the aggregation query with the row [aggregates], the distinct query of
    the grouped statistics with [grouped] and the queries for lists of
    values with the rows [listed]. *)
Definition warehouse_of (metadata : list (list scalar)) (aggregates grouped : list scalar)
    (listed : list (list scalar)) : Warehouse := {|
  warehouse_name := "example";
  execute_query_one := fun q =>
    if String.prefix "WITH" q then Ok grouped else Ok aggregates;
  execute_query_all := fun q =>
    if String.prefix "WITH" q then Ok listed else Ok metadata
|}.

(** The scan when the tests start, with the measurements of the
    aggregation pass in its result. *)
Definition scan_with_counts : Scan :=
  mkScan (mkScanResult measurements_counts []) [age] {["age" := scanned_cache false]} [].

(** A rule on the row count of the table. *)
Definition row_count_above_0 : expr := ECompare CGt (EName "row_count") (ENum 0).

End Example.

(** ** The scan *)

Section Scan.

Context {dialect : Dialect}.
Variable warehouse : Warehouse.
Variable scan_configuration : ScanConfiguration.
(** Whether a client of the reporting sink was given. *)
Variable soda_client : bool.
(** The constructor of [ScanColumnCache], a class that is not part of
    scan.py. *)
Variable new_ScanColumnCache : ScanConfiguration -> Column -> ScanColumnCache.t.
(** The names that the module [builtins] of the interpreter defines. *)
Variable builtins : gset string.

(** [__init__], lines 43-46 *)
Definition table_sample_clause : option string :=
  match sample_percentage scan_configuration with
  | Some p =>
      if Z.eqb p 0 then None
      else Some (nl +:+ "TABLESAMPLE " +:+ sample_method scan_configuration
                   +:+ "(" +:+ str_of_Z p +:+ ")")
  | None => None
  end.

(** *** The aggregation pass, lines 95-222 *)

Definition is_valid_enabled (column_cache : ScanColumnCache.t) (c : string) : bool :=
  (bool_decide (ScanColumnCache.validity column_cache ≠ None)
     && ScanColumnCache.is_validity_metric_enabled column_cache)
  || is_any_metric_enabled scan_configuration c [Metric.DISTINCT; Metric.UNIQUENESS].

Definition is_missing_enabled (column_cache : ScanColumnCache.t) (c : string) : bool :=
  is_valid_enabled column_cache c
  || ScanColumnCache.is_missing_metric_enabled column_cache.

(** Lines 127-135 *)
Definition missing_valid_metrics (column : Column) (column_cache : ScanColumnCache.t)
    (fields : list string) (measurements : list Measurement)
    : gmap string nat * list string * list Measurement :=
  let metric_indices : gmap string nat := ∅ in
  let '(metric_indices, fields, measurements) :=
    if is_missing_enabled column_cache (col_name column) then
      (<["missing" := length measurements]> metric_indices,
       fields ++ [sql_expr_count_conditional
                    (ScanColumnCache.missing_condition column_cache)],
       measurements ++ [mkMeasurement Metric.MISSING_COUNT (Some (col_name column)) VNone])
    else (metric_indices, fields, measurements) in
  if is_valid_enabled column_cache (col_name column) then
    (<["valid" := length measurements]> metric_indices,
     fields ++ [sql_expr_count_conditional
                  (ScanColumnCache.non_missing_and_valid_condition column_cache)],
     measurements ++ [mkMeasurement Metric.VALID_COUNT (Some (col_name column)) VNone])
  else (metric_indices, fields, measurements).

(** Lines 137-159 *)
Definition text_metrics (column : Column) (column_cache : ScanColumnCache.t)
    (fields : list string) (measurements : list Measurement)
    : ScanColumnCache.t * option string * list string * list Measurement :=
  let qualified_column_name := qualify_column_name (col_name column) in
  let non_missing_and_valid_condition :=
    ScanColumnCache.non_missing_and_valid_condition column_cache in
  if ScanColumnCache.is_text column_cache then
    let '(fields, measurements) :=
      if is_metric_enabled scan_configuration (col_name column) Metric.MIN_LENGTH then
        let length_expr :=
          sql_expr_conditional non_missing_and_valid_condition
            (sql_expr_length qualified_column_name) in
        (fields ++ [sql_expr_min (Some length_expr)],
         measurements ++ [mkMeasurement Metric.MIN_LENGTH (Some (col_name column)) VNone])
      else (fields, measurements) in
    let '(fields, measurements) :=
      if is_metric_enabled scan_configuration (col_name column) Metric.MAX_LENGTH then
        let length_expr :=
          sql_expr_conditional non_missing_and_valid_condition
            (sql_expr_length qualified_column_name) in
        (fields ++ [sql_expr_max (Some length_expr)],
         measurements ++ [mkMeasurement Metric.MAX_LENGTH (Some (col_name column)) VNone])
      else (fields, measurements) in
    let validity_format := get_validity_format scan_configuration column in
    let column_cache := ScanColumnCache.set_validity_format validity_format column_cache in
    let is_column_numeric_text_format :=
      match validity_format with
      | Some f => startswith f "number_"
      | None => false
      end in
    let column_cache :=
      ScanColumnCache.set_is_column_numeric_text_format
        is_column_numeric_text_format column_cache in
    let numeric_text_expr :=
      if is_column_numeric_text_format then
        Some (sql_expr_conditional non_missing_and_valid_condition
                (sql_expr_cast_text_to_number qualified_column_name validity_format))
      else None in
    (column_cache, numeric_text_expr, fields, measurements)
  else (column_cache, None, fields, measurements).

(** Lines 161-178 *)
Definition numeric_metrics (column : Column) (column_cache : ScanColumnCache.t)
    (numeric_text_expr : option string)
    (fields : list string) (measurements : list Measurement)
    : list string * list Measurement :=
  let qualified_column_name := qualify_column_name (col_name column) in
  if ScanColumnCache.is_number column_cache
     || ScanColumnCache.is_column_numeric_text_format column_cache then
    let numeric_expr :=
      if ScanColumnCache.is_number column_cache then Some qualified_column_name
      else numeric_text_expr in
    let '(fields, measurements) :=
      if is_metric_enabled scan_configuration (col_name column) Metric.MIN then
        (fields ++ [sql_expr_min numeric_expr],
         measurements ++ [mkMeasurement Metric.MIN (Some (col_name column)) VNone])
      else (fields, measurements) in
    let '(fields, measurements) :=
      if is_metric_enabled scan_configuration (col_name column) Metric.MAX then
        (fields ++ [sql_expr_max numeric_expr],
         measurements ++ [mkMeasurement Metric.MAX (Some (col_name column)) VNone])
      else (fields, measurements) in
    let '(fields, measurements) :=
      if is_metric_enabled scan_configuration (col_name column) Metric.AVG then
        (fields ++ [sql_expr_avg numeric_expr],
         measurements ++ [mkMeasurement Metric.AVG (Some (col_name column)) VNone])
      else (fields, measurements) in
    if is_metric_enabled scan_configuration (col_name column) Metric.SUM then
      (fields ++ [sql_expr_sum numeric_expr],
       measurements ++ [mkMeasurement Metric.SUM (Some (col_name column)) VNone])
    else (fields, measurements)
  else (fields, measurements).

(** The body of the loop over the columns, lines 108-178.  The dictionary
    [metric_indices] is stored in [column_metric_indices] when it is
    created and filled afterwards; here it is stored once filled. *)
Definition aggregation_column (b : Batch) (column : Column) : result Batch :=
  column_cache ← py_getitem (b_caches b) (col_name column);
  let column_cache := ScanColumnCache.set_is_text (is_text column) column_cache in
  let column_cache := ScanColumnCache.set_is_number (is_number column) column_cache in
  let '(metric_indices, fields, measurements) :=
    missing_valid_metrics column column_cache (b_fields b) (b_measurements b) in
  let '(column_cache, numeric_text_expr, fields, measurements) :=
    text_metrics column column_cache fields measurements in
  let '(fields, measurements) :=
    numeric_metrics column column_cache numeric_text_expr fields measurements in
  Ok (mkBatch fields measurements
        (<[col_name column := metric_indices]> (b_column_metric_indices b))
        (<[col_name column := column_cache]> (b_caches b))).

Fixpoint aggregation_columns (b : Batch) (cols : list Column) : result Batch :=
  match cols with
  | [] => Ok b
  | column :: rest =>
      b' ← aggregation_column b column;
      aggregation_columns b' rest
  end.

(** Lines 96-178: the row count, then the columns. *)
Definition aggregation_batch (self : Scan) : result Batch :=
  let measurements : list Measurement := [] in
  let fields : list string := [] in
  let fields := fields ++ [sql_expr_count_all] in
  let measurements := measurements ++ [mkMeasurement Metric.ROW_COUNT None VNone] in
  aggregation_columns (mkBatch fields measurements ∅ (column_caches self))
    (scan_columns self).

(** Lines 180-183 *)
Definition aggregation_sql (fields : list string) : string :=
  let sql := "SELECT " +:+ nl +:+ "  " +:+ join ("," +:+ nl +:+ "  ") fields
               +:+ " " +:+ nl +:+ "FROM "
               +:+ qualify_table_name (table_name scan_configuration) in
  match table_sample_clause with
  | Some c => sql +:+ nl +:+ c
  | None => sql
  end.

(** Lines 187-190: [measurements[i].value = query_result_tuple[i]] for [i]
    in the given range. *)
Fixpoint assign_values (query_result_tuple : list scalar) (range : list nat)
    (measurements : list Measurement) : result (list Measurement) :=
  match range with
  | [] => Ok measurements
  | i :: rest =>
      measurement ← py_index measurements i;
      v ← py_index query_result_tuple i;
      assign_values query_result_tuple rest
        (<[i := set_value (VScalar v) measurement]> measurements)
  end.

(** Lines 199-205: the measurements derived from a missing count. *)
Definition derive_missing (c : string) (row_count missing_count : value)
    : result (list Measurement) :=
  t ← py_mul missing_count (VInt 100);
  missing_percentage ← py_truediv t row_count;
  values_count ← py_sub row_count missing_count;
  t ← py_mul values_count (VInt 100);
  values_percentage ← py_truediv t row_count;
  Ok [mkMeasurement Metric.MISSING_PERCENTAGE (Some c) missing_percentage;
      mkMeasurement Metric.VALUES_COUNT (Some c) values_count;
      mkMeasurement Metric.VALUES_PERCENTAGE (Some c) values_percentage].

(** Lines 209-215: the measurements derived from a valid count. *)
Definition derive_valid (c : string) (row_count missing_count valid_count : value)
    : result (list Measurement) :=
  t ← py_sub row_count missing_count;
  invalid_count ← py_sub t valid_count;
  t ← py_mul invalid_count (VInt 100);
  invalid_percentage ← py_truediv t row_count;
  t ← py_mul valid_count (VInt 100);
  valid_percentage ← py_truediv t row_count;
  Ok [mkMeasurement Metric.INVALID_PERCENTAGE (Some c) invalid_percentage;
      mkMeasurement Metric.INVALID_COUNT (Some c) invalid_count;
      mkMeasurement Metric.VALID_PERCENTAGE (Some c) valid_percentage].

(** The body of the loop of the derived pass, lines 196-215. *)
Definition derive_column (measurements : list Measurement)
    (column_metric_indices : gmap string (gmap string nat)) (row_count : value)
    (derived_measurements : list Measurement) (column : Column)
    : result (list Measurement) :=
  metric_indices ← py_getitem column_metric_indices (col_name column);
  match metric_indices !! "missing" with
  | Some missing_index =>
      m ← py_index measurements missing_index;
      let missing_count := value_of m in
      d ← derive_missing (col_name column) row_count missing_count;
      let derived_measurements := derived_measurements ++ d in
      match metric_indices !! "valid" with
      | Some valid_index =>
          m ← py_index measurements valid_index;
          let valid_count := value_of m in
          d ← derive_valid (col_name column) row_count missing_count valid_count;
          Ok (derived_measurements ++ d)
      | None => Ok derived_measurements
      end
  | None => Ok derived_measurements
  end.

Fixpoint derive_columns (measurements : list Measurement)
    (column_metric_indices : gmap string (gmap string nat)) (row_count : value)
    (derived_measurements : list Measurement) (cols : list Column)
    : result (list Measurement) :=
  match cols with
  | [] => Ok derived_measurements
  | column :: rest =>
      d ← derive_column measurements column_metric_indices row_count
            derived_measurements column;
      derive_columns measurements column_metric_indices row_count d rest
  end.

(** Lines 192-222 *)
Definition derived_pass (self : Scan) (b : Batch) (measurements : list Measurement)
    : result (list Measurement) :=
  let derived_measurements : list Measurement := [] in
  m ← py_index measurements 0;
  let row_count := value_of m in
  derived_measurements ←
    derive_columns measurements (b_column_metric_indices b) row_count
      derived_measurements (scan_columns self);
  Ok (measurements ++ derived_measurements).

Definition with_caches (self : Scan) (caches : gmap string ScanColumnCache.t) : Scan :=
  mkScan (scan_result self) (scan_columns self) caches (sent self).

(** [query_aggregations], lines 95-222.  The measurements are returned with
    the scan, whose column caches the method has updated. *)
Definition query_aggregations (self : Scan) : result (list Measurement * Scan) :=
  b ← aggregation_batch self;
  let self := with_caches self (b_caches b) in
  let sql := aggregation_sql (b_fields b) in
  query_result_tuple ← execute_query_one warehouse sql;
  measurements ←
    assign_values query_result_tuple (seq 0 (length (b_measurements b)))
      (b_measurements b);
  measurements ← derived_pass self b measurements;
  Ok (measurements, self).

(** *** The grouped statistics, lines 224-323 *)

(** Lines 273-275 *)
Definition derive_uniqueness (distinct_count valid_count : value) : result value :=
  a ← py_sub distinct_count (VInt 1);
  n ← py_mul a (VInt 100);
  d ← py_sub valid_count (VInt 1);
  py_truediv n d.

(** [[row[0] for row in rows]] *)
Fixpoint first_cells (rows : list (list scalar)) : result (list scalar) :=
  match rows with
  | [] => Ok []
  | row :: rest =>
      x ← py_index row 0;
      xs ← first_cells rest;
      Ok (x :: xs)
  end.

(** Lines 257-260 *)
Definition distinct_sql (group_by_cte : string) : string :=
  group_by_cte +:+ " " +:+ nl
    +:+ "SELECT COUNT(*), " +:+ nl
    +:+ "       COUNT(CASE WHEN frequency = 1 THEN 1 END) " +:+ nl
    +:+ "FROM group_by_value".

(** Lines 254-277 *)
Definition distinct_metrics (self : Scan) (column : Column) (group_by_cte : string)
    (measurements : list Measurement) : result (list Measurement) :=
  if is_any_metric_enabled scan_configuration (col_name column)
       [Metric.DISTINCT; Metric.UNIQUENESS; Metric.UNIQUE_COUNT] then
    let sql := distinct_sql group_by_cte in
    query_result_tuple ← execute_query_one warehouse sql;
    distinct_count ← py_index query_result_tuple 0;
    let measurements :=
      measurements ++ [mkMeasurement Metric.DISTINCT (Some (col_name column))
                         (VScalar distinct_count)] in
    unique_count ← py_index query_result_tuple 1;
    let measurements :=
      measurements ++ [mkMeasurement Metric.UNIQUE_COUNT (Some (col_name column))
                         (VScalar unique_count)] in
    let valid_count :=
      ScanResult_get (scan_result self) Metric.VALID_COUNT (col_name column) in
    uniqueness ← derive_uniqueness (VScalar distinct_count) valid_count;
    Ok (measurements ++ [mkMeasurement Metric.UNIQUENESS (Some (col_name column))
                           uniqueness])
  else Ok measurements.

(** Lines 280-321: one of the three queries for lists of values. *)
Definition values_metric (column : Column) (column_cache : ScanColumnCache.t)
    (m : Metric) (sql : string) (measurements : list Measurement)
    : result (list Measurement) :=
  if is_metric_enabled scan_configuration (col_name column) m
     && (ScanColumnCache.is_number column_cache
         || ScanColumnCache.is_column_numeric_text_format column_cache) then
    rows ← execute_query_all warehouse sql;
    cells ← first_cells rows;
    Ok (measurements ++ [mkMeasurement m (Some (col_name column))
                           (VList (IScalar <$> cells))])
  else Ok measurements.

(** The common table expression of a column, lines 243-252. *)
Definition group_by_cte (column : Column) (column_cache : ScanColumnCache.t) : string :=
  let qualified_column_name := qualify_column_name (col_name column) in
  let qualified_table_name := qualify_table_name (table_name scan_configuration) in
  let table_sample_clause :=
    match table_sample_clause with
    | Some c => nl +:+ "    AND " +:+ c +:+ " " +:+ nl
    | None => ""
    end in
  "WITH group_by_value AS ( " +:+ nl
    +:+ "  SELECT " +:+ nl
    +:+ "    " +:+ qualified_column_name +:+ " AS value, " +:+ nl
    +:+ "    COUNT(*) AS frequency"
    +:+ "  FROM " +:+ qualified_table_name +:+ " " +:+ nl
    +:+ "  WHERE " +:+ ScanColumnCache.non_missing_and_valid_condition column_cache
    +:+ " " +:+ table_sample_clause +:+ nl
    +:+ "  GROUP BY " +:+ qualified_column_name +:+ " " +:+ nl
    +:+ ")".

(** The body of the loop, lines 230-321. *)
Definition group_by_column (self : Scan) (measurements : list Measurement)
    (column : Column) : result (list Measurement) :=
  let group_by_metrics :=
    [Metric.DISTINCT; Metric.UNIQUENESS; Metric.UNIQUE_COUNT;
     Metric.MINS; Metric.MAXS; Metric.FREQUENT_VALUES] in
  if is_any_metric_enabled scan_configuration (col_name column) group_by_metrics then
    column_cache ← py_getitem (column_caches self) (col_name column);
    let mins_maxs_limit := get_mins_maxs_limit scan_configuration (col_name column) in
    let numeric_expr :=
      if ScanColumnCache.is_number column_cache then "value"
      else sql_expr_cast_text_to_number "value"
             (ScanColumnCache.validity_format column_cache) in
    let group_by_cte := group_by_cte column column_cache in
    measurements ← distinct_metrics self column group_by_cte measurements;
    measurements ←
      values_metric column column_cache Metric.MINS
        (group_by_cte +:+ " " +:+ nl
           +:+ "SELECT value " +:+ nl
           +:+ "FROM group_by_value " +:+ nl
           +:+ "ORDER BY " +:+ numeric_expr +:+ " ASC " +:+ nl
           +:+ "LIMIT " +:+ str_of_Z mins_maxs_limit +:+ " " +:+ nl)
        measurements;
    measurements ←
      values_metric column column_cache Metric.MAXS
        (group_by_cte +:+ " " +:+ nl
           +:+ "SELECT value " +:+ nl
           +:+ "FROM group_by_value " +:+ nl
           +:+ "ORDER BY " +:+ numeric_expr +:+ " DESC " +:+ nl
           +:+ "LIMIT " +:+ str_of_Z mins_maxs_limit +:+ " " +:+ nl)
        measurements;
    let frequent_values_limit :=
      get_frequent_values_limit scan_configuration (col_name column) in
    values_metric column column_cache Metric.FREQUENT_VALUES
      (group_by_cte +:+ " " +:+ nl
         +:+ "SELECT value " +:+ nl
         +:+ "FROM group_by_value " +:+ nl
         +:+ "ORDER BY frequency DESC " +:+ nl
         +:+ "LIMIT " +:+ str_of_Z frequent_values_limit +:+ " " +:+ nl)
      measurements
  else Ok measurements.

Fixpoint group_by_columns (self : Scan) (measurements : list Measurement)
    (cols : list Column) : result (list Measurement) :=
  match cols with
  | [] => Ok measurements
  | column :: rest =>
      measurements ← group_by_column self measurements column;
      group_by_columns self measurements rest
  end.

(** [query_group_by_value], lines 224-323 *)
Definition query_group_by_value (self : Scan) : result (list Measurement) :=
  group_by_columns self [] (scan_columns self).

(** *** The test evaluator, lines 325-340 *)

(** Lines 331-335: the values measured for a column, by metric; a later
    measurement of a metric replaces an earlier one. *)
Definition column_measurement_values (ms : list Measurement) (c : string)
    : gmap string value :=
  fold_left
    (fun d m => if bool_decide (column_name m = Some c)
                then <[metric m := value_of m]> d else d)
    ms ∅.

(** Line 337: the entries whose metric occurs in the text of the test. *)
Definition select_test_values (d : gmap string value) (test : string)
    : gmap string value :=
  filter (fun kv => py_contains kv.1 test = true) d.

(** Lines 337-339 *)
Definition run_test (c : string) (d : gmap string value) (e : expr) : result TestResult :=
  let test := source_text e in
  let test_values := select_test_values d test in
  let '(r, test_values) := py_eval builtins e test_values in
  v ← r;
  let test_outcome := if truthy v then true else false in
  Ok (mkTestResult test_outcome test test_values c).

Fixpoint run_column_tests (c : string) (d : gmap string value) (ts : list expr)
    (results : list TestResult) : result (list TestResult) :=
  match ts with
  | [] => Ok results
  | e :: rest =>
      r ← run_test c d e;
      run_column_tests c d rest (results ++ [r])
  end.

(** The loop over the configured columns, lines 328-339. *)
Fixpoint run_tests_columns (self : Scan) (names : list string)
    (results : list TestResult) : result (list TestResult) :=
  match names with
  | [] => Ok results
  | c :: rest =>
      results ←
        match columns_get (columns scan_configuration) c with
        | None => Err AttributeError
        | Some scan_configuration_column =>
            match tests scan_configuration_column with
            | [] => Ok results
            | ts =>
                let d := column_measurement_values
                           (measurements (scan_result self)) c in
                run_column_tests c d ts results
            end
        end;
      run_tests_columns self rest results
  end.

(** [run_tests]: the configuration is an object, [__init__] has read its
    attributes; an empty dictionary of columns gives an empty loop. *)
Definition run_tests (self : Scan) : result (list TestResult) :=
  run_tests_columns self (map fst (columns scan_configuration)) [].

(** *** The orchestration, lines 56-93 and 342-346 *)

Definition add_measurements (self : Scan) (ms : list Measurement) : Scan :=
  match ms with
  | [] => self
  | _ =>
      mkScan (mkScanResult (measurements (scan_result self) ++ ms)
                (test_results (scan_result self)))
        (scan_columns self) (column_caches self)
        (if soda_client then sent self ++ [ms] else sent self)
  end.

Definition upper_ascii (a : ascii) : ascii :=
  let n := nat_of_ascii a in
  if (Nat.leb 97 n && Nat.leb n 122)%bool then ascii_of_nat (n - 32) else a.

(** [s.upper()], on ASCII text. *)
Fixpoint upper (s : string) : string :=
  match s with
  | EmptyString => EmptyString
  | String a s' => String (upper_ascii a) (upper s')
  end.

(** Lines 85-89.  A column of the model has strings for name and type: a
    metadata row that has another object there is reported as [Unmodelled]. *)
Definition column_of_tuple (column_tuple : list scalar) : result Column :=
  name ← py_index column_tuple 0;
  type ← py_index column_tuple 1;
  n ← py_index column_tuple 2;
  nullable ← match n with
             | SStr s => Ok (String.eqb "YES" (upper s))
             | _ => Err AttributeError
             end;
  match name, type with
  | SStr name, SStr type => Ok (mkColumn name type nullable)
  | _, _ => Err Unmodelled
  end.

Fixpoint columns_of_tuples (column_tuples : list (list scalar)) (columns : list Column)
    : result (list Column) :=
  match column_tuples with
  | [] => Ok columns
  | t :: rest =>
      c ← column_of_tuple t;
      columns_of_tuples rest (columns ++ [c])
  end.

Definition query_columns : result (list Column) :=
  let sql := sql_columns_metadata_query scan_configuration in
  column_tuples ← execute_query_all warehouse sql;
  columns_of_tuples column_tuples [].

(** [{column.name: ScanColumnCache(...) for column in self.columns}] *)
Definition build_column_caches (cols : list Column) : gmap string ScanColumnCache.t :=
  fold_left
    (fun d column =>
       <[col_name column := new_ScanColumnCache scan_configuration column]> d)
    cols ∅.

(** [execute], on the scan as [__init__] leaves it: an empty scan result. *)
Definition execute : result Scan :=
  if String.eqb (warehouse_name warehouse) "" then Err AssertionError else
  if String.eqb (table_name scan_configuration) "" then Err AssertionError else
  cols ← query_columns;
  let self := mkScan (mkScanResult [] []) cols ∅ [] in
  let schema_measurements :=
    [mkMeasurement Metric.SCHEMA None (VList (IColumn <$> cols))] in
  let self := add_measurements self schema_measurements in
  let self := with_caches self (build_column_caches cols) in
  '(aggregation_measurements, self) ← query_aggregations self;
  let self := add_measurements self aggregation_measurements in
  group_by_measurements ← query_group_by_value self;
  let self := add_measurements self group_by_measurements in
  results ← run_tests self;
  Ok (mkScan (mkScanResult (measurements (scan_result self))
                (test_results (scan_result self) ++ results))
        (scan_columns self) (column_caches self) (sent self)).

(** ** The vocabulary of the properties *)

(** The part of a column cache that the scan never writes. *)
Definition stable (c : ScanColumnCache.t) : option Validity * bool * bool :=
  (ScanColumnCache.validity c, ScanColumnCache.is_validity_metric_enabled c,
   ScanColumnCache.is_missing_metric_enabled c).

(** A placeholder of the batch: a measurement of the column, without value. *)
Definition placeholder (m : Metric) (c : string) : Measurement :=
  mkMeasurement m (Some c) VNone.

(** Measurements appended for one column: placeholders of that column, and a
    valid count among them only when the valid count is enabled. *)
Definition column_placeholders (cache : ScanColumnCache.t) (c : string)
    (new : list Measurement) : Prop :=
  Forall (fun m => column_name m = Some c /\ value_of m = VNone
                   /\ (metric m = Metric.VALID_COUNT -> is_valid_enabled cache c = true)
                   /\ (metric m = Metric.MISSING_COUNT -> is_missing_enabled cache c = true))
    new.

(** A pair of lists that extends [fields] and [measurements] in lock-step by
    placeholders of the column. *)
Definition extends (cache : ScanColumnCache.t) (c : string)
    (fields : list string) (measurements : list Measurement)
    (p : list string * list Measurement) : Prop :=
  exists newf newm,
    p.1 = fields ++ newf /\ p.2 = measurements ++ newm
    /\ length newf = length newm /\ column_placeholders cache c newm.

(** The indices recorded for a column point at its placeholders. *)
Definition indices_ok (cache : ScanColumnCache.t) (c : string)
    (mi : gmap string nat) (ms : list Measurement) : Prop :=
  (if is_missing_enabled cache c
   then exists i, mi !! "missing" = Some i
          /\ ms !! i = Some (placeholder Metric.MISSING_COUNT c)
   else mi !! "missing" = None)
  /\ (if is_valid_enabled cache c
      then exists i, mi !! "valid" = Some i
             /\ ms !! i = Some (placeholder Metric.VALID_COUNT c)
      else mi !! "valid" = None).

(** A measurement appended by the loop over [cols]: a placeholder of one of
    the columns. *)
Definition batch_placeholder (caches : gmap string ScanColumnCache.t)
    (cols : list Column) (m : Measurement) : Prop :=
  exists column cache,
    column ∈ cols /\ caches !! col_name column = Some cache
    /\ column_name m = Some (col_name column) /\ value_of m = VNone
    /\ (metric m = Metric.VALID_COUNT -> is_valid_enabled cache (col_name column) = true)
    /\ (metric m = Metric.MISSING_COUNT
        -> is_missing_enabled cache (col_name column) = true).

(** [count * 100 / row_count] on integers, as the exact rational. *)
Definition percentage (count row_count : Z) : Q :=
  Qred (inject_Z (count * 100) / inject_Z row_count).

(** [count * 100 / row_count], as the specification writes the
    percentages. *)
Definition percent_of (count row_count : value) : result value :=
  t ← py_mul count (VInt 100); py_truediv t row_count.

(** What the derived pass adds for a column, in terms of the row count
    [row_count] and of the counts of the column among the measurements [ms]:
    the list [p] holds the three measurements derived from the missing
    count, and the three derived from the valid count when the column has
    one. *)
Definition derived_values_for (self : Scan) (row_count : value)
    (ms : list Measurement) (column : Column) (p : list Measurement) : Prop :=
  forall cache,
    column_caches self !! col_name column = Some cache ->
    is_missing_enabled cache (col_name column) = true ->
    exists i missing_count missing_percentage values_count values_percentage,
      ms !! i = Some (mkMeasurement Metric.MISSING_COUNT (Some (col_name column))
                        missing_count)
      /\ percent_of missing_count row_count = Ok missing_percentage
      /\ py_sub row_count missing_count = Ok values_count
      /\ percent_of values_count row_count = Ok values_percentage
      /\ mkMeasurement Metric.MISSING_PERCENTAGE (Some (col_name column))
           missing_percentage ∈ p
      /\ mkMeasurement Metric.VALUES_COUNT (Some (col_name column)) values_count ∈ p
      /\ mkMeasurement Metric.VALUES_PERCENTAGE (Some (col_name column))
           values_percentage ∈ p
      /\ (is_valid_enabled cache (col_name column) = true ->
          exists j valid_count invalid_count invalid_percentage valid_percentage,
            ms !! j = Some (mkMeasurement Metric.VALID_COUNT (Some (col_name column))
                              valid_count)
            /\ py_sub values_count valid_count = Ok invalid_count
            /\ percent_of invalid_count row_count = Ok invalid_percentage
            /\ percent_of valid_count row_count = Ok valid_percentage
            /\ mkMeasurement Metric.INVALID_COUNT (Some (col_name column))
                 invalid_count ∈ p
            /\ mkMeasurement Metric.INVALID_PERCENTAGE (Some (col_name column))
                 invalid_percentage ∈ p
            /\ mkMeasurement Metric.VALID_PERCENTAGE (Some (col_name column))
                 valid_percentage ∈ p).

(** The cells of the missing and valid counts are integers, as SQL counts
    are. *)
Definition count_cells_int (b : Batch) (tuple : list scalar) : Prop :=
  forall i m, b_measurements b !! i = Some m ->
    metric m = Metric.MISSING_COUNT \/ metric m = Metric.VALID_COUNT ->
    exists z, tuple !! i = Some (SInt z).

(** What the derived pass adds for a column, in terms of the row count [r]
    and of the counts of the column among the measurements [ms]. *)
Definition derived_for (self : Scan) (r : Z) (ms : list Measurement)
    (column : Column) (p : list Measurement) : Prop :=
  forall cache,
    column_caches self !! col_name column = Some cache ->
    is_missing_enabled cache (col_name column) = true ->
    exists i a,
      ms !! i = Some (mkMeasurement Metric.MISSING_COUNT (Some (col_name column)) (VInt a))
      /\ mkMeasurement Metric.MISSING_PERCENTAGE (Some (col_name column))
           (VFloat (percentage a r)) ∈ p
      /\ mkMeasurement Metric.VALUES_COUNT (Some (col_name column)) (VInt (r - a)) ∈ p
      /\ mkMeasurement Metric.VALUES_PERCENTAGE (Some (col_name column))
           (VFloat (percentage (r - a) r)) ∈ p
      /\ (is_valid_enabled cache (col_name column) = true ->
          exists j v,
            ms !! j = Some (mkMeasurement Metric.VALID_COUNT (Some (col_name column))
                              (VInt v))
            /\ mkMeasurement Metric.INVALID_COUNT (Some (col_name column))
                 (VInt (r - a - v)) ∈ p
            /\ mkMeasurement Metric.INVALID_PERCENTAGE (Some (col_name column))
                 (VFloat (percentage (r - a - v) r)) ∈ p
            /\ mkMeasurement Metric.VALID_PERCENTAGE (Some (col_name column))
                 (VFloat (percentage v r)) ∈ p).

(** The measurement [m] is a valid count of the column [c]. *)
Definition is_valid_count_of (c : string) (m : Measurement) : Prop :=
  metric m = Metric.VALID_COUNT /\ column_name m = Some c.

(** A metadata row that [query_columns] reads as the column [c]: name, type
    and a flag of nullability that is YES in some case; cells after the
    third are not read. *)
Definition row_describes (row : list scalar) (c : Column) : Prop :=
  exists flag extra,
    row = SStr (col_name c) :: SStr (col_type c) :: SStr flag :: extra
    /\ col_nullable c = String.eqb "YES" (upper flag).

(** The metrics that the aggregation query computes for one column, in the
    order of their fields. *)
Definition raw_column_metrics : list Metric :=
  [Metric.MISSING_COUNT; Metric.VALID_COUNT; Metric.MIN_LENGTH; Metric.MAX_LENGTH;
   Metric.MIN; Metric.MAX; Metric.AVG; Metric.SUM].

(** The placeholders of one column in the batch: some of the eight, in
    their order, each at most once; the lengths for a text column only, and
    lengths and numeric aggregates only when the metric is enabled for the
    column. *)
Definition column_segment (column : Column) (seg : list Measurement) : Prop :=
  seg `sublist_of` ((fun m => placeholder m (col_name column)) <$> raw_column_metrics)
  /\ (forall m, m ∈ seg ->
        metric m ∈ [Metric.MIN_LENGTH; Metric.MAX_LENGTH] ->
        is_text column = true)
  /\ (forall m, m ∈ seg ->
        metric m ∈ [Metric.MIN_LENGTH; Metric.MAX_LENGTH;
                    Metric.MIN; Metric.MAX; Metric.AVG; Metric.SUM] ->
        is_metric_enabled scan_configuration (col_name column) (metric m) = true).

(** What the derived pass appends for one column: measurements of that
    column; the three derived from the missing count when the missing count
    is enabled, then the three derived from the valid count when the valid
    count is enabled; nothing else. *)
Definition derived_segment (self : Scan) (column : Column) (seg : list Measurement)
    : Prop :=
  Forall (fun m => column_name m = Some (col_name column)) seg
  /\ exists cache,
       column_caches self !! col_name column = Some cache
       /\ metric <$> seg
          = if is_missing_enabled cache (col_name column)
            then [Metric.MISSING_PERCENTAGE; Metric.VALUES_COUNT;
                  Metric.VALUES_PERCENTAGE]
                 ++ (if is_valid_enabled cache (col_name column)
                     then [Metric.INVALID_PERCENTAGE; Metric.INVALID_COUNT;
                           Metric.VALID_PERCENTAGE]
                     else [])
            else [].

(** The cache of a column once the aggregation pass has gone through the
    column: the dialect's classification of the column as text or number;
    for a text column, the validity format of the configuration and whether
    it is a numeric one; the fields that the pass does not write are those
    of the cache [c0] it started from. *)
Definition classified (column : Column) (c0 c : ScanColumnCache.t) : Prop :=
  stable c = stable c0
  /\ ScanColumnCache.non_missing_and_valid_condition c
     = ScanColumnCache.non_missing_and_valid_condition c0
  /\ ScanColumnCache.missing_condition c = ScanColumnCache.missing_condition c0
  /\ ScanColumnCache.is_text c = is_text column
  /\ ScanColumnCache.is_number c = is_number column
  /\ (if is_text column
      then ScanColumnCache.validity_format c
           = get_validity_format scan_configuration column
           /\ ScanColumnCache.is_column_numeric_text_format c
              = match get_validity_format scan_configuration column with
                | Some f => startswith f "number_"
                | None => false
                end
      else ScanColumnCache.validity_format c = ScanColumnCache.validity_format c0
           /\ ScanColumnCache.is_column_numeric_text_format c
              = ScanColumnCache.is_column_numeric_text_format c0).

(** The metrics of the grouped statistics. *)
Definition group_by_metrics : list Metric :=
  [Metric.DISTINCT; Metric.UNIQUENESS; Metric.UNIQUE_COUNT;
   Metric.MINS; Metric.MAXS; Metric.FREQUENT_VALUES].

(** The scan restricted to the columns that satisfy [keep]. *)
Definition with_columns (self : Scan) (keep : Column -> bool) : Scan :=
  mkScan (scan_result self) (List.filter keep (scan_columns self))
    (column_caches self) (sent self).

(** A measurement of the grouped statistics of one of the columns [cols]:
    a distinct count, unique count or uniqueness of a column for which one
    of the three is enabled, or the list of values of an enabled metric of
    a column that the cache has as a number or as numeric text. *)
Definition group_by_measurement (self : Scan) (cols : list Column) (m : Measurement)
    : Prop :=
  exists column cache,
    column ∈ cols
    /\ column_caches self !! col_name column = Some cache
    /\ column_name m = Some (col_name column)
    /\ ((metric m ∈ [Metric.DISTINCT; Metric.UNIQUE_COUNT; Metric.UNIQUENESS]
         /\ is_any_metric_enabled scan_configuration (col_name column)
              [Metric.DISTINCT; Metric.UNIQUENESS; Metric.UNIQUE_COUNT] = true)
        \/ (metric m ∈ [Metric.MINS; Metric.MAXS; Metric.FREQUENT_VALUES]
            /\ is_metric_enabled scan_configuration (col_name column) (metric m) = true
            /\ (ScanColumnCache.is_number cache
                || ScanColumnCache.is_column_numeric_text_format cache) = true
            /\ exists cells, value_of m = VList (IScalar <$> cells))).

(** The tests of the configuration, each with the name of the column it is
    configured for, in the order of the configuration. *)
Definition configured_tests : list (string * expr) :=
  flat_map (fun kc => (fun e => (kc.1, e)) <$> tests kc.2) (columns scan_configuration).

(** The result [r] is that of the test [ce] of the configuration on the
    measurements of the scan. *)
Definition result_of_test (self : Scan) (ce : string * expr) (r : TestResult) : Prop :=
  run_test ce.1 (column_measurement_values (measurements (scan_result self)) ce.1) ce.2
  = Ok r.

(** The metrics that the aggregation pass measures on a column: those of
    the aggregation query, then those derived from the counts. *)
Definition aggregation_metrics : list Metric :=
  raw_column_metrics
  ++ [Metric.MISSING_PERCENTAGE; Metric.VALUES_COUNT; Metric.VALUES_PERCENTAGE;
      Metric.INVALID_PERCENTAGE; Metric.INVALID_COUNT; Metric.VALID_PERCENTAGE].

(** The twenty metrics that a scan measures on a column: those of the
    aggregation pass and the grouped statistics. *)
Definition column_metrics : list Metric :=
  aggregation_metrics
  ++ [Metric.DISTINCT; Metric.UNIQUE_COUNT; Metric.UNIQUENESS;
      Metric.MINS; Metric.MAXS; Metric.FREQUENT_VALUES].

(** A measurement of one of the columns [cols], of one of the [metrics]. *)
Definition measurement_of (metrics : list Metric) (cols : list Column)
    (m : Measurement) : Prop :=
  exists column,
    column ∈ cols /\ column_name m = Some (col_name column) /\ metric m ∈ metrics.

(** The scan as [execute] has it after the discovery of the columns
    [cols]: the schema measurement added, the column caches built. *)
Definition discovered (cols : list Column) : Scan :=
  with_caches
    (add_measurements (mkScan (mkScanResult [] []) cols ∅ [])
       [mkMeasurement Metric.SCHEMA None (VList (IColumn <$> cols))])
    (build_column_caches cols).

(** ** Properties *)

Set Default Proof Using "Type".

(** ** Reasoning about fallible computations *)

Lemma bind_Ok {A B : Type} (r : result A) (k : A -> result B) (b : B) :
  (r ≫= k) = Ok b <-> exists a, r = Ok a /\ k a = Ok b.
Proof.
  destruct r as [a|e]; simpl; split.
  - intros H. exists a. auto.
  - intros (a' & Ha & Hk). congruence.
  - discriminate.
  - intros (a' & Ha & _). discriminate.
Qed.

Lemma py_index_Ok {A : Type} (l : list A) (i : nat) (x : A) :
  py_index l i = Ok x <-> l !! i = Some x.
Proof. unfold py_index. destruct (l !! i); split; congruence. Qed.

Lemma py_getitem_Ok {A : Type} (d : gmap string A) (k : string) (x : A) :
  py_getitem d k = Ok x <-> d !! k = Some x.
Proof. unfold py_getitem. destruct (d !! k); split; congruence. Qed.

Ltac inv_bind H :=
  let a := fresh "a" in
  let Ha := fresh "Ha" in
  apply bind_Ok in H; destruct H as (a & Ha & H).

(** ** The aggregation batch *)

Lemma is_valid_enabled_stable c1 c2 n :
  stable c1 = stable c2 -> is_valid_enabled c1 n = is_valid_enabled c2 n.
Proof.
  unfold stable, is_valid_enabled. intros H.
  injection H as Hv Hve Hm. rewrite Hv, Hve. reflexivity.
Qed.

Lemma is_missing_enabled_stable c1 c2 n :
  stable c1 = stable c2 -> is_missing_enabled c1 n = is_missing_enabled c2 n.
Proof.
  intros H. unfold is_missing_enabled.
  rewrite (is_valid_enabled_stable c1 c2 n H).
  unfold stable in H. injection H as _ _ Hm. rewrite Hm. reflexivity.
Qed.

Lemma missing_valid_metrics_spec column cache fields measurements mi fields' measurements' :
  missing_valid_metrics column cache fields measurements = (mi, fields', measurements') ->
  exists newf newm,
    fields' = fields ++ newf /\ measurements' = measurements ++ newm
    /\ length newf = length newm
    /\ column_placeholders cache (col_name column) newm
    /\ (if is_missing_enabled cache (col_name column)
        then exists i, mi !! "missing" = Some i
               /\ measurements' !! i = Some (placeholder Metric.MISSING_COUNT (col_name column))
        else mi !! "missing" = None)
    /\ (if is_valid_enabled cache (col_name column)
        then exists i, mi !! "valid" = Some i
               /\ measurements' !! i = Some (placeholder Metric.VALID_COUNT (col_name column))
        else mi !! "valid" = None).
Proof.
  unfold missing_valid_metrics, column_placeholders, placeholder.
  destruct (is_missing_enabled cache (col_name column)) eqn:Hm;
    destruct (is_valid_enabled cache (col_name column)) eqn:Hv;
    intros H; injection H as <- <- <-.
  - exists [sql_expr_count_conditional (ScanColumnCache.missing_condition cache);
            sql_expr_count_conditional
              (ScanColumnCache.non_missing_and_valid_condition cache)],
           [mkMeasurement Metric.MISSING_COUNT (Some (col_name column)) VNone;
            mkMeasurement Metric.VALID_COUNT (Some (col_name column)) VNone].
    rewrite <- !app_assoc. simpl. split_and!; try reflexivity.
    + repeat constructor.
    + exists (length measurements). split.
      * rewrite lookup_insert_ne by discriminate. apply lookup_insert_eq.
      * rewrite lookup_app_r by lia. rewrite Nat.sub_diag. reflexivity.
    + exists (length (measurements ++
                [mkMeasurement Metric.MISSING_COUNT (Some (col_name column)) VNone])).
      split.
      * apply lookup_insert_eq.
      * rewrite length_app. simpl. rewrite lookup_app_r by lia.
        replace (length measurements + 1 - length measurements) with 1 by lia.
        reflexivity.
  - exists [sql_expr_count_conditional (ScanColumnCache.missing_condition cache)],
           [mkMeasurement Metric.MISSING_COUNT (Some (col_name column)) VNone].
    split_and!; try reflexivity.
    + repeat constructor. discriminate.
    + exists (length measurements). split.
      * apply lookup_insert_eq.
      * rewrite lookup_app_r by lia. rewrite Nat.sub_diag. reflexivity.
  - exists [sql_expr_count_conditional
              (ScanColumnCache.non_missing_and_valid_condition cache)],
           [mkMeasurement Metric.VALID_COUNT (Some (col_name column)) VNone].
    split_and!; try reflexivity.
    + repeat constructor. discriminate.
    + exists (length measurements). split.
      * apply lookup_insert_eq.
      * rewrite lookup_app_r by lia. rewrite Nat.sub_diag. reflexivity.
  - exists [], []. rewrite !app_nil_r. split_and!; try reflexivity. constructor.
Qed.

Lemma column_placeholders_app cache c l1 l2 :
  column_placeholders cache c l1 -> column_placeholders cache c l2 ->
  column_placeholders cache c (l1 ++ l2).
Proof. apply Forall_app_2. Qed.

Lemma column_placeholders_other cache c (m : Metric) :
  m <> Metric.VALID_COUNT -> m <> Metric.MISSING_COUNT ->
  column_placeholders cache c [mkMeasurement m (Some c) VNone].
Proof.
  intros Hv Hm. constructor; [|constructor]. simpl.
  split_and!; try reflexivity; intros; contradiction.
Qed.

(** Appending one field and one placeholder to a pair of extensions. *)
Lemma extend_pair (cache : ScanColumnCache.t) (c : string)
    (fields : list string) (measurements : list Measurement)
    (newf : list string) (newm : list Measurement) (f : string) (m : Metric) :
  m <> Metric.VALID_COUNT -> m <> Metric.MISSING_COUNT ->
  length newf = length newm -> column_placeholders cache c newm ->
  exists newf' newm',
    (fields ++ newf) ++ [f] = fields ++ newf'
    /\ (measurements ++ newm) ++ [mkMeasurement m (Some c) VNone] = measurements ++ newm'
    /\ length newf' = length newm' /\ column_placeholders cache c newm'.
Proof.
  intros Hv Hm Hlen Hp.
  exists (newf ++ [f]), (newm ++ [mkMeasurement m (Some c) VNone]).
  rewrite <- !app_assoc, !length_app. simpl. split_and!; try reflexivity.
  - lia.
  - apply column_placeholders_app; [assumption|].
    apply column_placeholders_other; assumption.
Qed.

Lemma extends_refl cache c fields measurements :
  extends cache c fields measurements (fields, measurements).
Proof.
  exists [], []. simpl. rewrite !app_nil_r. split_and!; try reflexivity. constructor.
Qed.

Lemma extends_step cache c fields measurements f0 m0 (b : bool) f (m : Metric) :
  m <> Metric.VALID_COUNT -> m <> Metric.MISSING_COUNT ->
  extends cache c fields measurements (f0, m0) ->
  extends cache c fields measurements
    (if b then (f0 ++ [f], m0 ++ [mkMeasurement m (Some c) VNone]) else (f0, m0)).
Proof.
  intros Hv Hm (newf & newm & Hf & Hms & Hlen & Hp). simpl in Hf, Hms. subst f0 m0.
  destruct b; [|exists newf, newm; auto].
  destruct (extend_pair cache c fields measurements newf newm f m Hv Hm Hlen Hp)
    as (newf' & newm' & E1 & E2 & Hlen' & Hp').
  exists newf', newm'. simpl. auto.
Qed.

Lemma text_metrics_spec column cache cache0 fields measurements cache' nte fields' measurements' :
  text_metrics column cache fields measurements = (cache', nte, fields', measurements') ->
  extends cache0 (col_name column) fields measurements (fields', measurements')
  /\ stable cache' = stable cache.
Proof.
  unfold text_metrics.
  destruct (ScanColumnCache.is_text cache).
  - pose proof (extends_step cache0 (col_name column) fields measurements
                  fields measurements
                  (is_metric_enabled scan_configuration (col_name column) Metric.MIN_LENGTH)
                  (sql_expr_min (Some (sql_expr_conditional
                     (ScanColumnCache.non_missing_and_valid_condition cache)
                     (sql_expr_length (qualify_column_name (col_name column))))))
                  Metric.MIN_LENGTH ltac:(discriminate) ltac:(discriminate)
                  (extends_refl _ _ _ _)) as H1.
    destruct (if is_metric_enabled scan_configuration (col_name column) Metric.MIN_LENGTH
              then _ else _) as [f1 m1].
    pose proof (extends_step cache0 (col_name column) fields measurements f1 m1
                  (is_metric_enabled scan_configuration (col_name column) Metric.MAX_LENGTH)
                  (sql_expr_max (Some (sql_expr_conditional
                     (ScanColumnCache.non_missing_and_valid_condition cache)
                     (sql_expr_length (qualify_column_name (col_name column))))))
                  Metric.MAX_LENGTH ltac:(discriminate) ltac:(discriminate) H1) as H2.
    destruct (if is_metric_enabled scan_configuration (col_name column) Metric.MAX_LENGTH
              then _ else _) as [f2 m2].
    intros H. injection H as <- _ <- <-. split; [exact H2|reflexivity].
  - intros H. injection H as <- _ <- <-. split; [apply extends_refl|reflexivity].
Qed.

Lemma numeric_metrics_spec column cache cache0 nte fields measurements :
  extends cache0 (col_name column) fields measurements
    (numeric_metrics column cache nte fields measurements).
Proof.
  unfold numeric_metrics.
  destruct (ScanColumnCache.is_number cache
            || ScanColumnCache.is_column_numeric_text_format cache);
    [|apply extends_refl].
  set (numeric_expr := if ScanColumnCache.is_number cache then _ else _).
  pose proof (extends_step cache0 (col_name column) fields measurements
                fields measurements
                (is_metric_enabled scan_configuration (col_name column) Metric.MIN)
                (sql_expr_min numeric_expr)
                Metric.MIN ltac:(discriminate) ltac:(discriminate)
                (extends_refl _ _ _ _)) as H1.
  destruct (if is_metric_enabled scan_configuration (col_name column) Metric.MIN
            then _ else _) as [f1 m1].
  pose proof (extends_step cache0 (col_name column) fields measurements f1 m1
                (is_metric_enabled scan_configuration (col_name column) Metric.MAX)
                (sql_expr_max numeric_expr)
                Metric.MAX ltac:(discriminate) ltac:(discriminate) H1) as H2.
  destruct (if is_metric_enabled scan_configuration (col_name column) Metric.MAX
            then _ else _) as [f2 m2].
  pose proof (extends_step cache0 (col_name column) fields measurements f2 m2
                (is_metric_enabled scan_configuration (col_name column) Metric.AVG)
                (sql_expr_avg numeric_expr)
                Metric.AVG ltac:(discriminate) ltac:(discriminate) H2) as H3.
  destruct (if is_metric_enabled scan_configuration (col_name column) Metric.AVG
            then _ else _) as [f3 m3].
  exact (extends_step cache0 (col_name column) fields measurements f3 m3
           (is_metric_enabled scan_configuration (col_name column) Metric.SUM)
           (sql_expr_sum numeric_expr)
           Metric.SUM ltac:(discriminate) ltac:(discriminate) H3).
Qed.

Lemma indices_ok_app cache c mi ms new :
  indices_ok cache c mi ms -> indices_ok cache c mi (ms ++ new).
Proof.
  unfold indices_ok. intros [Hm Hv]. split.
  - destruct (is_missing_enabled cache c); [|assumption].
    destruct Hm as (i & Hi & Hl). exists i. split; [assumption|].
    apply lookup_app_l_Some. assumption.
  - destruct (is_valid_enabled cache c); [|assumption].
    destruct Hv as (i & Hi & Hl). exists i. split; [assumption|].
    apply lookup_app_l_Some. assumption.
Qed.

Lemma indices_ok_stable cache1 cache2 c mi ms :
  stable cache1 = stable cache2 ->
  indices_ok cache1 c mi ms -> indices_ok cache2 c mi ms.
Proof.
  intros Hs. unfold indices_ok.
  rewrite (is_missing_enabled_stable _ _ c Hs), (is_valid_enabled_stable _ _ c Hs).
  auto.
Qed.

Lemma column_placeholders_stable cache1 cache2 c new :
  stable cache1 = stable cache2 ->
  column_placeholders cache1 c new -> column_placeholders cache2 c new.
Proof.
  intros Hs. unfold column_placeholders.
  rewrite (is_missing_enabled_stable _ _ c Hs), (is_valid_enabled_stable _ _ c Hs).
  auto.
Qed.

Lemma aggregation_column_spec b column b' :
  aggregation_column b column = Ok b' ->
  exists cache mi newf newm,
    b_caches b !! col_name column = Some cache
    /\ b_fields b' = b_fields b ++ newf
    /\ b_measurements b' = b_measurements b ++ newm
    /\ length newf = length newm
    /\ column_placeholders cache (col_name column) newm
    /\ b_column_metric_indices b'
       = <[col_name column := mi]> (b_column_metric_indices b)
    /\ indices_ok cache (col_name column) mi (b_measurements b')
    /\ stable <$> b_caches b' = stable <$> b_caches b.
Proof.
  unfold aggregation_column. intros H. inv_bind H.
  apply py_getitem_Ok in Ha. rename a into cache.
  set (cache1 := ScanColumnCache.set_is_number (is_number column)
                   (ScanColumnCache.set_is_text (is_text column) cache)) in H.
  assert (Hs1 : stable cache1 = stable cache) by reflexivity.
  destruct (missing_valid_metrics column cache1 (b_fields b) (b_measurements b))
    as [[mi f1] m1] eqn:E1.
  destruct (text_metrics column cache1 f1 m1) as [[[cache2 nte] f2] m2] eqn:E2.
  destruct (numeric_metrics column cache2 nte f2 m2) as [f3 m3] eqn:E3.
  injection H as <-. simpl.
  apply missing_valid_metrics_spec in E1.
  destruct E1 as (nf1 & nm1 & -> & -> & Hl1 & Hp1 & Hmiss & Hval).
  apply (text_metrics_spec _ _ cache1) in E2.
  destruct E2 as [(nf2 & nm2 & Hf2 & Hm2 & Hl2 & Hp2) Hs2]. simpl in Hf2, Hm2. subst f2 m2.
  pose proof (numeric_metrics_spec column cache2 cache1 nte
                ((b_fields b ++ nf1) ++ nf2) ((b_measurements b ++ nm1) ++ nm2))
    as (nf3 & nm3 & Hf3 & Hm3 & Hl3 & Hp3).
  rewrite E3 in Hf3, Hm3. simpl in Hf3, Hm3. subst f3 m3.
  exists cache, mi, (nf1 ++ nf2 ++ nf3), (nm1 ++ nm2 ++ nm3).
  split_and!.
  - assumption.
  - rewrite <- !app_assoc. reflexivity.
  - rewrite <- !app_assoc. reflexivity.
  - rewrite !length_app. lia.
  - apply (column_placeholders_stable cache1); [assumption|].
    repeat apply column_placeholders_app; assumption.
  - reflexivity.
  - apply (indices_ok_stable cache1); [assumption|].
    rewrite <- (app_assoc _ nm2 nm3).
    apply indices_ok_app. split; assumption.
  - rewrite fmap_insert. apply insert_id. rewrite lookup_fmap, Ha. simpl.
    rewrite Hs2, Hs1. reflexivity.
Qed.

Lemma aggregation_column_total b column :
  is_Some (b_caches b !! col_name column) ->
  exists b', aggregation_column b column = Ok b'.
Proof.
  intros [cache Hc]. unfold aggregation_column, py_getitem. rewrite Hc. simpl.
  destruct (missing_valid_metrics _ _ _ _) as [[mi f1] m1].
  destruct (text_metrics _ _ _ _) as [[[cache2 nte] f2] m2].
  destruct (numeric_metrics _ _ _ _ _) as [f3 m3].
  eexists. reflexivity.
Qed.

Lemma stable_lookup (m1 m2 : gmap string ScanColumnCache.t) k c1 :
  stable <$> m1 = stable <$> m2 -> m1 !! k = Some c1 ->
  exists c2, m2 !! k = Some c2 /\ stable c1 = stable c2.
Proof.
  intros Hs H1. assert (H := f_equal (fun m => m !! k) Hs). simpl in H.
  rewrite !lookup_fmap, H1 in H. simpl in H.
  destruct (m2 !! k) as [c2|]; [|discriminate].
  exists c2. split; [reflexivity|]. simpl in H. congruence.
Qed.

Lemma aggregation_columns_spec cols : forall b b',
  aggregation_columns b cols = Ok b' ->
  (exists newf newm,
      b_fields b' = b_fields b ++ newf
      /\ b_measurements b' = b_measurements b ++ newm
      /\ length newf = length newm
      /\ Forall (batch_placeholder (b_caches b) cols) newm)
  /\ stable <$> b_caches b' = stable <$> b_caches b
  /\ (forall k, k ∉ col_name <$> cols ->
        b_column_metric_indices b' !! k = b_column_metric_indices b !! k)
  /\ (forall column, column ∈ cols ->
        exists cache mi,
          b_caches b !! col_name column = Some cache
          /\ b_column_metric_indices b' !! col_name column = Some mi
          /\ indices_ok cache (col_name column) mi (b_measurements b')).
Proof.
  induction cols as [|column rest IH]; intros b b' H; simpl in H.
  - injection H as <-. split_and!.
    + exists [], []. rewrite !app_nil_r. split_and!; try reflexivity. constructor.
    + reflexivity.
    + reflexivity.
    + intros column Hin. apply elem_of_nil in Hin. contradiction.
  - inv_bind H. rename a into b1.
    apply aggregation_column_spec in Ha.
    destruct Ha as (cache & mi & nf1 & nm1 & Hc & Hf1 & Hm1 & Hl1 & Hp1 & Hcmi & Hidx & Hs1).
    destruct (IH b1 b' H) as ((nf2 & nm2 & Hf2 & Hm2 & Hl2 & Hp2) & Hs2 & Hother & Hcols).
    split_and!.
    + exists (nf1 ++ nf2), (nm1 ++ nm2). split_and!.
      * rewrite Hf2, Hf1, <- app_assoc. reflexivity.
      * rewrite Hm2, Hm1, <- app_assoc. reflexivity.
      * rewrite !length_app. lia.
      * apply Forall_app_2.
        -- eapply Forall_impl; [exact Hp1|]. simpl.
           intros m (Hn & Hv & Hvc & Hmc).
           exists column, cache. split_and!; try assumption. apply list_elem_of_here.
        -- eapply Forall_impl; [exact Hp2|]. simpl.
           intros m (c & cache1 & Hin & Hc1 & Hn & Hv & Hvc & Hmc).
           destruct (stable_lookup _ _ _ _ Hs1 Hc1) as (cache0 & Hc0 & Hst).
           exists c, cache0. split_and!; try assumption.
           ++ apply list_elem_of_further. assumption.
           ++ rewrite <- (is_valid_enabled_stable _ _ _ Hst). assumption.
           ++ rewrite <- (is_missing_enabled_stable _ _ _ Hst). assumption.
    + rewrite Hs2, Hs1. reflexivity.
    + intros k Hk. simpl in Hk. apply not_elem_of_cons in Hk as [Hne Hk].
      rewrite (Hother k Hk), Hcmi. apply lookup_insert_ne. congruence.
    + intros c Hin.
      destruct (decide (col_name c ∈ col_name <$> rest)) as [Hr|Hr].
      * apply list_elem_of_fmap in Hr as (c' & Hname & Hin').
        destruct (Hcols c' Hin') as (cache1 & mi' & Hc1 & Hmi' & Hidx').
        destruct (stable_lookup _ _ _ _ Hs1 Hc1) as (cache0 & Hc0 & Hst).
        rewrite <- Hname in *.
        exists cache0, mi'. split_and!; try assumption.
        apply (indices_ok_stable cache1); assumption.
      * apply elem_of_cons in Hin as [->|Hin].
        -- exists cache, mi. split_and!.
           ++ assumption.
           ++ rewrite (Hother _ Hr), Hcmi. apply lookup_insert_eq.
           ++ rewrite Hm2. apply indices_ok_app. assumption.
        -- exfalso. apply Hr. apply list_elem_of_fmap. exists c. auto.
Qed.

Lemma aggregation_columns_total cols : forall b,
  (forall column, column ∈ cols -> is_Some (b_caches b !! col_name column)) ->
  exists b', aggregation_columns b cols = Ok b'.
Proof.
  induction cols as [|column rest IH]; intros b Hdom; simpl.
  - exists b. reflexivity.
  - destruct (aggregation_column_total b column) as [b1 H1].
    { apply Hdom. apply list_elem_of_here. }
    rewrite H1. simpl. apply IH. intros c Hin.
    destruct (Hdom c (list_elem_of_further _ _ _ Hin)) as [cache Hc].
    apply aggregation_column_spec in H1.
    destruct H1 as (_ & _ & _ & _ & _ & _ & _ & _ & _ & _ & _ & Hs).
    symmetry in Hs.
    destruct (stable_lookup _ _ _ _ Hs Hc) as (cache' & Hc' & _).
    rewrite Hc'. eauto.
Qed.

Lemma build_column_caches_acc cols : forall (d : gmap string ScanColumnCache.t) k,
  is_Some (d !! k) ->
  is_Some (fold_left
             (fun d column =>
                <[col_name column := new_ScanColumnCache scan_configuration column]> d)
             cols d !! k).
Proof.
  induction cols as [|c rest IH]; intros d k Hk; simpl; [assumption|].
  apply IH. rewrite lookup_insert. destruct (decide (col_name c = k)); eauto.
Qed.

Lemma build_column_caches_dom cols column :
  column ∈ cols -> is_Some (build_column_caches cols !! col_name column).
Proof.
  unfold build_column_caches. generalize (∅ : gmap string ScanColumnCache.t).
  induction cols as [|c rest IH]; intros d Hin.
  - apply elem_of_nil in Hin. contradiction.
  - simpl. apply elem_of_cons in Hin as [->|Hin].
    + apply build_column_caches_acc. rewrite lookup_insert_eq. eauto.
    + apply IH. assumption.
Qed.

(** *** The assignment of the result tuple *)

Lemma assign_values_spec tuple n : forall k ms ms',
  k + n = length ms ->
  assign_values tuple (seq k n) ms = Ok ms' ->
  length ms' = length ms
  /\ (forall i, i < k -> ms' !! i = ms !! i)
  /\ (forall i, k <= i < k + n ->
        exists m v, ms !! i = Some m /\ tuple !! i = Some v
                    /\ ms' !! i = Some (set_value (VScalar v) m)).
Proof.
  induction n as [|n IH]; intros k ms ms' Hlen H; simpl in H.
  - injection H as <-. split_and!; [reflexivity|reflexivity|]. intros i Hi. lia.
  - inv_bind H. rename a into m. apply py_index_Ok in Ha.
    inv_bind H. rename a into v. apply py_index_Ok in Ha0.
    apply IH in H; [|rewrite length_insert; lia].
    destruct H as (Hl & Hlow & Hrange). rewrite length_insert in Hl.
    split_and!.
    + assumption.
    + intros i Hi. rewrite Hlow by lia. apply list_lookup_insert_ne. lia.
    + intros i Hi. destruct (decide (i = k)) as [->|Hne].
      * exists m, v. split_and!; try assumption.
        rewrite Hlow by lia. apply list_lookup_insert_eq. lia.
      * destruct (Hrange i) as (m' & v' & Hm' & Hv' & Hres); [lia|].
        rewrite list_lookup_insert_ne in Hm' by lia. eauto.
Qed.

Lemma assign_values_total tuple n : forall k ms,
  k + n = length ms -> length ms <= length tuple ->
  exists ms', assign_values tuple (seq k n) ms = Ok ms'.
Proof.
  induction n as [|n IH]; intros k ms Hlen Hle; simpl.
  - eauto.
  - destruct (lookup_lt_is_Some_2 ms k) as [m Hm]; [lia|].
    destruct (lookup_lt_is_Some_2 tuple k) as [v Hv]; [lia|].
    unfold py_index. rewrite Hm, Hv. simpl.
    apply IH; rewrite length_insert; lia.
Qed.

(** *** The aggregation pass as a whole *)

Lemma aggregation_batch_spec self b :
  aggregation_batch self = Ok b ->
  (exists newf newm,
      b_fields b = sql_expr_count_all :: newf
      /\ b_measurements b = mkMeasurement Metric.ROW_COUNT None VNone :: newm
      /\ length newf = length newm
      /\ Forall (batch_placeholder (column_caches self) (scan_columns self)) newm)
  /\ stable <$> b_caches b = stable <$> column_caches self
  /\ (forall column, column ∈ scan_columns self ->
        exists cache mi,
          column_caches self !! col_name column = Some cache
          /\ b_column_metric_indices b !! col_name column = Some mi
          /\ indices_ok cache (col_name column) mi (b_measurements b)).
Proof.
  unfold aggregation_batch. intros H. apply aggregation_columns_spec in H. simpl in H.
  destruct H as ((newf & newm & Hf & Hm & Hl & Hp) & Hs & _ & Hcols).
  split_and!; [|assumption|assumption].
  exists newf, newm. auto.
Qed.

Lemma derived_pass_app self b raw ms :
  derived_pass self b raw = Ok ms -> exists derived, ms = raw ++ derived.
Proof.
  unfold derived_pass. intros H. inv_bind H. inv_bind H. injection H as <-. eauto.
Qed.

Lemma query_aggregations_inv self ms self' :
  query_aggregations self = Ok (ms, self') ->
  exists b tuple raw derived,
    aggregation_batch self = Ok b
    /\ execute_query_one warehouse (aggregation_sql (b_fields b)) = Ok tuple
    /\ assign_values tuple (seq 0 (length (b_measurements b))) (b_measurements b) = Ok raw
    /\ derived_pass (with_caches self (b_caches b)) b raw = Ok ms
    /\ ms = raw ++ derived
    /\ self' = with_caches self (b_caches b).
Proof.
  unfold query_aggregations. intros H.
  inv_bind H. rename a into b. inv_bind H. rename a into tuple.
  inv_bind H. rename a into raw. inv_bind H. rename a into ms0.
  injection H as <- <-.
  destruct (derived_pass_app _ _ _ _ Ha2) as [derived Hd].
  exists b, tuple, raw, derived. auto 10.
Qed.

(** Cell [i] of the result tuple is the value of measurement [i]. *)
Lemma raw_lookup tuple ms raw i m :
  assign_values tuple (seq 0 (length ms)) ms = Ok raw ->
  ms !! i = Some m ->
  exists v, tuple !! i = Some v /\ raw !! i = Some (set_value (VScalar v) m).
Proof.
  intros H Hm. apply assign_values_spec in H; [|reflexivity].
  destruct H as (_ & _ & Hrange).
  destruct (Hrange i) as (m' & v & Hm' & Hv & Hr).
  { apply lookup_lt_Some in Hm. lia. }
  exists v. split; [assumption|]. congruence.
Qed.

Lemma raw_length tuple ms raw :
  assign_values tuple (seq 0 (length ms)) ms = Ok raw -> length raw = length ms.
Proof.
  intros H. apply assign_values_spec in H; [|reflexivity].
  destruct H as (Hl & _). exact Hl.
Qed.

Lemma batch_lock_step self b :
  aggregation_batch self = Ok b -> length (b_fields b) = length (b_measurements b).
Proof.
  intros Hb. apply aggregation_batch_spec in Hb.
  destruct Hb as ((newf & newm & -> & -> & Hl & _) & _). simpl. lia.
Qed.

Lemma assigned_values self b ms self' :
  aggregation_batch self = Ok b ->
  query_aggregations self = Ok (ms, self') ->
  exists tuple,
    execute_query_one warehouse (aggregation_sql (b_fields b)) = Ok tuple
    /\ forall i m, b_measurements b !! i = Some m ->
         exists v, tuple !! i = Some v /\ ms !! i = Some (set_value (VScalar v) m).
Proof.
  intros Hb H. apply query_aggregations_inv in H.
  destruct H as (b0 & tuple & raw & derived & Hb0 & Hq & Hraw & _ & -> & _).
  rewrite Hb in Hb0. injection Hb0 as <-.
  exists tuple. split; [assumption|]. intros i m Hm.
  destruct (raw_lookup _ _ _ _ _ Hraw Hm) as (v & Hv & Hr).
  exists v. split; [assumption|]. apply lookup_app_l_Some. assumption.
Qed.

Lemma string_app_assoc (s t u : string) : (s +:+ t) +:+ u = s +:+ t +:+ u.
Proof.
  induction s as [|a s IH]; [reflexivity|].
  change (String a ((s +:+ t) +:+ u) = String a (s +:+ t +:+ u)).
  rewrite IH. reflexivity.
Qed.

Lemma join_cons sep x l : exists rest, join sep (x :: l) = x +:+ rest.
Proof.
  destruct l as [|y l]; simpl.
  - exists "". induction x as [|a x IH]; [reflexivity|].
    change (String a x = String a (x +:+ "")). rewrite <- IH. reflexivity.
  - eauto.
Qed.

Lemma aggregation_sql_first f fields :
  exists rest, aggregation_sql (f :: fields) = "SELECT " +:+ nl +:+ "  " +:+ f +:+ rest.
Proof.
  unfold aggregation_sql. destruct (join_cons ("," +:+ nl +:+ "  ") f fields) as [r ->].
  destruct table_sample_clause as [c|].
  - exists (r +:+ " " +:+ nl +:+ "FROM "
              +:+ qualify_table_name (table_name scan_configuration) +:+ nl +:+ c).
    rewrite !string_app_assoc. reflexivity.
  - exists (r +:+ " " +:+ nl +:+ "FROM "
              +:+ qualify_table_name (table_name scan_configuration)).
    rewrite !string_app_assoc. reflexivity.
Qed.

Lemma aggregation_batch_total self :
  (forall column, column ∈ scan_columns self ->
     is_Some (column_caches self !! col_name column)) ->
  exists b, aggregation_batch self = Ok b.
Proof.
  intros H. unfold aggregation_batch. apply aggregation_columns_total. exact H.
Qed.

(** C8: for every scan, the first SQL field and the first measurement of the
    aggregation batch are the table row count, whatever the configuration
    and the columns; and the batch is built whenever every column has its
    cache, as in [execute], which builds the caches from the columns. *)
Theorem row_count_first :
  (forall (self : Scan) (b : Batch),
      aggregation_batch self = Ok b ->
      b_fields b !! 0 = Some sql_expr_count_all
      /\ b_measurements b !! 0 = Some (mkMeasurement Metric.ROW_COUNT None VNone)
      /\ exists rest,
           aggregation_sql (b_fields b)
           = "SELECT " +:+ nl +:+ "  " +:+ sql_expr_count_all +:+ rest)
  /\ (forall (r : ScanResult) (cols : list Column) (s : list (list Measurement)),
        exists b, aggregation_batch (mkScan r cols (build_column_caches cols) s) = Ok b).
Proof using Type*.
  split.
  - intros self b H. apply aggregation_batch_spec in H.
    destruct H as ((newf & newm & -> & -> & _) & _).
    split_and!; [reflexivity|reflexivity|]. apply aggregation_sql_first.
  - intros r cols s. apply aggregation_batch_total. simpl.
    apply build_column_caches_dom.
Qed.

(** C1: the SQL fields and the placeholder measurements of the aggregation
    batch have the same length when the query is made, and once the query
    has run, cell [i] of the result tuple is the value of measurement [i],
    for every index [i]. *)
Theorem fields_measurements_lock_step (self : Scan) (b : Batch) :
  aggregation_batch self = Ok b ->
  length (b_fields b) = length (b_measurements b)
  /\ forall ms self', query_aggregations self = Ok (ms, self') ->
       exists tuple,
         execute_query_one warehouse (aggregation_sql (b_fields b)) = Ok tuple
         /\ forall i m, b_measurements b !! i = Some m ->
              exists v, tuple !! i = Some v
                        /\ ms !! i = Some (set_value (VScalar v) m).
Proof.
  intros Hb. split.
  - apply (batch_lock_step self). assumption.
  - intros ms self' H. apply (assigned_values self b ms self' Hb H).
Qed.

Lemma is_valid_enabled_distinct cache c :
  is_any_metric_enabled scan_configuration c [Metric.DISTINCT; Metric.UNIQUENESS] = true ->
  is_valid_enabled cache c = true /\ is_missing_enabled cache c = true.
Proof.
  intros H. unfold is_missing_enabled, is_valid_enabled. rewrite H.
  rewrite orb_true_r. split; reflexivity.
Qed.

(** C7: when a distinct or uniqueness metric is enabled for a column, the
    aggregation pass computes a missing count and a valid count for that
    column, whether or not missing and validity metrics are enabled. *)
Theorem distinct_implies_missing_and_valid (self : Scan) (b : Batch) (column : Column) :
  aggregation_batch self = Ok b ->
  column ∈ scan_columns self ->
  is_any_metric_enabled scan_configuration (col_name column)
    [Metric.DISTINCT; Metric.UNIQUENESS] = true ->
  exists i j,
    b_measurements b !! i
      = Some (mkMeasurement Metric.MISSING_COUNT (Some (col_name column)) VNone)
    /\ b_measurements b !! j
       = Some (mkMeasurement Metric.VALID_COUNT (Some (col_name column)) VNone)
    /\ forall ms self', query_aggregations self = Ok (ms, self') ->
         exists v w,
           ms !! i = Some (mkMeasurement Metric.MISSING_COUNT (Some (col_name column))
                             (VScalar v))
           /\ ms !! j = Some (mkMeasurement Metric.VALID_COUNT (Some (col_name column))
                                (VScalar w)).
Proof.
  intros Hb Hin Hen.
  pose proof (assigned_values self b) as Hassign.
  pose proof Hb as Hb'.
  apply aggregation_batch_spec in Hb'. destruct Hb' as (_ & _ & Hcols).
  destruct (Hcols column Hin) as (cache & mi & Hc & Hmi & Hm & Hv).
  destruct (is_valid_enabled_distinct cache (col_name column) Hen) as [Ev Em].
  rewrite Em in Hm. rewrite Ev in Hv.
  destruct Hm as (i & _ & Hi). destruct Hv as (j & _ & Hj).
  exists i, j. split_and!; [exact Hi|exact Hj|].
  intros ms self' H. destruct (Hassign ms self' Hb H) as (tuple & _ & Hall).
  destruct (Hall i _ Hi) as (v & _ & Hvi). destruct (Hall j _ Hj) as (w & _ & Hwj).
  exists v, w. split; assumption.
Qed.

(** *** The derived pass *)

Lemma Qeq_bool_inject_Z_0 (z : Z) : Qeq_bool (inject_Z z) 0 = Z.eqb z 0.
Proof.
  unfold Qeq_bool, inject_Z. simpl. rewrite Z.mul_1_r. reflexivity.
Qed.

Lemma py_truediv_int (x r : Z) :
  r <> 0%Z ->
  py_truediv (VInt x) (VInt r) = Ok (VFloat (Qred (inject_Z x / inject_Z r))).
Proof.
  intros Hr. unfold py_truediv. simpl. rewrite Qeq_bool_inject_Z_0.
  destruct (Z.eqb_spec r 0); [contradiction|reflexivity].
Qed.

Lemma derive_missing_int c (r a : Z) :
  r <> 0%Z ->
  derive_missing c (VInt r) (VInt a)
  = Ok [mkMeasurement Metric.MISSING_PERCENTAGE (Some c) (VFloat (percentage a r));
        mkMeasurement Metric.VALUES_COUNT (Some c) (VInt (r - a));
        mkMeasurement Metric.VALUES_PERCENTAGE (Some c) (VFloat (percentage (r - a) r))].
Proof.
  intros Hr. unfold derive_missing. simpl.
  rewrite !py_truediv_int by assumption. reflexivity.
Qed.

Lemma derive_valid_int c (r a v : Z) :
  r <> 0%Z ->
  derive_valid c (VInt r) (VInt a) (VInt v)
  = Ok [mkMeasurement Metric.INVALID_PERCENTAGE (Some c)
          (VFloat (percentage (r - a - v) r));
        mkMeasurement Metric.INVALID_COUNT (Some c) (VInt (r - a - v));
        mkMeasurement Metric.VALID_PERCENTAGE (Some c) (VFloat (percentage v r))].
Proof.
  intros Hr. unfold derive_valid. simpl.
  rewrite !py_truediv_int by assumption. reflexivity.
Qed.

(** The accumulator of the derived pass only grows. *)
Lemma derive_column_acc ms cmi rc d column :
  derive_column ms cmi rc d column
  = (p ← derive_column ms cmi rc [] column; Ok (d ++ p)).
Proof.
  unfold derive_column.
  destruct (py_getitem cmi (col_name column)) as [mi|e]; simpl; [|reflexivity].
  destruct (mi !! "missing") as [i|]; simpl; [|rewrite app_nil_r; reflexivity].
  destruct (py_index ms i) as [m|e]; simpl; [|reflexivity].
  destruct (derive_missing _ _ _) as [p1|e]; simpl; [|reflexivity].
  destruct (mi !! "valid") as [j|]; simpl; [|reflexivity].
  destruct (py_index ms j) as [m'|e]; simpl; [|reflexivity].
  destruct (derive_valid _ _ _ _) as [p2|e]; simpl; [|reflexivity].
  rewrite app_assoc. reflexivity.
Qed.

Lemma derive_columns_collect ms cmi rc (R : Column -> list Measurement -> Prop) cols :
  (forall column, column ∈ cols ->
     exists p, derive_column ms cmi rc [] column = Ok p /\ R column p) ->
  forall d, exists d',
    derive_columns ms cmi rc d cols = Ok (d ++ d')
    /\ forall column, column ∈ cols -> exists p, R column p /\ p ⊆ d'.
Proof.
  induction cols as [|c rest IH]; intros Hall d; simpl.
  - exists []. rewrite app_nil_r. split; [reflexivity|].
    intros column Hin. apply elem_of_nil in Hin. contradiction.
  - destruct (Hall c (list_elem_of_here _ _)) as (p & Hp & HR).
    rewrite derive_column_acc, Hp. simpl.
    destruct (IH (fun column Hin => Hall column (list_elem_of_further _ _ _ Hin))
                (d ++ p)) as (d' & Hd' & Hcols).
    exists (p ++ d'). rewrite app_assoc. split; [assumption|].
    intros column Hin. apply elem_of_cons in Hin as [->|Hin].
    + exists p. split; [assumption|]. intros x Hx. apply elem_of_app. auto.
    + destruct (Hcols column Hin) as (p' & HR' & Hsub).
      exists p'. split; [assumption|]. intros x Hx. apply elem_of_app. auto.
Qed.

Lemma derive_columns_inv ms cmi rc cols : forall d d',
  derive_columns ms cmi rc d cols = Ok d' ->
  exists new, d' = d ++ new
    /\ forall column, column ∈ cols ->
         exists p, derive_column ms cmi rc [] column = Ok p /\ p ⊆ new.
Proof.
  induction cols as [|c rest IH]; intros d d' H; simpl in H.
  - injection H as <-. exists []. rewrite app_nil_r. split; [reflexivity|].
    intros column Hin. apply elem_of_nil in Hin. contradiction.
  - rewrite derive_column_acc in H. inv_bind H. rename a into d1.
    inv_bind Ha. rename a into p. injection Ha as <-.
    destruct (IH _ _ H) as (new & -> & Hcols).
    exists (p ++ new). rewrite app_assoc. split; [reflexivity|].
    intros column Hin. apply elem_of_cons in Hin as [->|Hin].
    + exists p. split; [assumption|]. intros x Hx. apply elem_of_app. auto.
    + destruct (Hcols column Hin) as (p' & Hp' & Hsub).
      exists p'. split; [assumption|]. intros x Hx. apply elem_of_app. auto.
Qed.

Lemma derived_for_mono self r ms column p p' :
  p ⊆ p' -> derived_for self r ms column p -> derived_for self r ms column p'.
Proof.
  intros Hsub H cache Hc Hm.
  destruct (H cache Hc Hm) as (i & a & Hi & H1 & H2 & H3 & Hv).
  exists i, a. split_and!; auto.
  intros Hve. destruct (Hv Hve) as (j & v & Hj & H4 & H5 & H6).
  exists j, v. split_and!; auto.
Qed.

Lemma derived_for_app self r raw new column p :
  derived_for self r raw column p -> derived_for self r (raw ++ new) column p.
Proof.
  intros H cache Hc Hm.
  destruct (H cache Hc Hm) as (i & a & Hi & H1 & H2 & H3 & Hv).
  exists i, a. split_and!; auto using lookup_app_l_Some.
  intros Hve. destruct (Hv Hve) as (j & v & Hj & H4 & H5 & H6).
  exists j, v. split_and!; auto using lookup_app_l_Some.
Qed.

Lemma derive_column_int self b tuple raw (r : Z) column :
  aggregation_batch self = Ok b ->
  assign_values tuple (seq 0 (length (b_measurements b))) (b_measurements b) = Ok raw ->
  count_cells_int b tuple ->
  r <> 0%Z ->
  column ∈ scan_columns self ->
  exists p,
    derive_column raw (b_column_metric_indices b) (VInt r) [] column = Ok p
    /\ derived_for self r raw column p.
Proof.
  intros Hb Hraw Hint Hr Hin.
  apply aggregation_batch_spec in Hb. destruct Hb as (_ & _ & Hcols).
  destruct (Hcols column Hin) as (cache & mi & Hc & Hmi & Hm & Hv).
  unfold derive_column, py_getitem. rewrite Hmi. simpl.
  destruct (is_missing_enabled cache (col_name column)) eqn:Em.
  - destruct Hm as (i & Hi & Hpi). rewrite Hi.
    destruct (raw_lookup _ _ _ _ _ Hraw Hpi) as (c & Hc1 & Hri).
    destruct (Hint i _ Hpi (or_introl eq_refl)) as (a & Hta).
    rewrite Hc1 in Hta. injection Hta as ->.
    rewrite (proj2 (py_index_Ok _ _ _) Hri). simpl.
    change (VScalar (SInt a)) with (VInt a).
    rewrite derive_missing_int by assumption. simpl.
    destruct (is_valid_enabled cache (col_name column)) eqn:Ev.
    + destruct Hv as (j & Hj & Hpj). rewrite Hj.
      destruct (raw_lookup _ _ _ _ _ Hraw Hpj) as (c & Hc2 & Hrj).
      destruct (Hint j _ Hpj (or_intror eq_refl)) as (v & Htv).
      rewrite Hc2 in Htv. injection Htv as ->.
      rewrite (proj2 (py_index_Ok _ _ _) Hrj). simpl.
      change (VScalar (SInt v)) with (VInt v).
      rewrite derive_valid_int by assumption. simpl.
      eexists. split; [reflexivity|].
      intros cache' Hc' _. rewrite Hc in Hc'. injection Hc' as <-.
      exists i, a. split_and!; [exact Hri| | | |].
      * apply list_elem_of_here.
      * do 1 apply list_elem_of_further. apply list_elem_of_here.
      * do 2 apply list_elem_of_further. apply list_elem_of_here.
      * intros _. exists j, v. split_and!; [exact Hrj| | |].
        -- do 4 apply list_elem_of_further. apply list_elem_of_here.
        -- do 3 apply list_elem_of_further. apply list_elem_of_here.
        -- do 5 apply list_elem_of_further. apply list_elem_of_here.
    + rewrite Hv. eexists. split; [reflexivity|].
      intros cache' Hc' _. rewrite Hc in Hc'. injection Hc' as <-.
      exists i, a. split_and!; [exact Hri| | | |].
      * apply list_elem_of_here.
      * do 1 apply list_elem_of_further. apply list_elem_of_here.
      * do 2 apply list_elem_of_further. apply list_elem_of_here.
      * rewrite Ev. discriminate.
  - rewrite Hm. eexists. split; [reflexivity|].
    intros cache' Hc' Hen. rewrite Hc in Hc'. injection Hc' as <-. congruence.
Qed.

Lemma derived_values_for_mono self rc ms column p p' :
  p ⊆ p' -> derived_values_for self rc ms column p ->
  derived_values_for self rc ms column p'.
Proof.
  intros Hsub H cache Hc Hm.
  destruct (H cache Hc Hm) as (i & mc & mp & vc & vp & Hi & E1 & E2 & E3 & H1 & H2 & H3 & Hv).
  exists i, mc, mp, vc, vp. split_and!; auto.
  intros Hve.
  destruct (Hv Hve) as (j & v & ic & ip & valp & Hj & E4 & E5 & E6 & H4 & H5 & H6).
  exists j, v, ic, ip, valp. split_and!; auto.
Qed.

Lemma derived_values_for_app self rc raw new column p :
  derived_values_for self rc raw column p ->
  derived_values_for self rc (raw ++ new) column p.
Proof.
  intros H cache Hc Hm.
  destruct (H cache Hc Hm) as (i & mc & mp & vc & vp & Hi & E1 & E2 & E3 & H1 & H2 & H3 & Hv).
  exists i, mc, mp, vc, vp. split_and!; auto using lookup_app_l_Some.
  intros Hve.
  destruct (Hv Hve) as (j & v & ic & ip & valp & Hj & E4 & E5 & E6 & H4 & H5 & H6).
  exists j, v, ic, ip, valp. split_and!; auto using lookup_app_l_Some.
Qed.

Lemma derive_missing_inv c rc mc l :
  derive_missing c rc mc = Ok l ->
  exists mp vc vp,
    percent_of mc rc = Ok mp /\ py_sub rc mc = Ok vc /\ percent_of vc rc = Ok vp
    /\ l = [mkMeasurement Metric.MISSING_PERCENTAGE (Some c) mp;
            mkMeasurement Metric.VALUES_COUNT (Some c) vc;
            mkMeasurement Metric.VALUES_PERCENTAGE (Some c) vp].
Proof.
  unfold derive_missing, percent_of. intros H.
  inv_bind H. rename a into t1. inv_bind H. rename a into mp.
  inv_bind H. rename a into vc. inv_bind H. rename a into t2.
  inv_bind H. rename a into vp. injection H as <-.
  exists mp, vc, vp. rewrite Ha, Ha2, Ha1. simpl. auto.
Qed.

Lemma derive_valid_inv c rc mc v l :
  derive_valid c rc mc v = Ok l ->
  exists vc ic ip valp,
    py_sub rc mc = Ok vc /\ py_sub vc v = Ok ic
    /\ percent_of ic rc = Ok ip /\ percent_of v rc = Ok valp
    /\ l = [mkMeasurement Metric.INVALID_PERCENTAGE (Some c) ip;
            mkMeasurement Metric.INVALID_COUNT (Some c) ic;
            mkMeasurement Metric.VALID_PERCENTAGE (Some c) valp].
Proof.
  unfold derive_valid, percent_of. intros H.
  inv_bind H. rename a into vc. inv_bind H. rename a into ic.
  inv_bind H. rename a into t1. inv_bind H. rename a into ip.
  inv_bind H. rename a into t2. inv_bind H. rename a into valp.
  injection H as <-.
  exists vc, ic, ip, valp. rewrite Ha1, Ha3. simpl. auto 10.
Qed.

Lemma derive_column_values self b tuple raw rc column p :
  aggregation_batch self = Ok b ->
  assign_values tuple (seq 0 (length (b_measurements b))) (b_measurements b) = Ok raw ->
  column ∈ scan_columns self ->
  derive_column raw (b_column_metric_indices b) rc [] column = Ok p ->
  derived_values_for self rc raw column p.
Proof.
  intros Hb Hraw Hin H cache Hc Hen.
  apply aggregation_batch_spec in Hb. destruct Hb as (_ & _ & Hcols).
  destruct (Hcols column Hin) as (cache' & mi & Hc' & Hmi & Hm & Hv).
  rewrite Hc in Hc'. injection Hc' as <-. rewrite Hen in Hm.
  destruct Hm as (i & Hi & Hpi).
  destruct (raw_lookup _ _ _ _ _ Hraw Hpi) as (c & _ & Hri).
  unfold derive_column in H. rewrite (proj2 (py_getitem_Ok _ _ _) Hmi) in H.
  simpl in H. rewrite Hi, (proj2 (py_index_Ok _ _ _) Hri) in H. simpl in H.
  inv_bind H. rename a into d1.
  apply derive_missing_inv in Ha. destruct Ha as (mp & vc & vp & E1 & E2 & E3 & ->).
  exists i, (VScalar c), mp, vc, vp. split_and!; try assumption.
  - destruct (mi !! "valid"); [inv_bind H; inv_bind H|]; injection H as <-;
      apply list_elem_of_here.
  - destruct (mi !! "valid"); [inv_bind H; inv_bind H|]; injection H as <-;
      apply list_elem_of_further, list_elem_of_here.
  - destruct (mi !! "valid"); [inv_bind H; inv_bind H|]; injection H as <-;
      do 2 apply list_elem_of_further; apply list_elem_of_here.
  - intros Hve. rewrite Hve in Hv. destruct Hv as (j & Hj & Hpj).
    destruct (raw_lookup _ _ _ _ _ Hraw Hpj) as (w & _ & Hrj).
    rewrite Hj, (proj2 (py_index_Ok _ _ _) Hrj) in H. simpl in H.
    inv_bind H. rename a into d2. injection H as <-.
    apply derive_valid_inv in Ha.
    destruct Ha as (vc' & ic & ip & valp & E4 & E5 & E6 & E7 & ->).
    rewrite E2 in E4. injection E4 as <-.
    exists j, (VScalar w), ic, ip, valp. split_and!; try assumption.
    + do 4 apply list_elem_of_further. apply list_elem_of_here.
    + do 3 apply list_elem_of_further. apply list_elem_of_here.
    + do 5 apply list_elem_of_further. apply list_elem_of_here.
Qed.

Lemma derived_values self ms self' :
  query_aggregations self = Ok (ms, self') ->
  exists b row_count,
    aggregation_batch self = Ok b
    /\ ms !! 0 = Some (mkMeasurement Metric.ROW_COUNT None row_count)
    /\ forall column, column ∈ scan_columns self ->
         derived_values_for self row_count ms column
           (drop (length (b_measurements b)) ms).
Proof.
  intros H. apply query_aggregations_inv in H.
  destruct H as (b & tuple & raw & derived & Hb & _ & Hraw & Hd & -> & _).
  pose proof (raw_length _ _ _ Hraw) as Hrl.
  unfold derived_pass in Hd. inv_bind Hd. rename a into m0. inv_bind Hd.
  injection Hd as Hd. apply app_inv_head in Hd. subst a.
  apply py_index_Ok in Ha.
  assert (Hm0 : m0 = mkMeasurement Metric.ROW_COUNT None (value_of m0)).
  { pose proof Hb as Hb'. apply aggregation_batch_spec in Hb'.
    destruct Hb' as ((newf & newm & _ & Hm & _) & _).
    destruct (raw_lookup tuple (b_measurements b) raw 0
                (mkMeasurement Metric.ROW_COUNT None VNone) Hraw) as (v & _ & Hr0).
    { rewrite Hm. reflexivity. }
    rewrite Ha in Hr0. injection Hr0 as ->. reflexivity. }
  exists b, (value_of m0). split_and!.
  - assumption.
  - rewrite <- Hm0. apply lookup_app_l_Some. assumption.
  - intros column Hin.
    destruct (derive_columns_inv _ _ _ _ _ _ Ha0) as (new & Hnew & Hcols).
    simpl in Hnew. subst new.
    destruct (Hcols column Hin) as (p & Hp & Hsub).
    rewrite <- Hrl, drop_app_length. apply derived_values_for_app.
    apply (derived_values_for_mono _ _ _ _ p); [assumption|].
    apply (derive_column_values self b tuple raw _ column p Hb Hraw Hin Hp).
Qed.

(** With integer counts and a row count that is not zero, the aggregation
    pass returns, with the derived measurements of every column. *)
Lemma derived_measurements_int (self : Scan) (b : Batch)
    (tuple : list scalar) (r : Z) :
  aggregation_batch self = Ok b ->
  execute_query_one warehouse (aggregation_sql (b_fields b)) = Ok tuple ->
  length (b_measurements b) <= length tuple ->
  count_cells_int b tuple ->
  tuple !! 0 = Some (SInt r) ->
  r <> 0%Z ->
  exists ms,
    query_aggregations self = Ok (ms, with_caches self (b_caches b))
    /\ ms !! 0 = Some (mkMeasurement Metric.ROW_COUNT None (VInt r))
    /\ forall column, column ∈ scan_columns self ->
         derived_for self r ms column (drop (length (b_measurements b)) ms).
Proof.
  intros Hb Hq Hlen Hint H0 Hr.
  destruct (assign_values_total tuple (length (b_measurements b)) 0 (b_measurements b))
    as [raw Hraw]; [reflexivity|assumption|].
  pose proof (raw_length _ _ _ Hraw) as Hrl.
  assert (Hraw0 : raw !! 0 = Some (mkMeasurement Metric.ROW_COUNT None (VInt r))).
  { pose proof Hb as Hb'. apply aggregation_batch_spec in Hb'.
    destruct Hb' as ((newf & newm & _ & Hm & _) & _).
    destruct (raw_lookup tuple (b_measurements b) raw 0
                (mkMeasurement Metric.ROW_COUNT None VNone) Hraw) as (v & Hv & Hr0).
    { rewrite Hm. reflexivity. }
    rewrite H0 in Hv. injection Hv as <-. exact Hr0. }
  destruct (derive_columns_collect raw (b_column_metric_indices b) (VInt r)
              (derived_for self r raw) (scan_columns self)
              (fun column Hin => derive_column_int self b tuple raw r column
                                   Hb Hraw Hint Hr Hin) [])
    as (derived & Hd & Hcols).
  exists (raw ++ derived). split_and!.
  - unfold query_aggregations. rewrite Hb. simpl. rewrite Hq. simpl.
    rewrite Hraw. simpl. unfold derived_pass.
    rewrite (proj2 (py_index_Ok _ _ _) Hraw0). simpl.
    rewrite Hd. reflexivity.
  - apply lookup_app_l_Some. exact Hraw0.
  - intros column Hin. destruct (Hcols column Hin) as (p & Hp & Hsub).
    rewrite <- Hrl, drop_app_length.
    apply derived_for_app. apply (derived_for_mono _ _ _ _ p); assumption.
Qed.

(** C2: once the raw results are filled in, the aggregation pass holds,
    after the raw measurements and for every column that has a missing
    count, the derived measurements missing_percentage = missing_count * 100
    / row_count, values_count = row_count - missing_count and
    values_percentage = values_count * 100 / row_count; and, when the column
    also has a valid count, invalid_count = row_count - missing_count -
    valid_count, invalid_percentage = invalid_count * 100 / row_count and
    valid_percentage = valid_count * 100 / row_count.  With integer counts
    and a row count [r] that is not zero the pass does return, and the
    values are the rationals [percentage _ r]. *)
Theorem derived_measurements_computed (self : Scan) (b : Batch) :
  aggregation_batch self = Ok b ->
  (forall ms self',
      query_aggregations self = Ok (ms, self') ->
      exists row_count,
        ms !! 0 = Some (mkMeasurement Metric.ROW_COUNT None row_count)
        /\ forall column, column ∈ scan_columns self ->
             derived_values_for self row_count ms column
               (drop (length (b_measurements b)) ms))
  /\ (forall (tuple : list scalar) (r : Z),
        execute_query_one warehouse (aggregation_sql (b_fields b)) = Ok tuple ->
        length (b_measurements b) <= length tuple ->
        count_cells_int b tuple ->
        tuple !! 0 = Some (SInt r) ->
        r <> 0%Z ->
        exists ms,
          query_aggregations self = Ok (ms, with_caches self (b_caches b))
          /\ ms !! 0 = Some (mkMeasurement Metric.ROW_COUNT None (VInt r))
          /\ forall column, column ∈ scan_columns self ->
               derived_for self r ms column (drop (length (b_measurements b)) ms)).
Proof.
  intros Hb. split.
  - intros ms self' H.
    destruct (derived_values self ms self' H) as (b' & rc & Hb' & H0 & Hcols).
    rewrite Hb in Hb'. injection Hb' as <-. exists rc. split; assumption.
  - intros tuple r Hq Hlen Hint H0 Hr.
    apply (derived_measurements_int self b tuple r Hb Hq Hlen Hint H0 Hr).
Qed.

(** *** Identities of the derived metrics *)

Lemma percentage_eq (x r : Z) :
  (percentage x r == inject_Z x * 100 / inject_Z r)%Q.
Proof.
  unfold percentage. rewrite Qred_correct, inject_Z_mult. reflexivity.
Qed.

Lemma inject_Z_nonzero (r : Z) : r <> 0%Z -> ~ (inject_Z r == 0)%Q.
Proof.
  intros Hr H. apply Hr. unfold Qeq, inject_Z in H. simpl in H. lia.
Qed.

(** C3: for a row count greater than zero, missing_percentage +
    values_percentage = 100 (on the exact rationals that the floats stand
    for); and whenever the measurements of a valid count are derived,
    invalid_count + valid_count + missing_count = row_count. *)
Theorem derived_identities (c : string) (r a v : Z) :
  ((r > 0)%Z ->
   exists mp vp : Q,
     derive_missing c (VInt r) (VInt a)
     = Ok [mkMeasurement Metric.MISSING_PERCENTAGE (Some c) (VFloat mp);
           mkMeasurement Metric.VALUES_COUNT (Some c) (VInt (r - a));
           mkMeasurement Metric.VALUES_PERCENTAGE (Some c) (VFloat vp)]
     /\ (mp + vp == 100)%Q)
  /\ (r <> 0%Z -> exists l, derive_valid c (VInt r) (VInt a) (VInt v) = Ok l)
  /\ (forall l, derive_valid c (VInt r) (VInt a) (VInt v) = Ok l ->
      exists (ip valp : Q) (ic : Z),
        l = [mkMeasurement Metric.INVALID_PERCENTAGE (Some c) (VFloat ip);
             mkMeasurement Metric.INVALID_COUNT (Some c) (VInt ic);
             mkMeasurement Metric.VALID_PERCENTAGE (Some c) (VFloat valp)]
        /\ (ic + v + a = r)%Z).
Proof.
  split_and!.
  - intros Hr. exists (percentage a r), (percentage (r - a) r). split.
    + apply derive_missing_int. lia.
    + rewrite !percentage_eq. unfold Zminus. rewrite inject_Z_plus, inject_Z_opp.
      field. apply inject_Z_nonzero. lia.
  - intros Hr. eexists. apply derive_valid_int. assumption.
  - intros l H. destruct (Z.eq_dec r 0%Z) as [->|Hr].
    + discriminate H.
    + rewrite derive_valid_int in H by assumption. injection H as <-.
      do 3 eexists. split; [reflexivity|]. lia.
Qed.

Lemma derive_uniqueness_int (d v : Z) :
  v <> 1%Z ->
  derive_uniqueness (VInt d) (VInt v)
  = Ok (VFloat (Qred (inject_Z ((d - 1) * 100) / inject_Z (v - 1)))).
Proof.
  intros Hv. unfold derive_uniqueness. simpl. apply py_truediv_int. lia.
Qed.

Lemma distinct_metrics_int self column cte ms (d uq v : Z) rest :
  is_any_metric_enabled scan_configuration (col_name column)
    [Metric.DISTINCT; Metric.UNIQUENESS; Metric.UNIQUE_COUNT] = true ->
  execute_query_one warehouse (distinct_sql cte) = Ok (SInt d :: SInt uq :: rest) ->
  ScanResult_get (scan_result self) Metric.VALID_COUNT (col_name column) = VInt v ->
  distinct_metrics self column cte ms
  = (u ← derive_uniqueness (VInt d) (VInt v);
     Ok (ms ++ [mkMeasurement Metric.DISTINCT (Some (col_name column)) (VInt d);
                mkMeasurement Metric.UNIQUE_COUNT (Some (col_name column)) (VInt uq);
                mkMeasurement Metric.UNIQUENESS (Some (col_name column)) u])).
Proof.
  intros Hen Hq Hv. unfold distinct_metrics. rewrite Hen, Hq. simpl. rewrite Hv.
  change (VScalar (SInt d)) with (VInt d).
  destruct (derive_uniqueness (VInt d) (VInt v)) as [u|e]; simpl; [|reflexivity].
  rewrite <- !app_assoc. reflexivity.
Qed.

(** C4: the grouped statistics derive uniqueness as (distinct_count - 1) *
    100 / (valid_count - 1); when valid_count > 1 and 1 <= distinct_count <=
    valid_count the value lies in [0, 100], is 0 when distinct_count = 1 and
    100 when distinct_count = valid_count. *)
Theorem uniqueness_bounds (self : Scan) (column : Column) (cte : string)
    (ms : list Measurement) (d uq v : Z) (rest : list scalar) :
  is_any_metric_enabled scan_configuration (col_name column)
    [Metric.DISTINCT; Metric.UNIQUENESS; Metric.UNIQUE_COUNT] = true ->
  execute_query_one warehouse (distinct_sql cte) = Ok (SInt d :: SInt uq :: rest) ->
  ScanResult_get (scan_result self) Metric.VALID_COUNT (col_name column) = VInt v ->
  (v > 1)%Z -> (1 <= d <= v)%Z ->
  exists u : Q,
    derive_uniqueness (VInt d) (VInt v) = Ok (VFloat u)
    /\ distinct_metrics self column cte ms
       = Ok (ms ++ [mkMeasurement Metric.DISTINCT (Some (col_name column)) (VInt d);
                    mkMeasurement Metric.UNIQUE_COUNT (Some (col_name column)) (VInt uq);
                    mkMeasurement Metric.UNIQUENESS (Some (col_name column)) (VFloat u)])
    /\ (u == (inject_Z d - 1) * 100 / (inject_Z v - 1))%Q
    /\ (0 <= u <= 100)%Q
    /\ (d = 1%Z -> (u == 0)%Q)
    /\ (d = v -> (u == 100)%Q).
Proof.
  intros Hen Hq Hget Hv Hd.
  pose proof (derive_uniqueness_int d v ltac:(lia)) as Hu.
  exists (Qred (inject_Z ((d - 1) * 100) / inject_Z (v - 1))).
  assert (Hpos : (0 < inject_Z (v - 1))%Q).
  { change 0%Q with (inject_Z 0). rewrite <- Zlt_Qlt. lia. }
  assert (Heq : (Qred (inject_Z ((d - 1) * 100) / inject_Z (v - 1))
                 == (inject_Z d - 1) * 100 / (inject_Z v - 1))%Q).
  { rewrite Qred_correct, inject_Z_mult. unfold Zminus.
    rewrite !inject_Z_plus, !inject_Z_opp. reflexivity. }
  split_and!.
  - exact Hu.
  - rewrite (distinct_metrics_int self column cte ms d uq v rest Hen Hq Hget), Hu.
    reflexivity.
  - exact Heq.
  - rewrite Qred_correct. apply Qle_shift_div_l; [assumption|].
    rewrite Qmult_0_l. change 0%Q with (inject_Z 0). rewrite <- Zle_Qle. lia.
  - rewrite Qred_correct. apply Qle_shift_div_r; [assumption|].
    change 100%Q with (inject_Z 100). rewrite <- inject_Z_mult, <- Zle_Qle. lia.
  - intros ->. rewrite Qred_correct. simpl. unfold Qdiv. apply Qmult_0_l.
  - intros ->. rewrite Qred_correct, inject_Z_mult.
    change (inject_Z 100) with 100%Q. field.
    intros H. rewrite H in Hpos. apply (Qlt_irrefl 0). exact Hpos.
Qed.

(** *** Zero denominators *)

Lemma derive_missing_zero c (a : Z) :
  derive_missing c (VInt 0) (VInt a) = Err ZeroDivisionError.
Proof. reflexivity. Qed.

Lemma derive_column_zero self b tuple raw d column :
  aggregation_batch self = Ok b ->
  assign_values tuple (seq 0 (length (b_measurements b))) (b_measurements b) = Ok raw ->
  count_cells_int b tuple ->
  column ∈ scan_columns self ->
  exists cache,
    column_caches self !! col_name column = Some cache
    /\ derive_column raw (b_column_metric_indices b) (VInt 0) d column
       = if is_missing_enabled cache (col_name column)
         then Err ZeroDivisionError else Ok d.
Proof.
  intros Hb Hraw Hint Hin.
  apply aggregation_batch_spec in Hb. destruct Hb as (_ & _ & Hcols).
  destruct (Hcols column Hin) as (cache & mi & Hc & Hmi & Hm & Hv).
  exists cache. split; [assumption|].
  unfold derive_column, py_getitem. rewrite Hmi. simpl.
  destruct (is_missing_enabled cache (col_name column)) eqn:Em.
  - destruct Hm as (i & Hi & Hpi). rewrite Hi.
    destruct (raw_lookup _ _ _ _ _ Hraw Hpi) as (c & Hc1 & Hri).
    destruct (Hint i _ Hpi (or_introl eq_refl)) as (a & Hta).
    rewrite Hc1 in Hta. injection Hta as ->.
    rewrite (proj2 (py_index_Ok _ _ _) Hri). reflexivity.
  - rewrite Hm. reflexivity.
Qed.

Lemma derive_columns_zero self b tuple raw cols :
  aggregation_batch self = Ok b ->
  assign_values tuple (seq 0 (length (b_measurements b))) (b_measurements b) = Ok raw ->
  count_cells_int b tuple ->
  (forall column, column ∈ cols -> column ∈ scan_columns self) ->
  (exists column cache,
      column ∈ cols /\ column_caches self !! col_name column = Some cache
      /\ is_missing_enabled cache (col_name column) = true) ->
  forall d,
    derive_columns raw (b_column_metric_indices b) (VInt 0) d cols
    = Err ZeroDivisionError.
Proof.
  intros Hb Hraw Hint. induction cols as [|c rest IH]; intros Hsub Hex d.
  - destruct Hex as (column & _ & Hin & _). apply elem_of_nil in Hin. contradiction.
  - simpl.
    destruct (derive_column_zero self b tuple raw d c Hb Hraw Hint
                (Hsub c (list_elem_of_here _ _))) as (cache & Hc & ->).
    destruct (is_missing_enabled cache (col_name c)) eqn:Em; [reflexivity|].
    simpl. apply IH.
    + intros column Hin. apply Hsub. apply list_elem_of_further. assumption.
    + destruct Hex as (column & cache' & Hin & Hc' & Hen).
      apply elem_of_cons in Hin as [->|Hin].
      * rewrite Hc in Hc'. injection Hc' as <-. congruence.
      * exists column, cache'. auto.
Qed.

Lemma is_any_metric_enabled_group_by c :
  is_any_metric_enabled scan_configuration c
    [Metric.DISTINCT; Metric.UNIQUENESS; Metric.UNIQUE_COUNT] = true ->
  is_any_metric_enabled scan_configuration c
    [Metric.DISTINCT; Metric.UNIQUENESS; Metric.UNIQUE_COUNT;
     Metric.MINS; Metric.MAXS; Metric.FREQUENT_VALUES] = true.
Proof.
  unfold is_any_metric_enabled. simpl. intros H.
  repeat (apply orb_prop in H; destruct H as [H|H]); try discriminate; rewrite H;
    rewrite ?orb_true_r; reflexivity.
Qed.

Lemma group_by_column_distinct_error self ms column cache e :
  is_any_metric_enabled scan_configuration (col_name column)
    [Metric.DISTINCT; Metric.UNIQUENESS; Metric.UNIQUE_COUNT] = true ->
  column_caches self !! col_name column = Some cache ->
  distinct_metrics self column (group_by_cte column cache) ms = Err e ->
  group_by_column self ms column = Err e.
Proof.
  intros Hen Hc Hd. unfold group_by_column.
  rewrite (is_any_metric_enabled_group_by _ Hen).
  rewrite (proj2 (py_getitem_Ok _ _ _) Hc). simpl.
  rewrite Hd. reflexivity.
Qed.

Lemma group_by_columns_error self pre : forall ms ms1 column post e,
  group_by_columns self ms pre = Ok ms1 ->
  group_by_column self ms1 column = Err e ->
  group_by_columns self ms (pre ++ column :: post) = Err e.
Proof.
  induction pre as [|c pre IH]; intros ms ms1 column post e Hpre Hc; simpl in *.
  - injection Hpre as <-. rewrite Hc. reflexivity.
  - destruct (group_by_column self ms c) as [ms'|e']; simpl in *; [|discriminate].
    eapply IH; eassumption.
Qed.

(** C5 (as amended): a zero denominator is not classified, it raises.  With
    a row count of zero and a column whose missing count is computed, the
    derived pass raises ZeroDivisionError and [query_aggregations] returns
    no measurement; with a valid count of one the uniqueness derivation
    raises ZeroDivisionError and [query_group_by_value] returns no
    measurement.  A valid count of zero is no zero denominator: uniqueness
    is then (distinct_count - 1) * 100 / (-1). *)
Theorem zero_denominator_raises :
  (forall (self : Scan) (b : Batch) (tuple : list scalar),
      aggregation_batch self = Ok b ->
      execute_query_one warehouse (aggregation_sql (b_fields b)) = Ok tuple ->
      length (b_measurements b) <= length tuple ->
      count_cells_int b tuple ->
      tuple !! 0 = Some (SInt 0) ->
      (exists column cache,
          column ∈ scan_columns self
          /\ column_caches self !! col_name column = Some cache
          /\ is_missing_enabled cache (col_name column) = true) ->
      query_aggregations self = Err ZeroDivisionError)
  /\ (forall (self : Scan) (pre post : list Column) (column : Column)
        (cache : ScanColumnCache.t) (ms : list Measurement) (d uq : Z)
        (rest : list scalar),
      scan_columns self = pre ++ column :: post ->
      group_by_columns self [] pre = Ok ms ->
      is_any_metric_enabled scan_configuration (col_name column)
        [Metric.DISTINCT; Metric.UNIQUENESS; Metric.UNIQUE_COUNT] = true ->
      column_caches self !! col_name column = Some cache ->
      execute_query_one warehouse (distinct_sql (group_by_cte column cache))
      = Ok (SInt d :: SInt uq :: rest) ->
      ScanResult_get (scan_result self) Metric.VALID_COUNT (col_name column) = VInt 1 ->
      query_group_by_value self = Err ZeroDivisionError)
  /\ (forall (self : Scan) (column : Column) (cte : string) (ms : list Measurement)
        (d uq : Z) (rest : list scalar),
      is_any_metric_enabled scan_configuration (col_name column)
        [Metric.DISTINCT; Metric.UNIQUENESS; Metric.UNIQUE_COUNT] = true ->
      execute_query_one warehouse (distinct_sql cte) = Ok (SInt d :: SInt uq :: rest) ->
      ScanResult_get (scan_result self) Metric.VALID_COUNT (col_name column) = VInt 0 ->
      exists u : Q,
        distinct_metrics self column cte ms
        = Ok (ms ++ [mkMeasurement Metric.DISTINCT (Some (col_name column)) (VInt d);
                     mkMeasurement Metric.UNIQUE_COUNT (Some (col_name column)) (VInt uq);
                     mkMeasurement Metric.UNIQUENESS (Some (col_name column)) (VFloat u)])
        /\ (u == (inject_Z d - 1) * 100 / (-1))%Q).
Proof.
  split_and!.
  - intros self b tuple Hb Hq Hlen Hint H0 Hex.
    destruct (assign_values_total tuple (length (b_measurements b)) 0 (b_measurements b))
      as [raw Hraw]; [reflexivity|assumption|].
    assert (Hraw0 : raw !! 0 = Some (mkMeasurement Metric.ROW_COUNT None (VInt 0))).
    { pose proof Hb as Hb'. apply aggregation_batch_spec in Hb'.
      destruct Hb' as ((newf & newm & _ & Hm & _) & _).
      destruct (raw_lookup tuple (b_measurements b) raw 0
                  (mkMeasurement Metric.ROW_COUNT None VNone) Hraw) as (v & Hv & Hr0).
      { rewrite Hm. reflexivity. }
      rewrite H0 in Hv. injection Hv as <-. exact Hr0. }
    unfold query_aggregations. rewrite Hb. simpl. rewrite Hq. simpl.
    rewrite Hraw. simpl. unfold derived_pass.
    rewrite (proj2 (py_index_Ok _ _ _) Hraw0). simpl.
    rewrite (derive_columns_zero self b tuple raw (scan_columns self) Hb Hraw Hint);
      [reflexivity|auto|].
    destruct Hex as (column & cache & Hin & Hc & Hen). exists column, cache. auto.
  - intros self pre post column cache ms d uq rest Hcols Hpre Hen Hc Hq Hget.
    unfold query_group_by_value. rewrite Hcols.
    apply (group_by_columns_error self pre [] ms column post _ Hpre).
    apply (group_by_column_distinct_error self ms column cache _ Hen Hc).
    rewrite (distinct_metrics_int self column _ ms d uq 1 rest Hen Hq Hget).
    reflexivity.
  - intros self column cte ms d uq rest Hen Hq Hget.
    exists (Qred (inject_Z ((d - 1) * 100) / inject_Z (0 - 1))). split.
    + rewrite (distinct_metrics_int self column cte ms d uq 0 rest Hen Hq Hget).
      rewrite derive_uniqueness_int by discriminate. reflexivity.
    + rewrite Qred_correct, inject_Z_mult. unfold Zminus.
      rewrite inject_Z_plus, inject_Z_opp. reflexivity.
Qed.

(** *** The test evaluator *)

Lemma select_test_values_lookup (d : gmap string value) (t : string) k v :
  select_test_values d t !! k = Some v
  <-> d !! k = Some v /\ py_contains k t = true.
Proof.
  unfold select_test_values.
  rewrite (map_lookup_filter_Some (fun kv => py_contains kv.1 t = true) d k v).
  reflexivity.
Qed.

Lemma select_test_values_agree (d d' : gmap string value) (t : string) :
  (forall k, py_contains k t = true -> d !! k = d' !! k) ->
  select_test_values d t = select_test_values d' t.
Proof.
  intros H. apply map_eq. intros k. apply option_eq. intros v.
  rewrite !select_test_values_lookup. split; intros [Hk Hc]; split; try assumption.
  - rewrite <- (H k Hc). assumption.
  - rewrite (H k Hc). assumption.
Qed.

Lemma eval_globals_lookup (g : gmap string value) k :
  k <> "__builtins__" -> eval_globals g !! k = g !! k.
Proof.
  intros Hk. unfold eval_globals. destruct (g !! "__builtins__"); [reflexivity|].
  apply lookup_insert_ne. congruence.
Qed.

Lemma eval_globals_builtins (g : gmap string value) :
  g !! "__builtins__" = None ->
  eval_globals g !! "__builtins__" = Some VBuiltins.
Proof. intros H. unfold eval_globals. rewrite H. apply lookup_insert_eq. Qed.

Lemma eval_first_name_unbound (g : gmap string value) (e : expr) (id : string) :
  first_name e = Some id ->
  g !! id = None ->
  g !! "__builtins__" = Some VBuiltins ->
  id ∉ builtins ->
  eval_expr builtins g e = Err NameError.
Proof.
  intros Hf Hid Hb Hn. induction e as [x|n|op l IHl r _|l IHl r _|l IHl r _|e IH];
    simpl in Hf |- *.
  - injection Hf as ->. rewrite Hid, Hb. rewrite bool_decide_eq_false_2 by assumption.
    reflexivity.
  - discriminate.
  - rewrite (IHl Hf). reflexivity.
  - rewrite (IHl Hf). reflexivity.
  - rewrite (IHl Hf). reflexivity.
  - rewrite (IH Hf). reflexivity.
Qed.

Lemma run_test_unbound (c : string) (d : gmap string value) (e : expr) (id : string) :
  well_formed e = true ->
  first_name e = Some id ->
  d !! id = None ->
  d !! "__builtins__" = None ->
  id <> "__builtins__" ->
  id ∉ builtins ->
  run_test c d e = Err NameError.
Proof.
  intros Hwf Hf Hid Hb Hne Hn. unfold run_test, py_eval. rewrite Hwf.
  rewrite (eval_first_name_unbound _ e id Hf); [reflexivity| | |assumption].
  - rewrite eval_globals_lookup by assumption.
    destruct (select_test_values d (source_text e) !! id) as [v|] eqn:E; [|reflexivity].
    apply select_test_values_lookup in E as [E _]. congruence.
  - apply eval_globals_builtins.
    destruct (select_test_values d (source_text e) !! "__builtins__") as [v|] eqn:E;
      [|reflexivity].
    apply select_test_values_lookup in E as [E _]. congruence.
Qed.

Lemma run_column_tests_Ok c d ts : forall results r,
  run_column_tests c d ts results = Ok r ->
  forall e, e ∈ ts -> exists tr, run_test c d e = Ok tr.
Proof.
  induction ts as [|t ts IH]; intros results r H e Hin; simpl in H.
  - apply elem_of_nil in Hin. contradiction.
  - inv_bind H. apply elem_of_cons in Hin as [->|Hin]; [eauto|].
    eapply IH; eassumption.
Qed.

Lemma run_tests_columns_Ok self names : forall results r,
  run_tests_columns self names results = Ok r ->
  forall c col e,
    c ∈ names -> columns_get (columns scan_configuration) c = Some col ->
    e ∈ tests col ->
    exists tr,
      run_test c (column_measurement_values (measurements (scan_result self)) c) e
      = Ok tr.
Proof.
  induction names as [|n names IH]; intros results r H c col e Hin Hget He; simpl in H.
  - apply elem_of_nil in Hin. contradiction.
  - inv_bind H. apply elem_of_cons in Hin as [->|Hin].
    + rewrite Hget in Ha. destruct (tests col) as [|t ts] eqn:Et.
      * apply elem_of_nil in He. contradiction.
      * exact (run_column_tests_Ok n _ (t :: ts) results a Ha e He).
    + eapply IH; eassumption.
Qed.

Lemma columns_get_Some l c col :
  columns_get l c = Some col -> c ∈ map fst l.
Proof.
  induction l as [|[k x] l IH]; simpl; [discriminate|].
  destruct (String.eqb_spec k c) as [->|Hne].
  - intros _. apply list_elem_of_here.
  - intros H. apply list_elem_of_further. auto.
Qed.

(** C6 (as amended): a rule expression whose first operand is a name that is
    neither a metric computed for the column nor a name of the builtins is
    not reported as a test result: its evaluation raises NameError, and
    [run_tests] raises and returns no test result, for this test or for any
    other.  The outcome is not coerced to a failed or passed test. *)
Theorem uncomputed_metric_raises (self : Scan) (c : string)
    (col : ScanConfigurationColumn) (e : expr) (id : string) :
  columns_get (columns scan_configuration) c = Some col ->
  e ∈ tests col ->
  well_formed e = true ->
  first_name e = Some id ->
  (column_measurement_values (measurements (scan_result self)) c) !! id = None ->
  (column_measurement_values (measurements (scan_result self)) c) !! "__builtins__" = None ->
  id <> "__builtins__" ->
  id ∉ builtins ->
  run_test c (column_measurement_values (measurements (scan_result self)) c) e
  = Err NameError
  /\ exists x, run_tests self = Err x.
Proof.
  intros Hget He Hwf Hf Hid Hb Hne Hn.
  pose proof (run_test_unbound c _ e id Hwf Hf Hid Hb Hne Hn) as Hrun.
  split; [exact Hrun|].
  destruct (run_tests self) as [r|x] eqn:E; [|eauto].
  unfold run_tests in E.
  destruct (run_tests_columns_Ok self _ _ _ E c col e
              (columns_get_Some _ _ _ Hget) Hget He) as [tr Htr].
  congruence.
Qed.

(** C9 (as amended): the dictionary handed to [eval] holds the values of the
    column's computed metrics whose name occurs in the text of the
    expression, and no other computed value; [eval] adds the builtins of
    the interpreter to it under [__builtins__], and the test result records
    the dictionary so extended.  The outcome depends on the computed values
    through the selected ones only: two sets of computed values that agree
    on the metrics occurring in the text give the same result. *)
Theorem test_values_selected (c : string) (d : gmap string value) (e : expr) :
  (forall k v, select_test_values d (source_text e) !! k = Some v
               <-> d !! k = Some v /\ py_contains k (source_text e) = true)
  /\ (forall tr, run_test c d e = Ok tr ->
        test tr = source_text e
        /\ values tr = eval_globals (select_test_values d (source_text e))
        /\ is_Some (values tr !! "__builtins__"))
  /\ (forall d', (forall k, py_contains k (source_text e) = true -> d !! k = d' !! k) ->
        run_test c d e = run_test c d' e).
Proof.
  split_and!.
  - intros k v. apply select_test_values_lookup.
  - intros tr H. unfold run_test, py_eval in H. inv_bind H. injection H as <-. simpl.
    split_and!; [reflexivity|reflexivity|].
    unfold eval_globals.
    destruct (select_test_values d (source_text e) !! "__builtins__") eqn:E.
    + rewrite E. eauto.
    + rewrite lookup_insert_eq. eauto.
  - intros d' H. unfold run_test.
    rewrite (select_test_values_agree d d' _ H). reflexivity.
Qed.

(** *** The valid count that the uniqueness derivation reads *)

Lemma ScanResult_get_None (r : ScanResult) (m : Metric) (c : string) :
  Forall (fun x => ~ (metric x = m /\ column_name x = Some c)) (measurements r) ->
  ScanResult_get r m c = VNone.
Proof.
  unfold ScanResult_get. induction (measurements r) as [|x l IH]; intros H; simpl.
  - reflexivity.
  - apply Forall_cons in H as [Hx Hl].
    rewrite bool_decide_eq_false_2 by assumption. apply IH. assumption.
Qed.

Lemma derive_missing_metrics c rc mc l :
  derive_missing c rc mc = Ok l ->
  Forall (fun m => metric m <> Metric.VALID_COUNT) l.
Proof.
  unfold derive_missing. intros H. do 5 inv_bind H. injection H as <-.
  repeat constructor; discriminate.
Qed.

Lemma derive_valid_metrics c rc mc vc l :
  derive_valid c rc mc vc = Ok l ->
  Forall (fun m => metric m <> Metric.VALID_COUNT) l.
Proof.
  unfold derive_valid. intros H. do 6 inv_bind H. injection H as <-.
  repeat constructor; discriminate.
Qed.

Lemma derive_column_metrics ms cmi rc d column d' :
  derive_column ms cmi rc d column = Ok d' ->
  Forall (fun m => metric m <> Metric.VALID_COUNT) d ->
  Forall (fun m => metric m <> Metric.VALID_COUNT) d'.
Proof.
  unfold derive_column. intros H Hd. inv_bind H. rename a into mi.
  destruct (mi !! "missing") as [i|]; [|injection H as <-; assumption].
  inv_bind H. inv_bind H. apply derive_missing_metrics in Ha1.
  destruct (mi !! "valid") as [j|].
  - inv_bind H. inv_bind H. apply derive_valid_metrics in Ha3.
    injection H as <-. repeat apply Forall_app_2; assumption.
  - injection H as <-. apply Forall_app_2; assumption.
Qed.

Lemma derive_columns_metrics ms cmi rc cols : forall d d',
  derive_columns ms cmi rc d cols = Ok d' ->
  Forall (fun m => metric m <> Metric.VALID_COUNT) d ->
  Forall (fun m => metric m <> Metric.VALID_COUNT) d'.
Proof.
  induction cols as [|c rest IH]; intros d d' H Hd; simpl in H.
  - injection H as <-. assumption.
  - inv_bind H. eapply IH; [eassumption|].
    eapply derive_column_metrics; eassumption.
Qed.

(** A valid count is among the measurements of the aggregation pass only for
    a column whose valid count is enabled. *)
Lemma valid_count_only_if_enabled self ms self' m c :
  query_aggregations self = Ok (ms, self') ->
  m ∈ ms -> is_valid_count_of c m ->
  exists cache,
    column_caches self !! c = Some cache /\ is_valid_enabled cache c = true.
Proof.
  intros H Hin [Hmet Hcol]. apply query_aggregations_inv in H.
  destruct H as (b & tuple & raw & derived & Hb & _ & Hraw & Hd & -> & _).
  apply elem_of_app in Hin as [Hin|Hin].
  - apply list_elem_of_lookup in Hin as [i Hi].
    pose proof (raw_length _ _ _ Hraw) as Hl.
    destruct (lookup_lt_is_Some_2 (b_measurements b) i) as [m0 Hm0].
    { rewrite <- Hl. eapply lookup_lt_Some. eassumption. }
    destruct (raw_lookup _ _ _ _ _ Hraw Hm0) as (v & _ & Hri).
    rewrite Hi in Hri. injection Hri as ->. simpl in Hmet, Hcol.
    apply aggregation_batch_spec in Hb.
    destruct Hb as ((newf & newm & _ & Hm & _ & Hp) & _).
    rewrite Hm in Hm0. destruct i as [|i]; simpl in Hm0.
    + injection Hm0 as <-. discriminate.
    + rewrite Forall_forall in Hp.
      destruct (Hp m0) as (column & cache & _ & Hc & Hn & _ & Hv & _).
      { apply list_elem_of_lookup. eauto. }
      rewrite Hcol in Hn. injection Hn as ->. eauto.
  - unfold derived_pass in Hd. inv_bind Hd. inv_bind Hd. injection Hd as Hd.
    apply app_inv_head in Hd. subst a0.
    apply derive_columns_metrics in Ha0; [|constructor].
    rewrite Forall_forall in Ha0. exfalso. exact (Ha0 m Hin Hmet).
Qed.

(** C10: when distinct, uniqueness or unique count is enabled for a column,
    the grouped statistics compute the three measurements together, the
    uniqueness from the valid count that the scan result holds for the
    column; the aggregation pass records a valid count only for a column
    with an enabled validity metric or with distinct or uniqueness enabled;
    so with unique count alone, the lookup finds no value ([None]) and the
    subtraction in the uniqueness derivation raises TypeError. *)
Theorem unique_count_alone_has_no_valid_count :
  (forall (self : Scan) (column : Column) (cte : string) (ms ms' : list Measurement),
      is_any_metric_enabled scan_configuration (col_name column)
        [Metric.DISTINCT; Metric.UNIQUENESS; Metric.UNIQUE_COUNT] = true ->
      distinct_metrics self column cte ms = Ok ms' ->
      exists (d uq : scalar) (u : value),
        ms' = ms ++ [mkMeasurement Metric.DISTINCT (Some (col_name column)) (VScalar d);
                     mkMeasurement Metric.UNIQUE_COUNT (Some (col_name column)) (VScalar uq);
                     mkMeasurement Metric.UNIQUENESS (Some (col_name column)) u]
        /\ derive_uniqueness (VScalar d)
             (ScanResult_get (scan_result self) Metric.VALID_COUNT (col_name column))
           = Ok u)
  /\ (forall (self self' : Scan) (ms : list Measurement) (m : Measurement) (c : string),
        query_aggregations self = Ok (ms, self') ->
        m ∈ ms -> metric m = Metric.VALID_COUNT -> column_name m = Some c ->
        exists cache,
          column_caches self !! c = Some cache
          /\ ((ScanColumnCache.validity cache <> None
               /\ ScanColumnCache.is_validity_metric_enabled cache = true)
              \/ is_metric_enabled scan_configuration c Metric.DISTINCT = true
              \/ is_metric_enabled scan_configuration c Metric.UNIQUENESS = true))
  /\ (forall (self self' : Scan) (ms acc : list Measurement) (column : Column)
        (cache : ScanColumnCache.t) (cte : string) (d uq : Z) (rest : list scalar),
        query_aggregations self = Ok (ms, self') ->
        Forall (fun m => ~ is_valid_count_of (col_name column) m)
          (measurements (scan_result self)) ->
        column_caches self !! col_name column = Some cache ->
        ScanColumnCache.validity cache = None ->
        is_metric_enabled scan_configuration (col_name column) Metric.DISTINCT = false ->
        is_metric_enabled scan_configuration (col_name column) Metric.UNIQUENESS = false ->
        is_metric_enabled scan_configuration (col_name column) Metric.UNIQUE_COUNT = true ->
        execute_query_one warehouse (distinct_sql cte) = Ok (SInt d :: SInt uq :: rest) ->
        Forall (fun m => ~ is_valid_count_of (col_name column) m)
          (measurements (scan_result (add_measurements self' ms)))
        /\ ScanResult_get (scan_result (add_measurements self' ms)) Metric.VALID_COUNT
             (col_name column) = VNone
        /\ distinct_metrics (add_measurements self' ms) column cte acc = Err TypeError).
Proof.
  split_and!.
  - intros self column cte ms ms' Hen H. unfold distinct_metrics in H. rewrite Hen in H.
    inv_bind H. rename a into tuple. inv_bind H. rename a into d.
    inv_bind H. rename a into uq. inv_bind H. rename a into u.
    injection H as <-. exists d, uq, u. rewrite <- !app_assoc. split; [reflexivity|].
    assumption.
  - intros self self' ms m c H Hin Hmet Hcol.
    destruct (valid_count_only_if_enabled self ms self' m c H Hin (conj Hmet Hcol))
      as (cache & Hc & Hen).
    exists cache. split; [assumption|].
    unfold is_valid_enabled, is_any_metric_enabled in Hen. simpl in Hen.
    rewrite orb_false_r in Hen.
    apply orb_prop in Hen as [Hen|Hen].
    + left. apply andb_prop in Hen as [Hv Hve]. split; [|assumption].
      apply bool_decide_eq_true in Hv. assumption.
    + right. apply orb_prop in Hen. assumption.
  - intros self self' ms acc column cache cte d uq rest H Hinit Hc Hval Hd Hu Huc Hq.
    assert (Hdis : is_valid_enabled cache (col_name column) = false).
    { unfold is_valid_enabled, is_any_metric_enabled. simpl. rewrite Hd, Hu, Hval.
      reflexivity. }
    assert (Hall : Forall (fun m => ~ is_valid_count_of (col_name column) m)
                     (measurements (scan_result (add_measurements self' ms)))).
    { pose proof H as H'. apply query_aggregations_inv in H'.
      destruct H' as (b & _ & _ & _ & _ & _ & _ & _ & _ & ->).
      assert (Hms : Forall (fun m => ~ is_valid_count_of (col_name column) m) ms).
      { rewrite Forall_forall. intros m Hin Hvc.
        destruct (valid_count_only_if_enabled self ms _ m _ H Hin Hvc)
          as (cache' & Hc' & Hen).
        rewrite Hc in Hc'. injection Hc' as <-. congruence. }
      unfold add_measurements. destruct ms as [|m0 ms0]; simpl.
      - exact Hinit.
      - apply Forall_app_2; assumption. }
    assert (Hnone : ScanResult_get (scan_result (add_measurements self' ms))
                      Metric.VALID_COUNT (col_name column) = VNone)
      by (apply ScanResult_get_None; exact Hall).
    split_and!; [exact Hall|exact Hnone|].
    unfold distinct_metrics.
    assert (Hen : is_any_metric_enabled scan_configuration (col_name column)
                    [Metric.DISTINCT; Metric.UNIQUENESS; Metric.UNIQUE_COUNT] = true).
    { unfold is_any_metric_enabled. simpl. rewrite Huc, !orb_true_r. reflexivity. }
    rewrite Hen, Hq. simpl. rewrite Hnone. reflexivity.
Qed.

(** ** Further properties of the scan *)

(** *** Schema discovery *)

Lemma column_of_tuple_Ok row c :
  column_of_tuple row = Ok c <-> row_describes row c.
Proof.
  unfold column_of_tuple, row_describes, py_index. split.
  - destruct row as [|n [|t [|f extra]]]; simpl; try discriminate.
    destruct f as [| | | |flag]; simpl; try discriminate.
    destruct n as [| | | |name]; simpl; try discriminate.
    destruct t as [| | | |type]; simpl; try discriminate.
    intros H. injection H as <-. exists flag, extra. split; reflexivity.
  - intros (flag & extra & -> & Hn). simpl. destruct c as [name type nullable].
    simpl in *. rewrite Hn. reflexivity.
Qed.

Lemma columns_of_tuples_acc rows : forall acc,
  columns_of_tuples rows acc = (cs ← columns_of_tuples rows []; Ok (acc ++ cs)).
Proof.
  induction rows as [|row rows IH]; intros acc; simpl.
  - rewrite app_nil_r. reflexivity.
  - destruct (column_of_tuple row) as [c|e]; simpl; [|reflexivity].
    rewrite (IH (acc ++ [c])), (IH [c]).
    destruct (columns_of_tuples rows []) as [cs|e]; simpl; [|reflexivity].
    rewrite <- app_assoc. reflexivity.
Qed.




Lemma columns_of_tuples_error good bad rest cols0 e :
  Forall2 row_describes good cols0 ->
  column_of_tuple bad = Err e ->
  columns_of_tuples (good ++ bad :: rest) [] = Err e.
Proof.
  intros Hgood Hbad. revert cols0 Hgood.
  induction good as [|row good IH]; intros cols0 Hgood; simpl.
  - rewrite Hbad. reflexivity.
  - apply Forall2_cons_inv_l in Hgood as (c & cs & Hc & Hcs & ->).
    apply column_of_tuple_Ok in Hc. rewrite Hc. simpl.
    rewrite columns_of_tuples_acc, (IH cs Hcs). reflexivity.
Qed.

(** X2: a metadata row with fewer than three cells makes [query_columns]
    raise IndexError, and a row whose third cell is not a string (a NULL,
    a number) makes it raise AttributeError, whatever its name and type;
    the rows after it are not read and no column is returned. *)
Theorem malformed_metadata_row_raises (good rest : list (list scalar))
    (cols0 : list Column) (bad : list scalar) :
  execute_query_all warehouse (sql_columns_metadata_query scan_configuration)
  = Ok (good ++ bad :: rest) ->
  Forall2 row_describes good cols0 ->
  (length bad < 3 -> query_columns = Err IndexError)
  /\ (forall name type flag extra,
        bad = name :: type :: flag :: extra ->
        (forall s, flag <> SStr s) ->
        query_columns = Err AttributeError).
Proof.
  intros Hq Hgood. unfold query_columns. rewrite Hq. simpl. split.
  - intros Hlen. apply (columns_of_tuples_error good bad rest cols0 _ Hgood).
    destruct bad as [|n [|t [|f extra]]]; simpl in *; try reflexivity. lia.
  - intros name type flag extra -> Hflag.
    apply (columns_of_tuples_error good _ rest cols0 _ Hgood).
    unfold column_of_tuple. simpl.
    destruct flag as [| | | |s]; try reflexivity. exfalso. exact (Hflag s eq_refl).
Qed.

(** *** The order of the batch *)

Ltac solve_sublist :=
  repeat first [apply sublist_nil_l | apply sublist_skip | apply sublist_cons].

Lemma missing_valid_metrics_order column cache fields ms mi fields' ms' :
  missing_valid_metrics column cache fields ms = (mi, fields', ms') ->
  exists seg,
    ms' = ms ++ seg
    /\ seg `sublist_of` [placeholder Metric.MISSING_COUNT (col_name column);
                         placeholder Metric.VALID_COUNT (col_name column)].
Proof.
  unfold missing_valid_metrics, placeholder.
  destruct (is_missing_enabled cache (col_name column));
    destruct (is_valid_enabled cache (col_name column));
    intros [= <- <- <-].
  - eexists. split; [rewrite <- app_assoc; reflexivity|]. simpl. solve_sublist.
  - eexists. split; [reflexivity|]. solve_sublist.
  - eexists. split; [reflexivity|]. solve_sublist.
  - exists []. split; [rewrite app_nil_r; reflexivity|]. solve_sublist.
Qed.

Lemma text_metrics_order column cache fields ms cache' nte fields' ms' :
  text_metrics column cache fields ms = (cache', nte, fields', ms') ->
  exists seg,
    ms' = ms ++ seg
    /\ seg `sublist_of` [placeholder Metric.MIN_LENGTH (col_name column);
                         placeholder Metric.MAX_LENGTH (col_name column)]
    /\ (forall m, m ∈ seg ->
          ScanColumnCache.is_text cache = true
          /\ is_metric_enabled scan_configuration (col_name column) (metric m) = true)
    /\ ScanColumnCache.is_number cache' = ScanColumnCache.is_number cache.
Proof.
  unfold text_metrics, placeholder.
  destruct (ScanColumnCache.is_text cache).
  - destruct (is_metric_enabled scan_configuration (col_name column) Metric.MIN_LENGTH)
      eqn:E1;
      destruct (is_metric_enabled scan_configuration (col_name column) Metric.MAX_LENGTH)
        eqn:E2;
      intros [= <- <- <- <-].
    + eexists. split; [rewrite <- app_assoc; reflexivity|].
      split; [simpl; solve_sublist|]. split; [|reflexivity].
      intros m Hm. simpl in Hm. rewrite !elem_of_cons, elem_of_nil in Hm.
      destruct Hm as [->| [->|[]]]; simpl; auto.
    + eexists. split; [reflexivity|].
      split; [solve_sublist|]. split; [|reflexivity].
      intros m Hm. rewrite !elem_of_cons, elem_of_nil in Hm.
      destruct Hm as [->|[]]; simpl; auto.
    + eexists. split; [reflexivity|].
      split; [solve_sublist|]. split; [|reflexivity].
      intros m Hm. rewrite !elem_of_cons, elem_of_nil in Hm.
      destruct Hm as [->|[]]; simpl; auto.
    + exists []. split; [rewrite app_nil_r; reflexivity|].
      split; [solve_sublist|]. split; [|reflexivity].
      intros m Hm. apply elem_of_nil in Hm. destruct Hm.
  - intros [= <- <- <- <-]. exists [].
    split; [rewrite app_nil_r; reflexivity|].
    split; [solve_sublist|]. split; [|reflexivity].
    intros m Hm. apply elem_of_nil in Hm. destruct Hm.
Qed.

Lemma numeric_metrics_order column cache nte fields ms :
  exists seg,
    (numeric_metrics column cache nte fields ms).2 = ms ++ seg
    /\ seg `sublist_of` [placeholder Metric.MIN (col_name column);
                         placeholder Metric.MAX (col_name column);
                         placeholder Metric.AVG (col_name column);
                         placeholder Metric.SUM (col_name column)]
    /\ (forall m, m ∈ seg ->
          is_metric_enabled scan_configuration (col_name column) (metric m) = true).
Proof.
  unfold numeric_metrics.
  destruct (ScanColumnCache.is_number cache
            || ScanColumnCache.is_column_numeric_text_format cache).
  - destruct (is_metric_enabled scan_configuration (col_name column) Metric.MIN) eqn:B1;
      destruct (is_metric_enabled scan_configuration (col_name column) Metric.MAX) eqn:B2;
      destruct (is_metric_enabled scan_configuration (col_name column) Metric.AVG) eqn:B3;
      destruct (is_metric_enabled scan_configuration (col_name column) Metric.SUM) eqn:B4;
      simpl; rewrite <- ?app_assoc; simpl;
      (eexists; split;
       [first [reflexivity | symmetry; apply app_nil_r]
       |split;
        [unfold placeholder; solve_sublist
        |intros m Hm; rewrite ?elem_of_cons, ?elem_of_nil in Hm;
         repeat (destruct Hm as [->|Hm]; [simpl; assumption|]); destruct Hm]]).
  - exists []. simpl. split; [rewrite app_nil_r; reflexivity|].
    split; [solve_sublist|]. intros m Hm. apply elem_of_nil in Hm. destruct Hm.
Qed.

Lemma aggregation_column_segment b column b' :
  aggregation_column b column = Ok b' ->
  exists seg,
    b_measurements b' = b_measurements b ++ seg /\ column_segment column seg.
Proof.
  unfold aggregation_column. intros H. inv_bind H. rename a into cache0.
  set (cache := ScanColumnCache.set_is_number (is_number column)
                  (ScanColumnCache.set_is_text (is_text column) cache0)) in H.
  destruct (missing_valid_metrics column cache (b_fields b) (b_measurements b))
    as [[mi f1] m1] eqn:E1.
  destruct (text_metrics column cache f1 m1) as [[[cache' nte] f2] m2] eqn:E2.
  pose proof (numeric_metrics_order column cache' nte f2 m2) as (s3 & E3 & S3 & P3).
  destruct (numeric_metrics column cache' nte f2 m2) as [f3 m3]. simpl in E3.
  injection H as <-. simpl.
  apply missing_valid_metrics_order in E1 as (s1 & -> & S1).
  apply text_metrics_order in E2 as (s2 & -> & S2 & P2 & _).
  subst m3. exists (s1 ++ s2 ++ s3). split; [rewrite <- !app_assoc; reflexivity|].
  split; [|split].
  - change ((fun m => placeholder m (col_name column)) <$> raw_column_metrics)
      with ([placeholder Metric.MISSING_COUNT (col_name column);
             placeholder Metric.VALID_COUNT (col_name column)]
            ++ [placeholder Metric.MIN_LENGTH (col_name column);
                placeholder Metric.MAX_LENGTH (col_name column)]
            ++ [placeholder Metric.MIN (col_name column);
                placeholder Metric.MAX (col_name column);
                placeholder Metric.AVG (col_name column);
                placeholder Metric.SUM (col_name column)]).
    repeat apply sublist_app; assumption.
  - intros m Hm Hmetric. rewrite !elem_of_app in Hm. destruct Hm as [Hm|[Hm|Hm]].
    + exfalso. apply (elem_of_sublist _ _ _ Hm) in S1.
      rewrite !elem_of_cons, elem_of_nil in S1.
      rewrite !elem_of_cons, elem_of_nil in Hmetric.
      destruct S1 as [->|[->|[]]]; destruct Hmetric as [Hx|[Hx|[]]]; discriminate Hx.
    + apply P2 in Hm as [Ht _]. exact Ht.
    + exfalso. apply (elem_of_sublist _ _ _ Hm) in S3.
      rewrite !elem_of_cons, elem_of_nil in S3.
      rewrite !elem_of_cons, elem_of_nil in Hmetric.
      destruct S3 as [->|[->|[->|[->|[]]]]]; destruct Hmetric as [Hx|[Hx|[]]];
        discriminate Hx.
  - intros m Hm Hmetric. rewrite !elem_of_app in Hm. destruct Hm as [Hm|[Hm|Hm]].
    + exfalso. apply (elem_of_sublist _ _ _ Hm) in S1.
      rewrite !elem_of_cons, elem_of_nil in S1.
      rewrite !elem_of_cons, elem_of_nil in Hmetric.
      destruct S1 as [->|[->|[]]];
        repeat (destruct Hmetric as [Hx|Hmetric]; [discriminate Hx|]);
        destruct Hmetric.
    + apply P2 in Hm as [_ He]. exact He.
    + apply P3. assumption.
Qed.

Lemma aggregation_columns_segments cols : forall b b',
  aggregation_columns b cols = Ok b' ->
  exists segs,
    b_measurements b' = b_measurements b ++ concat segs
    /\ Forall2 column_segment cols segs.
Proof.
  induction cols as [|column cols IH]; intros b b' H; simpl in H.
  - injection H as <-. exists []. simpl. rewrite app_nil_r.
    split; [reflexivity|constructor].
  - inv_bind H. rename a into b1.
    apply aggregation_column_segment in Ha as (seg & E1 & Hseg).
    apply IH in H as (segs & E2 & Hsegs).
    exists (seg :: segs). simpl. rewrite E2, E1, <- app_assoc.
    split; [reflexivity|constructor; assumption].
Qed.

(** X3: the measurements of the aggregation batch follow the columns of the
    table: after the row count comes one segment per column, in the order of
    the columns; a segment holds placeholders of its column only, taken from
    missing count, valid count, min length, max length, min, max, avg, sum
    in that order, none of them twice; the lengths are there for a text
    column only, and lengths and numeric aggregates only when the metric is
    enabled for the column. *)
Theorem batch_follows_columns (self : Scan) (b : Batch) :
  aggregation_batch self = Ok b ->
  exists segs : list (list Measurement),
    b_measurements b = mkMeasurement Metric.ROW_COUNT None VNone :: concat segs
    /\ Forall2 column_segment (scan_columns self) segs.
Proof.
  unfold aggregation_batch. intros H.
  apply aggregation_columns_segments in H as (segs & E & Hsegs).
  exists segs. split; [exact E|exact Hsegs].
Qed.

(** *** The order of the derived measurements *)

Lemma derive_columns_segments ms cmi rc cols : forall d d',
  derive_columns ms cmi rc d cols = Ok d' ->
  exists segs,
    d' = d ++ concat segs
    /\ Forall2 (fun column seg => derive_column ms cmi rc [] column = Ok seg) cols segs.
Proof.
  induction cols as [|c rest IH]; intros d d' H; simpl in H.
  - injection H as <-. exists []. simpl. rewrite app_nil_r.
    split; [reflexivity|constructor].
  - rewrite derive_column_acc in H. inv_bind H. rename a into d1.
    inv_bind Ha. rename a into p. injection Ha as <-.
    destruct (IH _ _ H) as (segs & -> & Hsegs).
    exists (p :: segs). simpl. rewrite app_assoc.
    split; [reflexivity|constructor; assumption].
Qed.

Lemma derive_column_segment self b tuple raw rc column seg :
  aggregation_batch self = Ok b ->
  assign_values tuple (seq 0 (length (b_measurements b))) (b_measurements b) = Ok raw ->
  column ∈ scan_columns self ->
  derive_column raw (b_column_metric_indices b) rc [] column = Ok seg ->
  derived_segment self column seg.
Proof.
  intros Hb Hraw Hin H.
  apply aggregation_batch_spec in Hb. destruct Hb as (_ & _ & Hcols).
  destruct (Hcols column Hin) as (cache & mi & Hc & Hmi & Hm & Hv).
  unfold derive_column in H. rewrite (proj2 (py_getitem_Ok _ _ _) Hmi) in H.
  simpl in H. unfold derived_segment.
  destruct (is_missing_enabled cache (col_name column)) eqn:Em.
  - destruct Hm as (i & Hi & _). rewrite Hi in H. inv_bind H. rename a into m.
    inv_bind H. rename a into d1.
    apply derive_missing_inv in Ha0. destruct Ha0 as (mp & vc & vp & _ & _ & _ & ->).
    destruct (is_valid_enabled cache (col_name column)) eqn:Ev.
    + destruct Hv as (j & Hj & _). rewrite Hj in H. inv_bind H. rename a into m'.
      inv_bind H. rename a into d2. injection H as <-.
      apply derive_valid_inv in Ha1.
      destruct Ha1 as (vc' & ic & ip & valp & _ & _ & _ & _ & ->).
      split; [repeat constructor|]. exists cache. rewrite Em, Ev.
      split; [assumption|reflexivity].
    + rewrite Hv in H. injection H as <-.
      split; [repeat constructor|]. exists cache. rewrite Em, Ev.
      split; [assumption|reflexivity].
  - rewrite Hm in H. injection H as <-.
    split; [constructor|]. exists cache. rewrite Em. split; [assumption|reflexivity].
Qed.

Lemma derive_columns_derived_segments self b tuple raw rc cols segs :
  aggregation_batch self = Ok b ->
  assign_values tuple (seq 0 (length (b_measurements b))) (b_measurements b) = Ok raw ->
  (forall column, column ∈ cols -> column ∈ scan_columns self) ->
  Forall2 (fun column seg =>
             derive_column raw (b_column_metric_indices b) rc [] column = Ok seg)
    cols segs ->
  Forall2 (derived_segment self) cols segs.
Proof.
  intros Hb Hraw Hsub Hall.
  induction Hall as [|column seg cols segs Hseg Hall IH]; constructor.
  - apply (derive_column_segment self b tuple raw rc column seg Hb Hraw);
      [apply Hsub, list_elem_of_here|assumption].
  - apply IH. intros c Hc. apply Hsub, list_elem_of_further. assumption.
Qed.

(** X4: the measurements that [query_aggregations] returns after those of
    the batch follow the columns of the table: one segment per column, in
    the order of the columns, holding measurements of that column only:
    missing percentage, values count, values percentage when the missing
    count of the column is enabled, then invalid percentage, invalid count,
    valid percentage when its valid count is enabled, and nothing
    otherwise. *)
Theorem derived_follow_columns (self self' : Scan) (ms : list Measurement) :
  query_aggregations self = Ok (ms, self') ->
  exists (b : Batch) (segs : list (list Measurement)),
    aggregation_batch self = Ok b
    /\ drop (length (b_measurements b)) ms = concat segs
    /\ Forall2 (derived_segment self) (scan_columns self) segs.
Proof.
  intros H. apply query_aggregations_inv in H.
  destruct H as (b & tuple & raw & derived & Hb & _ & Hraw & Hd & -> & _).
  pose proof (raw_length _ _ _ Hraw) as Hrl.
  unfold derived_pass in Hd. inv_bind Hd. rename a into m0. inv_bind Hd.
  injection Hd as Hd. apply app_inv_head in Hd. subst a.
  simpl in Ha0. apply derive_columns_segments in Ha0 as (segs & Hsegs & Hall).
  simpl in Hsegs. subst derived.
  exists b, segs. split; [assumption|].
  split; [rewrite <- Hrl; apply drop_app_length|].
  apply (derive_columns_derived_segments self b tuple raw (value_of m0)); auto.
Qed.

(** *** What comes with a valid count *)

Lemma valid_count_column self ms self' m c :
  query_aggregations self = Ok (ms, self') ->
  m ∈ ms -> is_valid_count_of c m ->
  exists column cache,
    column ∈ scan_columns self /\ col_name column = c
    /\ column_caches self !! c = Some cache /\ is_valid_enabled cache c = true.
Proof.
  intros H Hin [Hmet Hcol]. apply query_aggregations_inv in H.
  destruct H as (b & tuple & raw & derived & Hb & _ & Hraw & Hd & -> & _).
  apply elem_of_app in Hin as [Hin|Hin].
  - apply list_elem_of_lookup in Hin as [i Hi].
    pose proof (raw_length _ _ _ Hraw) as Hl.
    destruct (lookup_lt_is_Some_2 (b_measurements b) i) as [m0 Hm0].
    { rewrite <- Hl. eapply lookup_lt_Some. eassumption. }
    destruct (raw_lookup _ _ _ _ _ Hraw Hm0) as (v & _ & Hri).
    rewrite Hi in Hri. injection Hri as ->. simpl in Hmet, Hcol.
    apply aggregation_batch_spec in Hb.
    destruct Hb as ((newf & newm & _ & Hm & _ & Hp) & _).
    rewrite Hm in Hm0. destruct i as [|i]; simpl in Hm0.
    + injection Hm0 as <-. discriminate.
    + rewrite Forall_forall in Hp.
      destruct (Hp m0) as (column & cache & Hcin & Hc & Hn & _ & Hv & _).
      { apply list_elem_of_lookup. eauto. }
      rewrite Hcol in Hn. injection Hn as ->. exists column, cache. auto.
  - unfold derived_pass in Hd. inv_bind Hd. inv_bind Hd. injection Hd as Hd.
    apply app_inv_head in Hd. subst a0.
    apply derive_columns_metrics in Ha0; [|constructor].
    rewrite Forall_forall in Ha0. exfalso. exact (Ha0 m Hin Hmet).
Qed.

Lemma elem_of_drop_elem {A : Type} (x : A) (n : nat) (l : list A) :
  x ∈ drop n l -> x ∈ l.
Proof.
  intros H. rewrite <- (take_drop n l). apply elem_of_app. right. assumption.
Qed.

(** X5: a valid count in the measurements of [query_aggregations] never
    comes alone: the measurements then hold, for the same column, a missing
    count and the six derived measurements: missing percentage, values
    count, values percentage, invalid count, invalid percentage and valid
    percentage. *)
Theorem valid_count_has_companions (self self' : Scan) (ms : list Measurement)
    (m : Measurement) (c : string) :
  query_aggregations self = Ok (ms, self') ->
  m ∈ ms ->
  metric m = Metric.VALID_COUNT ->
  column_name m = Some c ->
  forall k : Metric,
    k ∈ [Metric.MISSING_COUNT; Metric.MISSING_PERCENTAGE; Metric.VALUES_COUNT;
         Metric.VALUES_PERCENTAGE; Metric.INVALID_COUNT; Metric.INVALID_PERCENTAGE;
         Metric.VALID_PERCENTAGE] ->
    exists v : value, mkMeasurement k (Some c) v ∈ ms.
Proof.
  intros H Hin Hmet Hcol.
  destruct (valid_count_column self ms self' m c H Hin (conj Hmet Hcol))
    as (column & cache & Hcin & <- & Hc & Hv).
  assert (Hmis : is_missing_enabled cache (col_name column) = true).
  { unfold is_missing_enabled. rewrite Hv. reflexivity. }
  destruct (derived_values self ms self' H) as (b & rc & _ & _ & Hd).
  destruct (Hd column Hcin cache Hc Hmis)
    as (i & mc & mp & vc & vp & Hi & _ & _ & _ & H1 & H2 & H3 & Hvalid).
  destruct (Hvalid Hv) as (j & w & ic & ip & valp & _ & _ & _ & _ & H4 & H5 & H6).
  intros k Hk. rewrite !elem_of_cons, elem_of_nil in Hk.
  destruct Hk as [->|[->|[->|[->|[->|[->|[->|[]]]]]]]]; eexists.
  - apply list_elem_of_lookup. exists i. exact Hi.
  - exact (elem_of_drop_elem _ _ _ H1).
  - exact (elem_of_drop_elem _ _ _ H2).
  - exact (elem_of_drop_elem _ _ _ H3).
  - exact (elem_of_drop_elem _ _ _ H4).
  - exact (elem_of_drop_elem _ _ _ H5).
  - exact (elem_of_drop_elem _ _ _ H6).
Qed.

(** *** The classification of the columns *)

Lemma aggregation_column_classifies b column b' :
  aggregation_column b column = Ok b' ->
  exists c0 c,
    b_caches b !! col_name column = Some c0
    /\ b_caches b' = <[col_name column := c]> (b_caches b)
    /\ classified column c0 c.
Proof.
  unfold aggregation_column. intros H. inv_bind H. rename a into c0.
  apply py_getitem_Ok in Ha.
  set (cache := ScanColumnCache.set_is_number (is_number column)
                  (ScanColumnCache.set_is_text (is_text column) c0)) in H.
  destruct (missing_valid_metrics column cache (b_fields b) (b_measurements b))
    as [[mi f1] m1].
  destruct (text_metrics column cache f1 m1) as [[[cache' nte] f2] m2] eqn:E2.
  destruct (numeric_metrics column cache' nte f2 m2) as [f3 m3].
  injection H as <-. simpl. exists c0, cache'. split; [assumption|].
  split; [reflexivity|].
  unfold text_metrics in E2. subst cache. simpl in E2. unfold classified.
  destruct (is_text column).
  - destruct (is_metric_enabled scan_configuration (col_name column) Metric.MIN_LENGTH);
      destruct (is_metric_enabled scan_configuration (col_name column) Metric.MAX_LENGTH);
      injection E2 as <- _ _ _; simpl; split_and!; reflexivity.
  - injection E2 as <- _ _ _. simpl. split_and!; reflexivity.
Qed.

Lemma aggregation_columns_classify cols : forall b b',
  NoDup (col_name <$> cols) ->
  aggregation_columns b cols = Ok b' ->
  (forall k, k ∉ col_name <$> cols -> b_caches b' !! k = b_caches b !! k)
  /\ (forall column, column ∈ cols ->
        exists c0 c,
          b_caches b !! col_name column = Some c0
          /\ b_caches b' !! col_name column = Some c
          /\ classified column c0 c).
Proof.
  induction cols as [|c1 cols IH]; intros b b' Hnd H; simpl in H.
  - injection H as <-. split; [reflexivity|].
    intros column Hin. apply elem_of_nil in Hin. destruct Hin.
  - rewrite fmap_cons in Hnd. apply NoDup_cons in Hnd as [Hnotin Hnd].
    inv_bind H. rename a into b1.
    apply aggregation_column_classifies in Ha as (c0 & c & Hc0 & Hb1 & Hcl).
    destruct (IH b1 b' Hnd H) as [Hother Hcols]. split.
    + intros k Hk. rewrite fmap_cons in Hk. apply not_elem_of_cons in Hk as [Hne Hk].
      rewrite (Hother k Hk), Hb1. apply lookup_insert_ne. congruence.
    + intros column Hin. apply elem_of_cons in Hin as [->|Hin].
      * exists c0, c. split; [assumption|]. split; [|assumption].
        rewrite (Hother _ Hnotin), Hb1. apply lookup_insert_eq.
      * destruct (Hcols column Hin) as (d0 & d & Hd0 & Hd & Hdcl).
        exists d0, d. split; [|split; assumption].
        rewrite Hb1 in Hd0. rewrite lookup_insert_ne in Hd0; [assumption|].
        intros E. apply Hnotin. rewrite E. apply list_elem_of_fmap.
        exists column. split; [reflexivity|assumption].
Qed.

(** X6: the aggregation pass changes nothing of the scan but its column
    caches, and these only for the columns of the table: when the names of
    the columns are distinct, the cache of every column holds afterwards the
    dialect's classification of that column as text and as number and, for
    a text column, the validity format of the configuration and whether it
    starts with number_; the validity configuration and the two conditions
    of the cache are as before. *)
Theorem aggregation_pass_classifies_columns (self self' : Scan)
    (ms : list Measurement) :
  NoDup (col_name <$> scan_columns self) ->
  query_aggregations self = Ok (ms, self') ->
  scan_result self' = scan_result self
  /\ scan_columns self' = scan_columns self
  /\ sent self' = sent self
  /\ (forall k, k ∉ col_name <$> scan_columns self ->
        column_caches self' !! k = column_caches self !! k)
  /\ (forall column, column ∈ scan_columns self ->
        exists c0 c,
          column_caches self !! col_name column = Some c0
          /\ column_caches self' !! col_name column = Some c
          /\ classified column c0 c).
Proof.
  intros Hnd H. apply query_aggregations_inv in H.
  destruct H as (b & tuple & raw & derived & Hb & _ & _ & _ & _ & ->).
  unfold aggregation_batch in Hb.
  destruct (aggregation_columns_classify _ _ _ Hnd Hb) as [Hother Hcols].
  simpl in *. split_and!; try reflexivity; assumption.
Qed.

(** *** The grouped statistics *)

Lemma group_by_column_disabled self ms column :
  is_any_metric_enabled scan_configuration (col_name column) group_by_metrics = false ->
  group_by_column self ms column = Ok ms.
Proof.
  intros H. unfold group_by_column. unfold group_by_metrics in H. rewrite H. reflexivity.
Qed.

Lemma group_by_columns_filter self cols : forall ms,
  group_by_columns self ms cols
  = group_by_columns self ms
      (List.filter
         (fun column =>
            is_any_metric_enabled scan_configuration (col_name column) group_by_metrics)
         cols).
Proof.
  induction cols as [|column cols IH]; intros ms; [reflexivity|].
  cbn [List.filter].
  destruct (is_any_metric_enabled scan_configuration (col_name column) group_by_metrics)
    eqn:E; cbn [group_by_columns].
  - destruct (group_by_column self ms column) as [ms1|e]; simpl; [apply IH|reflexivity].
  - rewrite (group_by_column_disabled self ms column E). simpl. apply IH.
Qed.

Lemma group_by_columns_all_disabled self cols :
  (forall column, column ∈ cols ->
     is_any_metric_enabled scan_configuration (col_name column) group_by_metrics
     = false) ->
  forall ms, group_by_columns self ms cols = Ok ms.
Proof.
  induction cols as [|column cols IH]; intros Hall ms; [reflexivity|].
  cbn [group_by_columns].
  rewrite (group_by_column_disabled self ms column (Hall column (list_elem_of_here _ _))).
  simpl. apply IH. intros c Hc. apply Hall, list_elem_of_further. assumption.
Qed.

Lemma group_by_columns_with_columns self keep cols : forall ms,
  group_by_columns (with_columns self keep) ms cols = group_by_columns self ms cols.
Proof.
  induction cols as [|column cols IH]; intros ms; [reflexivity|].
  cbn [group_by_columns].
  change (group_by_column (with_columns self keep) ms column)
    with (group_by_column self ms column).
  destruct (group_by_column self ms column) as [ms1|e]; simpl; [apply IH|reflexivity].
Qed.

(** X7: the grouped statistics depend on the columns with an enabled
    group-by metric only (distinct, uniqueness, unique count, mins, maxs,
    frequent values): [query_group_by_value] gives the same result, be it
    measurements or an exception, on the scan restricted to these columns;
    when no column has such a metric enabled it returns no measurement,
    whatever the warehouse and the column caches are. *)
Theorem group_by_skips_disabled_columns (self : Scan) :
  query_group_by_value self
  = query_group_by_value
      (with_columns self
         (fun column =>
            is_any_metric_enabled scan_configuration (col_name column) group_by_metrics))
  /\ ((forall column, column ∈ scan_columns self ->
         is_any_metric_enabled scan_configuration (col_name column) group_by_metrics
         = false) ->
      query_group_by_value self = Ok []).
Proof.
  unfold query_group_by_value. split.
  - rewrite group_by_columns_with_columns. cbn [with_columns scan_columns].
    apply group_by_columns_filter.
  - intros Hall. apply group_by_columns_all_disabled. assumption.
Qed.

Lemma first_cells_Ok rows : forall cells,
  first_cells rows = Ok cells
  <-> Forall2 (fun row cell => row !! 0 = Some cell) rows cells.
Proof.
  induction rows as [|row rows IH]; intros cells; simpl.
  - split.
    + intros H. injection H as <-. constructor.
    + intros H. apply Forall2_nil_inv_l in H. subst. reflexivity.
  - split.
    + intros H. inv_bind H. rename a into x. inv_bind H. rename a into xs.
      injection H as <-. constructor; [apply py_index_Ok; assumption|].
      apply IH. assumption.
    + intros H. apply Forall2_cons_inv_l in H as (x & xs & Hx & Hxs & ->).
      rewrite (proj2 (py_index_Ok _ _ _) Hx). simpl.
      rewrite (proj2 (IH xs) Hxs). reflexivity.
Qed.

Lemma first_cells_empty_row rows :
  [] ∈ rows -> first_cells rows = Err IndexError.
Proof.
  induction rows as [|row rows IH]; intros Hin.
  - apply elem_of_nil in Hin. destruct Hin.
  - simpl. destruct row as [|x row]; [reflexivity|].
    apply elem_of_cons in Hin as [Hin|Hin]; [discriminate Hin|].
    simpl. rewrite (IH Hin). reflexivity.
Qed.

(** X8: a list of values (mins, maxs, frequent values) has one entry per
    row that the warehouse returns, the first cell of each row in the order
    of the rows; the limit of the configuration is written in the query and
    not enforced on its result; a row without cells makes the pass raise
    IndexError. *)
Theorem values_list_has_one_entry_per_row (column : Column)
    (column_cache : ScanColumnCache.t) (m : Metric) (sql : string)
    (ms : list Measurement) (rows : list (list scalar)) :
  is_metric_enabled scan_configuration (col_name column) m = true ->
  (ScanColumnCache.is_number column_cache
   || ScanColumnCache.is_column_numeric_text_format column_cache) = true ->
  execute_query_all warehouse sql = Ok rows ->
  (forall ms', values_metric column column_cache m sql ms = Ok ms' ->
     exists cells,
       ms' = ms ++ [mkMeasurement m (Some (col_name column)) (VList (IScalar <$> cells))]
       /\ length cells = length rows
       /\ forall i, cells !! i = (rows !! i) ≫= head)
  /\ (Forall (fun row => row <> []) rows ->
      exists ms', values_metric column column_cache m sql ms = Ok ms')
  /\ ([] ∈ rows -> values_metric column column_cache m sql ms = Err IndexError).
Proof.
  intros Hen Hnum Hq. unfold values_metric. rewrite Hen, Hnum, Hq. simpl.
  split_and!.
  - intros ms' H. inv_bind H. rename a into cells. injection H as <-.
    exists cells. split; [reflexivity|].
    apply first_cells_Ok in Ha. split.
    + symmetry. eapply Forall2_length. eassumption.
    + intros i. clear Hq. revert i.
      induction Ha as [|row cell rows cells Hrow Hall IH]; intros i.
      * reflexivity.
      * destruct i as [|i]; simpl; [|apply IH].
        destruct row; simpl in *; congruence.
  - intros Hne. clear Hq.
    assert (H : exists cells, first_cells rows = Ok cells).
    { induction Hne as [|row rows Hrow Hne IH].
      - exists []. reflexivity.
      - destruct IH as [cells IH]. destruct row as [|x row]; [congruence|].
        exists (x :: cells). simpl. rewrite IH. reflexivity. }
    destruct H as [cells H]. rewrite H. simpl. eauto.
  - intros Hin. rewrite (first_cells_empty_row rows Hin). reflexivity.
Qed.

Lemma distinct_metrics_inv self column cte ms ms' :
  distinct_metrics self column cte ms = Ok ms' ->
  ms' = ms
  \/ (is_any_metric_enabled scan_configuration (col_name column)
        [Metric.DISTINCT; Metric.UNIQUENESS; Metric.UNIQUE_COUNT] = true
      /\ exists d uq u,
           ms' = ms ++ [mkMeasurement Metric.DISTINCT (Some (col_name column)) d;
                        mkMeasurement Metric.UNIQUE_COUNT (Some (col_name column)) uq;
                        mkMeasurement Metric.UNIQUENESS (Some (col_name column)) u]).
Proof.
  unfold distinct_metrics.
  destruct (is_any_metric_enabled scan_configuration (col_name column)
              [Metric.DISTINCT; Metric.UNIQUENESS; Metric.UNIQUE_COUNT]).
  - intros H. right. split; [reflexivity|].
    inv_bind H. rename a into tuple. inv_bind H. rename a into d.
    inv_bind H. rename a into uq. inv_bind H. rename a into u.
    injection H as <-. exists (VScalar d), (VScalar uq), u.
    rewrite <- !app_assoc. reflexivity.
  - intros [= <-]. left. reflexivity.
Qed.

Lemma values_metric_inv column cache m sql ms ms' :
  values_metric column cache m sql ms = Ok ms' ->
  ms' = ms
  \/ (is_metric_enabled scan_configuration (col_name column) m = true
      /\ (ScanColumnCache.is_number cache
          || ScanColumnCache.is_column_numeric_text_format cache) = true
      /\ exists cells,
           ms' = ms ++ [mkMeasurement m (Some (col_name column))
                          (VList (IScalar <$> cells))]).
Proof.
  unfold values_metric.
  destruct (is_metric_enabled scan_configuration (col_name column) m); simpl.
  - destruct (ScanColumnCache.is_number cache
              || ScanColumnCache.is_column_numeric_text_format cache).
    + intros H. right. inv_bind H. inv_bind H. injection H as <-.
      split; [reflexivity|]. split; [reflexivity|]. eauto.
    + intros [= <-]. left. reflexivity.
  - intros [= <-]. left. reflexivity.
Qed.

Lemma group_by_measurement_mono self cols cols' m :
  (forall column, column ∈ cols -> column ∈ cols') ->
  group_by_measurement self cols m -> group_by_measurement self cols' m.
Proof.
  intros Hsub (column & cache & Hin & H). exists column, cache. split; auto.
Qed.

Lemma group_by_value_measurement self column cache (m : Metric) cells :
  column_caches self !! col_name column = Some cache ->
  m ∈ [Metric.MINS; Metric.MAXS; Metric.FREQUENT_VALUES] ->
  is_metric_enabled scan_configuration (col_name column) m = true ->
  (ScanColumnCache.is_number cache
   || ScanColumnCache.is_column_numeric_text_format cache) = true ->
  group_by_measurement self [column]
    (mkMeasurement m (Some (col_name column)) (VList (IScalar <$> cells))).
Proof.
  intros Hc Hm Hen Hnum. exists column, cache.
  split; [apply list_elem_of_here|]. split; [assumption|]. split; [reflexivity|].
  right. simpl. split_and!; try assumption. eauto.
Qed.

Lemma group_by_column_shape self ms column ms' :
  group_by_column self ms column = Ok ms' ->
  exists new, ms' = ms ++ new /\ Forall (group_by_measurement self [column]) new.
Proof.
  unfold group_by_column.
  destruct (is_any_metric_enabled scan_configuration (col_name column) _).
  - intros H. inv_bind H. rename a into cache. apply py_getitem_Ok in Ha.
    inv_bind H. rename a into m1. inv_bind H. rename a into m2.
    inv_bind H. rename a into m3.
    assert (H1 : exists n1, m1 = ms ++ n1
                            /\ Forall (group_by_measurement self [column]) n1).
    { apply distinct_metrics_inv in Ha0 as [->|(Hen & d & uq & u & ->)].
      - exists []. rewrite app_nil_r. split; [reflexivity|constructor].
      - eexists. split; [reflexivity|].
        repeat constructor; exists column, cache;
          (split; [apply list_elem_of_here|]); (split; [assumption|]);
          (split; [reflexivity|]); left; (split; [|assumption]); simpl;
          rewrite !elem_of_cons; auto. }
    destruct H1 as (n1 & -> & F1).
    assert (Hstep : forall (m : Metric) sql acc acc',
               m ∈ [Metric.MINS; Metric.MAXS; Metric.FREQUENT_VALUES] ->
               values_metric column cache m sql acc = Ok acc' ->
               exists n, acc' = acc ++ n
                         /\ Forall (group_by_measurement self [column]) n).
    { intros m sql acc acc' Hm Hv.
      apply values_metric_inv in Hv as [->|(Hen & Hnum & cells & ->)].
      - exists []. rewrite app_nil_r. split; [reflexivity|constructor].
      - eexists. split; [reflexivity|]. constructor; [|constructor].
        apply (group_by_value_measurement self column cache); assumption. }
    apply Hstep in Ha1 as (n2 & -> & F2); [|rewrite !elem_of_cons; auto].
    apply Hstep in Ha2 as (n3 & -> & F3); [|rewrite !elem_of_cons; auto].
    apply Hstep in H as (n4 & -> & F4); [|rewrite !elem_of_cons; auto].
    exists (n1 ++ n2 ++ n3 ++ n4). rewrite <- !app_assoc. split; [reflexivity|].
    repeat apply Forall_app_2; assumption.
  - intros [= <-]. exists []. rewrite app_nil_r. split; [reflexivity|constructor].
Qed.

Lemma group_by_columns_shape self cols : forall ms ms',
  group_by_columns self ms cols = Ok ms' ->
  exists new, ms' = ms ++ new /\ Forall (group_by_measurement self cols) new.
Proof.
  induction cols as [|column cols IH]; intros ms ms' H; simpl in H.
  - injection H as <-. exists []. rewrite app_nil_r. split; [reflexivity|constructor].
  - inv_bind H. rename a into ms1.
    apply group_by_column_shape in Ha as (n1 & -> & F1).
    apply IH in H as (n2 & -> & F2).
    exists (n1 ++ n2). rewrite <- app_assoc. split; [reflexivity|].
    apply Forall_app_2.
    + eapply Forall_impl; [exact F1|]. intros m Hm.
      apply (group_by_measurement_mono self [column]); [|assumption].
      intros c Hc. apply list_elem_of_singleton in Hc as ->. apply list_elem_of_here.
    + eapply Forall_impl; [exact F2|]. intros m Hm.
      apply (group_by_measurement_mono self cols); [|assumption].
      intros c Hc. apply list_elem_of_further. assumption.
Qed.

(** X9: every measurement that [query_group_by_value] returns belongs to a
    column of the table and is either a distinct count, unique count or
    uniqueness of a column for which one of distinct, uniqueness and unique
    count is enabled, or a list of values for mins, maxs or frequent values,
    of a column for which that very metric is enabled and that the column
    cache has as a number or as text in a numeric format. *)
Theorem group_by_measurements_are_enabled (self : Scan) (ms : list Measurement) :
  query_group_by_value self = Ok ms ->
  Forall (group_by_measurement self (scan_columns self)) ms.
Proof.
  unfold query_group_by_value. intros H.
  apply group_by_columns_shape in H as (new & -> & Hnew). exact Hnew.
Qed.

(** *** The results of the tests *)

Lemma run_column_tests_spec c d ts : forall results r,
  run_column_tests c d ts results = Ok r
  <-> exists new, r = results ++ new
                  /\ Forall2 (fun e tr => run_test c d e = Ok tr) ts new.
Proof.
  induction ts as [|e ts IH]; intros results r; simpl.
  - split.
    + intros [= <-]. exists []. rewrite app_nil_r. split; [reflexivity|constructor].
    + intros (new & -> & H). apply Forall2_nil_inv_l in H. subst.
      rewrite app_nil_r. reflexivity.
  - split.
    + intros H. inv_bind H. rename a into tr.
      apply IH in H as (new & -> & Hnew). exists (tr :: new).
      rewrite <- app_assoc. split; [reflexivity|constructor; assumption].
    + intros (new & -> & H).
      apply Forall2_cons_inv_l in H as (tr & new' & Htr & Hnew & ->).
      rewrite Htr. simpl. apply IH. exists new'. rewrite <- app_assoc.
      split; [reflexivity|assumption].
Qed.

Lemma columns_get_NoDup l c col :
  NoDup (map fst l) -> (c, col) ∈ l -> columns_get l c = Some col.
Proof.
  induction l as [|[k x] l IH]; intros Hnd Hin.
  - apply elem_of_nil in Hin. destruct Hin.
  - simpl in *. apply NoDup_cons in Hnd as [Hnotin Hnd].
    apply elem_of_cons in Hin as [Hin|Hin].
    + injection Hin as -> ->. rewrite String.eqb_refl. reflexivity.
    + destruct (String.eqb k c) eqn:E.
      * apply String.eqb_eq in E. subst k. exfalso. apply Hnotin.
        change (map fst l) with (fst <$> l). apply list_elem_of_fmap.
        exists (c, col). split; [reflexivity|assumption].
      * apply IH; assumption.
Qed.

Lemma run_tests_columns_spec self l :
  (forall c col, (c, col) ∈ l ->
     columns_get (columns scan_configuration) c = Some col) ->
  forall results r,
    run_tests_columns self (map fst l) results = Ok r
    <-> exists new,
          r = results ++ new
          /\ Forall2 (result_of_test self)
               (flat_map (fun kc => (fun e => (kc.1, e)) <$> tests kc.2) l) new.
Proof.
  induction l as [|[c col] l IH]; intros Hget results r.
  - simpl. split.
    + intros [= <-]. exists []. rewrite app_nil_r. split; [reflexivity|constructor].
    + intros (new & -> & H). apply Forall2_nil_inv_l in H. subst.
      rewrite app_nil_r. reflexivity.
  - assert (IH' := IH (fun c' col' Hin => Hget c' col' (list_elem_of_further _ _ _ Hin))).
    clear IH. cbn [map fst run_tests_columns flat_map].
    rewrite (Hget c col (list_elem_of_here _ _)). cbn [fst snd].
    set (d := column_measurement_values (measurements (scan_result self)) c).
    assert (Hloop : forall res,
               match tests col with
               | [] => Ok res
               | e :: ts => run_column_tests c d (e :: ts) res
               end = run_column_tests c d (tests col) res).
    { intros res. destruct (tests col); reflexivity. }
    rewrite Hloop. split.
    + intros H. inv_bind H. rename a into r1.
      apply run_column_tests_spec in Ha as (n1 & -> & H1).
      apply IH' in H as (n2 & -> & H2).
      exists (n1 ++ n2). rewrite <- app_assoc. split; [reflexivity|].
      apply Forall2_app; [|assumption].
      apply (Forall2_fmap_l (fun e : expr => (c, e))). eapply Forall2_impl; [exact H1|].
      intros e tr He. exact He.
    + intros (new & -> & H).
      apply Forall2_app_inv_l in H as (n1 & n2 & H1 & H2 & ->).
      apply (Forall2_fmap_l (fun e : expr => (c, e))) in H1.
      assert (H1' : run_column_tests c d (tests col) results = Ok (results ++ n1)).
      { apply run_column_tests_spec. exists n1. split; [reflexivity|].
        eapply Forall2_impl; [exact H1|]. intros e tr He. exact He. }
      rewrite H1'. simpl. apply IH'. exists n2. rewrite <- app_assoc.
      split; [reflexivity|assumption].
Qed.

(** X10: with distinct names for the configured columns, as the keys of a
    dictionary are, [run_tests] returns exactly when every test of the
    configuration evaluates; it then returns one result per test, in the
    order of the configuration (columns first, then the tests of a column),
    each the result of that test on the measurements of its column; one
    test that raises leaves no result at all. *)
Theorem run_tests_one_result_per_test (self : Scan) (results : list TestResult) :
  NoDup (map fst (columns scan_configuration)) ->
  run_tests self = Ok results
  <-> Forall2 (result_of_test self) configured_tests results.
Proof.
  intros Hnd. unfold run_tests, configured_tests.
  rewrite (run_tests_columns_spec self (columns scan_configuration)
             (fun c col Hin => columns_get_NoDup _ c col Hnd Hin) [] results).
  split.
  - intros (new & -> & H). exact H.
  - intros H. exists results. split; [reflexivity|exact H].
Qed.

Lemma column_measurement_values_snoc ms m c :
  column_measurement_values (ms ++ [m]) c
  = if bool_decide (column_name m = Some c)
    then <[metric m := value_of m]> (column_measurement_values ms c)
    else column_measurement_values ms c.
Proof.
  unfold column_measurement_values. rewrite fold_left_app. reflexivity.
Qed.

Lemma column_measurement_values_elem ms c k v :
  column_measurement_values ms c !! k = Some v ->
  exists m, m ∈ ms /\ metric m = k /\ column_name m = Some c /\ value_of m = v.
Proof.
  induction ms as [|x ms IH] using rev_ind.
  - unfold column_measurement_values. simpl. rewrite lookup_empty. discriminate.
  - rewrite column_measurement_values_snoc.
    destruct (bool_decide (column_name x = Some c)) eqn:B.
    + apply bool_decide_eq_true_1 in B.
      destruct (decide (metric x = k)) as [<-|Hne].
      * rewrite lookup_insert_eq. intros [= <-]. exists x.
        split; [apply elem_of_app; right; apply list_elem_of_here|auto].
      * rewrite lookup_insert_ne by assumption. intros H.
        destruct (IH H) as (m & Hin & Hm). exists m.
        split; [apply elem_of_app; left; assumption|assumption].
    + intros H. destruct (IH H) as (m & Hin & Hm). exists m.
      split; [apply elem_of_app; left; assumption|assumption].
Qed.

(** X11: the values that a test of the column [c] can see are those of the
    measurements of the scan result that carry the name [c]: a metric is
    bound when such a measurement exists, to the value of the last one in
    the scan result; measurements of the table (row count, schema) and of
    other columns are never visible. *)
Theorem column_measurement_values_last_wins (ms : list Measurement) (c : string)
    (k : Metric) (v : value) :
  column_measurement_values ms c !! k = Some v
  <-> exists i m,
        ms !! i = Some m
        /\ metric m = k /\ column_name m = Some c /\ value_of m = v
        /\ forall j m', i < j -> ms !! j = Some m' ->
             ~ (metric m' = k /\ column_name m' = Some c).
Proof.
  revert v. induction ms as [|x ms IH] using rev_ind; intros v.
  - unfold column_measurement_values. simpl. rewrite lookup_empty. split.
    + discriminate.
    + intros (i & m & Hi & _). rewrite lookup_nil in Hi. discriminate.
  - rewrite column_measurement_values_snoc.
    assert (Hlast : (ms ++ [x]) !! length ms = Some x).
    { rewrite lookup_app_r by lia. rewrite Nat.sub_diag. reflexivity. }
    assert (Hshift : forall i m,
               (ms ++ [x]) !! i = Some m ->
               (i < length ms /\ ms !! i = Some m) \/ (i = length ms /\ m = x)).
    { intros i m Hi. destruct (decide (i < length ms)) as [Hlt|Hge].
      - left. split; [assumption|]. rewrite lookup_app_l in Hi; assumption.
      - right. apply lookup_lt_Some in Hi as Hlen. rewrite length_app in Hlen.
        simpl in Hlen. assert (i = length ms) as -> by lia.
        rewrite Hlast in Hi. injection Hi as <-. auto. }
    destruct (decide (metric x = k /\ column_name x = Some c)) as [[Hk Hc]|Hno].
    + rewrite (bool_decide_eq_true_2 _ Hc), Hk, lookup_insert_eq. split.
      * intros [= <-]. exists (length ms), x. split_and!; try assumption; try reflexivity.
        intros j m' Hj Hm'. apply lookup_lt_Some in Hm'. rewrite length_app in Hm'.
        simpl in Hm'. lia.
      * intros (i & m & Hi & Hmk & Hmc & Hv & Hlater).
        apply Hshift in Hi as [[Hlt _]|[-> ->]].
        -- exfalso. apply (Hlater (length ms) x Hlt Hlast). auto.
        -- rewrite Hv. reflexivity.
    + assert (E : (if bool_decide (column_name x = Some c)
                   then <[metric x := value_of x]> (column_measurement_values ms c)
                   else column_measurement_values ms c) !! k
                  = column_measurement_values ms c !! k).
      { destruct (bool_decide (column_name x = Some c)) eqn:B; [|reflexivity].
        apply bool_decide_eq_true_1 in B. apply lookup_insert_ne.
        intros Hk. apply Hno. auto. }
      rewrite E, IH. split.
      * intros (i & m & Hi & Hmk & Hmc & Hv & Hlater).
        exists i, m. split_and!; try assumption.
        -- apply lookup_app_l_Some. assumption.
        -- intros j m' Hj Hm'. apply Hshift in Hm' as [[_ Hm']|[_ ->]].
           ++ exact (Hlater j m' Hj Hm').
           ++ exact Hno.
      * intros (i & m & Hi & Hmk & Hmc & Hv & Hlater).
        apply Hshift in Hi as [[Hlt Hi]|[_ ->]].
        -- exists i, m. split_and!; try assumption.
           intros j m' Hj Hm'. apply (Hlater j m' Hj).
           apply lookup_app_l_Some. assumption.
        -- exfalso. apply Hno. auto.
Qed.

(** *** The scan as a whole *)

Lemma add_measurements_result self ms :
  measurements (scan_result (add_measurements self ms))
  = measurements (scan_result self) ++ ms
  /\ test_results (scan_result (add_measurements self ms))
     = test_results (scan_result self)
  /\ scan_columns (add_measurements self ms) = scan_columns self
  /\ column_caches (add_measurements self ms) = column_caches self.
Proof.
  destruct ms as [|m ms]; simpl; [rewrite app_nil_r|]; split_and!; reflexivity.
Qed.

Lemma add_measurements_sent self ms :
  concat (sent (add_measurements self ms))
  = concat (sent self) ++ (if soda_client then ms else [])
  /\ (Forall (fun batch => batch <> []) (sent self) ->
      Forall (fun batch => batch <> []) (sent (add_measurements self ms)))
  /\ length (sent (add_measurements self ms)) <= S (length (sent self)).
Proof.
  destruct ms as [|m ms]; simpl.
  - split_and!; [destruct soda_client; rewrite app_nil_r; reflexivity|auto|lia].
  - destruct soda_client.
    + split_and!.
      * rewrite concat_app. simpl. rewrite app_nil_r. reflexivity.
      * intros H. apply Forall_app_2; [assumption|]. constructor; [|constructor].
        discriminate.
      * rewrite length_app. simpl. lia.
    + split_and!; [rewrite app_nil_r; reflexivity|auto|lia].
Qed.

Lemma execute_inv s :
  execute = Ok s ->
  exists cols agg self1 grp results,
    query_columns = Ok cols
    /\ query_aggregations (discovered cols) = Ok (agg, self1)
    /\ query_group_by_value (add_measurements self1 agg) = Ok grp
    /\ run_tests (add_measurements (add_measurements self1 agg) grp) = Ok results
    /\ s = (let self := add_measurements (add_measurements self1 agg) grp in
            mkScan (mkScanResult (measurements (scan_result self))
                      (test_results (scan_result self) ++ results))
              (scan_columns self) (column_caches self) (sent self)).
Proof.
  unfold execute.
  destruct (String.eqb (warehouse_name warehouse) ""); [discriminate|].
  destruct (String.eqb (table_name scan_configuration) ""); [discriminate|].
  intros H. inv_bind H. rename a into cols. inv_bind H. destruct a as [agg self1].
  inv_bind H. rename a into grp. inv_bind H. rename a into results.
  injection H as <-. exists cols, agg, self1, grp, results.
  split_and!; try assumption; reflexivity.
Qed.

Lemma segments_measurements cols0 cols segs :
  (forall column, column ∈ cols -> column ∈ cols0) ->
  Forall2 column_segment cols segs ->
  Forall (measurement_of aggregation_metrics cols0) (concat segs).
Proof.
  intros Hsub Hall. induction Hall as [|column seg cols segs Hseg Hall IH]; simpl.
  - constructor.
  - apply Forall_app_2.
    + destruct Hseg as (Hsl & _). apply Forall_forall. intros m Hm.
      apply (elem_of_sublist _ _ _ Hm) in Hsl.
      apply list_elem_of_fmap in Hsl as (k & -> & Hk).
      exists column. split; [apply Hsub, list_elem_of_here|].
      split; [reflexivity|]. simpl. unfold aggregation_metrics.
      apply elem_of_app. left. assumption.
    + apply IH. intros c Hc. apply Hsub, list_elem_of_further. assumption.
Qed.

Lemma derived_segments_measurements self cols0 cols segs :
  (forall column, column ∈ cols -> column ∈ cols0) ->
  Forall2 (derived_segment self) cols segs ->
  Forall (measurement_of aggregation_metrics cols0) (concat segs).
Proof.
  intros Hsub Hall. induction Hall as [|column seg cols segs Hseg Hall IH]; simpl.
  - constructor.
  - apply Forall_app_2.
    + destruct Hseg as (Hnames & cache & _ & Hmetrics).
      apply Forall_forall. intros m Hm.
      exists column. split; [apply Hsub, list_elem_of_here|].
      split; [rewrite Forall_forall in Hnames; apply Hnames; assumption|].
      assert (Hin : metric m ∈ metric <$> seg).
      { apply list_elem_of_fmap. exists m. split; [reflexivity|assumption]. }
      rewrite Hmetrics in Hin. unfold aggregation_metrics.
      apply elem_of_app. right.
      destruct (is_missing_enabled cache (col_name column));
        [|apply elem_of_nil in Hin; destruct Hin].
      destruct (is_valid_enabled cache (col_name column)); simpl in Hin;
        rewrite !elem_of_cons, elem_of_nil in Hin; rewrite !elem_of_cons;
        repeat (destruct Hin as [->|Hin]; [auto 10|]); destruct Hin.
    + apply IH. intros c Hc. apply Hsub, list_elem_of_further. assumption.
Qed.

(** The measurements of the aggregation pass: the row count of the table,
    then measurements of the columns. *)
Lemma aggregation_measurements_shape self ms self' :
  query_aggregations self = Ok (ms, self') ->
  exists row_count rest,
    ms = mkMeasurement Metric.ROW_COUNT None row_count :: rest
    /\ Forall (measurement_of aggregation_metrics (scan_columns self)) rest.
Proof.
  intros H.
  destruct (derived_values self ms self' H) as (b & rc & Hb & H0 & _).
  pose proof H as Hinv. apply query_aggregations_inv in Hinv.
  destruct Hinv as (b' & tuple & raw & derived & Hb' & _ & Hraw & Hd & Hms & _).
  rewrite Hb in Hb'. injection Hb' as <-.
  unfold aggregation_batch in Hb.
  pose proof Hb as Hsegs. apply aggregation_columns_segments in Hsegs.
  destruct Hsegs as (segs & Hbm & Hsegs). simpl in Hbm.
  apply (segments_measurements (scan_columns self)) in Hsegs; [|auto].
  pose proof (raw_length _ _ _ Hraw) as Hrl.
  unfold derived_pass in Hd. inv_bind Hd. rename a into m0. inv_bind Hd.
  injection Hd as Hd. rewrite Hms in Hd. apply app_inv_head in Hd. subst a.
  simpl in Ha0. apply derive_columns_segments in Ha0 as (dsegs & Hds & Hall).
  simpl in Hds.
  apply (derive_columns_derived_segments self b tuple raw (value_of m0)) in Hall;
    [|unfold aggregation_batch; assumption|assumption|auto].
  apply (derived_segments_measurements self (scan_columns self)) in Hall; [|auto].
  destruct ms as [|m rest]; [discriminate H0|]. simpl in H0. injection H0 as ->.
  exists rc, rest. split; [reflexivity|].
  apply Forall_lookup. intros i m Hi.
  assert (Hms' : (raw ++ derived) !! S i = Some m) by (rewrite <- Hms; exact Hi).
  destruct (decide (S i < length raw)) as [Hlt|Hge].
  - rewrite lookup_app_l in Hms' by assumption.
    destruct (lookup_lt_is_Some_2 (b_measurements b) (S i)) as [p Hp]; [lia|].
    destruct (raw_lookup _ _ _ _ _ Hraw Hp) as (v & _ & Hr).
    rewrite Hms' in Hr. injection Hr as ->.
    rewrite Hbm in Hp. simpl in Hp.
    rewrite Forall_lookup in Hsegs. destruct (Hsegs i p Hp) as (column & Hc & Hn & Hk).
    exists column. auto.
  - rewrite lookup_app_r in Hms' by lia. subst derived.
    rewrite Forall_lookup in Hall. exact (Hall _ _ Hms').
Qed.

Lemma group_by_measurement_caches self self' cols m :
  column_caches self = column_caches self' ->
  group_by_measurement self cols m -> group_by_measurement self' cols m.
Proof.
  intros E (column & cache & Hin & Hc & H). exists column, cache.
  rewrite <- E. auto.
Qed.

Lemma group_by_measurement_metric self cols m :
  group_by_measurement self cols m ->
  measurement_of [Metric.DISTINCT; Metric.UNIQUE_COUNT; Metric.UNIQUENESS;
                  Metric.MINS; Metric.MAXS; Metric.FREQUENT_VALUES] cols m.
Proof.
  intros (column & cache & Hin & _ & Hn & [[Hk _]|[Hk _]]);
    exists column; (split; [assumption|]); (split; [assumption|]);
    rewrite !elem_of_cons, elem_of_nil in Hk; rewrite !elem_of_cons;
    repeat (destruct Hk as [->|Hk]; [auto 10|]); destruct Hk.
Qed.

Lemma query_aggregations_stable self ms self' :
  query_aggregations self = Ok (ms, self') ->
  scan_result self' = scan_result self /\ scan_columns self' = scan_columns self
  /\ sent self' = sent self.
Proof.
  intros H. apply query_aggregations_inv in H.
  destruct H as (b & tuple & raw & derived & _ & _ & _ & _ & _ & ->).
  split_and!; reflexivity.
Qed.

(** The measurements of a scan that returns. *)
Lemma execute_measurements s :
  execute = Ok s ->
  exists cols row_count agg grp,
    query_columns = Ok cols
    /\ scan_columns s = cols
    /\ measurements (scan_result s)
       = mkMeasurement Metric.SCHEMA None (VList (IColumn <$> cols))
         :: mkMeasurement Metric.ROW_COUNT None row_count :: agg ++ grp
    /\ Forall (measurement_of aggregation_metrics cols) agg
    /\ Forall (group_by_measurement s cols) grp.
Proof.
  intros H. apply execute_inv in H.
  destruct H as (cols & agg & self1 & grp & results & Hq & Ha & Hg & _ & ->).
  destruct (query_aggregations_stable _ _ _ Ha) as (Hr1 & Hc1 & _).
  apply aggregation_measurements_shape in Ha as (rc & rest & -> & Hrest).
  apply group_by_columns_shape in Hg as (new & Hnew & Hgrp). simpl in Hnew. subst new.
  exists cols, rc, rest, grp. cbn zeta.
  set (ms := mkMeasurement Metric.ROW_COUNT None rc :: rest) in *.
  destruct (add_measurements_result (add_measurements self1 ms) grp)
    as (E1 & _ & E2 & E5).
  destruct (add_measurements_result self1 ms) as (E3 & _ & E4 & E6).
  cbn [scan_result scan_columns measurements].
  rewrite E1, E2, E3, E4, Hr1, Hc1. split; [assumption|]. split; [reflexivity|].
  split; [reflexivity|]. split; [exact Hrest|].
  eapply Forall_impl; [exact Hgrp|]. intros m Hm.
  rewrite E4, Hc1 in Hm.
  apply (group_by_measurement_caches (add_measurements self1 ms)); [|exact Hm].
  cbn [column_caches]. rewrite E5. reflexivity.
Qed.

(** X12: the measurements of a scan that returns come in the order of the
    passes: the schema, whose value is the list of the columns that
    [query_columns] found, and the row count, both measurements of the
    table; then the measurements of the aggregation pass, each of a column
    of the table and of an aggregation metric; then the grouped statistics,
    each of a column with the metric enabled. *)
Theorem scan_result_follows_passes (s : Scan) :
  execute = Ok s ->
  exists (cols : list Column) (row_count : value) (agg grp : list Measurement),
    query_columns = Ok cols
    /\ scan_columns s = cols
    /\ measurements (scan_result s)
       = mkMeasurement Metric.SCHEMA None (VList (IColumn <$> cols))
         :: mkMeasurement Metric.ROW_COUNT None row_count :: agg ++ grp
    /\ Forall (measurement_of aggregation_metrics cols) agg
    /\ Forall (group_by_measurement s cols) grp.
Proof.
  exact (execute_measurements s).
Qed.

Lemma unmeasured_name_unbound s c (id : string) :
  execute = Ok s ->
  id ∉ column_metrics ->
  column_measurement_values (measurements (scan_result s)) c !! id = None.
Proof.
  intros H Hid.
  destruct (execute_measurements s H) as (cols & rc & agg & grp & _ & _ & -> & Ha & Hg).
  destruct (column_measurement_values _ c !! id) as [v|] eqn:E; [|reflexivity].
  exfalso. apply column_measurement_values_elem in E as (m & Hin & Hk & Hc & _).
  rewrite !elem_of_cons, elem_of_app in Hin.
  destruct Hin as [->|[->|[Hin|Hin]]]; try discriminate Hc.
  - rewrite Forall_forall in Ha. destruct (Ha m Hin) as (column & _ & _ & Hm).
    apply Hid. rewrite <- Hk. unfold column_metrics. apply elem_of_app. left. exact Hm.
  - rewrite Forall_forall in Hg.
    destruct (group_by_measurement_metric _ _ _ (Hg m Hin)) as (column & _ & _ & Hm).
    apply Hid. rewrite <- Hk. unfold column_metrics. apply elem_of_app. right. exact Hm.
Qed.

Lemma builtins_entry_is_no_metric : "__builtins__" ∉ column_metrics.
Proof.
  unfold column_metrics, aggregation_metrics, raw_column_metrics. simpl. intros H.
  rewrite !elem_of_cons, elem_of_nil in H.
  repeat (destruct H as [H|H]; [discriminate H|]). destruct H.
Qed.

(** X13: a test of the configuration whose first operand is a name that is
    neither one of the twenty column metrics nor a name of the builtins
    makes the whole scan fail: the name of a measurement of the table, as
    row_count, is never bound in the values of a column, so that the
    evaluation raises NameError and [execute] returns no scan result,
    whatever the warehouse answers. *)
Theorem test_on_table_metric_aborts_scan (c : string) (col : ScanConfigurationColumn)
    (e : expr) (id : string) :
  columns_get (columns scan_configuration) c = Some col ->
  e ∈ tests col ->
  well_formed e = true ->
  first_name e = Some id ->
  id ∉ column_metrics ->
  id <> "__builtins__" ->
  id ∉ builtins ->
  forall s : Scan, execute <> Ok s.
Proof.
  intros Hget He Hwf Hfirst Hid Hnb Hbi s H.
  pose proof (unmeasured_name_unbound s c id H Hid) as Hu1.
  pose proof (unmeasured_name_unbound s c _ H builtins_entry_is_no_metric) as Hu2.
  apply execute_inv in H.
  destruct H as (cols' & agg & self1 & grp & results & _ & _ & _ & Hrun & ->).
  cbn zeta in Hu1, Hu2. cbn [scan_result measurements] in Hu1, Hu2.
  unfold run_tests in Hrun.
  destruct (run_tests_columns_Ok _ _ _ _ Hrun c col e (columns_get_Some _ _ _ Hget)
              Hget He) as (tr & Htr).
  rewrite (run_test_unbound c _ e id Hwf Hfirst Hu1 Hu2 Hnb Hbi) in Htr.
  discriminate Htr.
Qed.

(** X14: the measurements of a scan that returns have all been forwarded
    to the client of the reporting sink, when one was given, in the order of
    the scan result and in at most three batches, none of them empty: the
    schema, the aggregation measurements, the grouped statistics; without a
    client nothing is sent. *)
Theorem measurements_are_forwarded (s : Scan) :
  execute = Ok s ->
  concat (sent s) = (if soda_client then measurements (scan_result s) else [])
  /\ Forall (fun batch => batch <> []) (sent s)
  /\ length (sent s) <= 3.
Proof.
  intros H. apply execute_inv in H.
  destruct H as (cols & agg & self1 & grp & results & _ & Ha & _ & _ & ->).
  cbn zeta. cbn [sent scan_result measurements].
  destruct (query_aggregations_stable _ _ _ Ha) as (Hr1 & _ & Hs1).
  set (self0 := mkScan (mkScanResult [] []) cols ∅ []).
  set (schema := [mkMeasurement Metric.SCHEMA None (VList (IColumn <$> cols))]).
  assert (Hs0 : sent self1 = sent (add_measurements self0 schema)).
  { rewrite Hs1. reflexivity. }
  assert (Hr0 : scan_result self1 = scan_result (add_measurements self0 schema)).
  { rewrite Hr1. reflexivity. }
  destruct (add_measurements_sent self0 schema) as (C0 & F0 & L0).
  destruct (add_measurements_sent self1 agg) as (C1 & F1 & L1).
  destruct (add_measurements_sent (add_measurements self1 agg) grp) as (C2 & F2 & L2).
  destruct (add_measurements_result self0 schema) as (M0 & _).
  destruct (add_measurements_result self1 agg) as (M1 & _).
  destruct (add_measurements_result (add_measurements self1 agg) grp) as (M2 & _).
  split_and!.
  - rewrite C2, C1, Hs0, C0, M2, M1, Hr0, M0. simpl.
    destruct soda_client; [reflexivity|]. rewrite !app_nil_r. reflexivity.
  - apply F2, F1. rewrite Hs0. apply F0. constructor.
  - rewrite Hs0 in L1. change (length (sent self0)) with 0 in L0. lia.
Qed.

(** *** A result tuple that is too short *)

Lemma assign_values_short tuple n : forall k ms,
  k + n = length ms -> k <= length tuple < k + n ->
  assign_values tuple (seq k n) ms = Err IndexError.
Proof.
  induction n as [|n IH]; intros k ms Hlen Hshort; [lia|].
  simpl. destruct (lookup_lt_is_Some_2 ms k) as [m Hm]; [lia|].
  rewrite (proj2 (py_index_Ok _ _ _) Hm). simpl.
  destruct (decide (k < length tuple)) as [Hlt|Hge].
  - destruct (lookup_lt_is_Some_2 tuple k Hlt) as [v Hv].
    rewrite (proj2 (py_index_Ok _ _ _) Hv). simpl.
    apply IH; [rewrite length_insert; lia|lia].
  - unfold py_index. rewrite (lookup_ge_None_2 tuple k) by lia. reflexivity.
Qed.

(** X15: when the warehouse answers the aggregation query with a tuple that
    has fewer cells than the query has fields, [query_aggregations] raises
    IndexError and returns no measurement, not even the row count or the
    other measurements whose cells are there. *)
Theorem short_result_tuple_raises (self : Scan) (b : Batch) (tuple : list scalar) :
  aggregation_batch self = Ok b ->
  execute_query_one warehouse (aggregation_sql (b_fields b)) = Ok tuple ->
  length tuple < length (b_fields b) ->
  query_aggregations self = Err IndexError.
Proof.
  intros Hb Hq Hshort. pose proof (batch_lock_step self b Hb) as Hlock.
  unfold query_aggregations. rewrite Hb. simpl. rewrite Hq. simpl.
  rewrite (assign_values_short tuple (length (b_measurements b)) 0 (b_measurements b));
    [reflexivity|reflexivity|lia].
Qed.

(** *** A threshold on a metric *)

Lemma prefix_append (s t : string) : String.prefix s (s +:+ t) = true.
Proof.
  induction s as [|a s IH]; [destruct t; reflexivity|].
  change (String a s +:+ t) with (String a (s +:+ t)). simpl.
  destruct (ascii_dec a a) as [_|Hne]; [exact IH|congruence].
Qed.

Lemma py_contains_prefix (s t : string) :
  String.prefix s t = true -> py_contains s t = true.
Proof.
  intros H. destruct t; cbn [py_contains]; rewrite H; reflexivity.
Qed.

Lemma eval_globals_keeps (g : gmap string value) k v :
  g !! k = Some v -> eval_globals g !! k = Some v.
Proof.
  intros H. unfold eval_globals.
  destruct (g !! "__builtins__") eqn:E; [assumption|].
  rewrite lookup_insert_ne; [assumption|]. intros <-. congruence.
Qed.

Lemma threshold_values (c : string) (d : gmap string value) (m : string) (op : cmpop)
    (n : N) (v : value) :
  is_identifier m = true ->
  d !! m = Some v ->
  run_test c d (ECompare op (EName m) (ENum n))
  = (r ← py_compare op v (VInt (Z.of_N n));
     Ok (mkTestResult (if truthy r then true else false)
           (source_text (ECompare op (EName m) (ENum n)))
           (eval_globals
              (select_test_values d (source_text (ECompare op (EName m) (ENum n)))))
           c))
  /\ eval_globals
       (select_test_values d (source_text (ECompare op (EName m) (ENum n)))) !! m
     = Some v.
Proof.
  intros Hid Hd.
  assert (Hsel : select_test_values d (source_text (ECompare op (EName m) (ENum n))) !! m
                 = Some v).
  { apply select_test_values_lookup. split; [assumption|].
    apply py_contains_prefix. simpl. apply prefix_append. }
  apply eval_globals_keeps in Hsel. split; [|exact Hsel].
  unfold run_test, py_eval. cbn [well_formed]. rewrite Hid. cbn [andb eval_expr].
  rewrite Hsel. simpl. destruct (py_compare op v (VInt (Z.of_N n))); reflexivity.
Qed.

(** X16: a test that compares a metric with a number, as
    [missing_percentage < 10], sees the value measured for the metric on its
    column: when that value is a number the test returns, passes exactly
    when the comparison holds between the value and the number, and records
    the value; when the value is None, as the cell of an aggregate over no
    rows is, a test with == fails, a test with != passes, and a test with an
    ordering raises TypeError. *)
Theorem threshold_test_outcome (c : string) (d : gmap string value) (m : string)
    (op : cmpop) (n : N) (v : value) :
  is_identifier m = true ->
  d !! m = Some v ->
  (forall num, as_number v = Some num ->
     exists tr,
       run_test c d (ECompare op (EName m) (ENum n)) = Ok tr
       /\ passed tr = cmp_Q op (to_Q num) (inject_Z (Z.of_N n))
       /\ values tr !! m = Some v
       /\ test_column_name tr = c)
  /\ (v = VNone ->
      match op with
      | CEq => exists tr, run_test c d (ECompare op (EName m) (ENum n)) = Ok tr
                          /\ passed tr = false
      | CNotEq => exists tr, run_test c d (ECompare op (EName m) (ENum n)) = Ok tr
                             /\ passed tr = true
      | _ => run_test c d (ECompare op (EName m) (ENum n)) = Err TypeError
      end).
Proof.
  intros Hid Hd. destruct (threshold_values c d m op n v Hid Hd) as [Hrun Hval].
  rewrite Hrun. split.
  - intros num Hnum. destruct v as [x| | |]; try discriminate Hnum.
    assert (Hcmp : py_compare op (VScalar x) (VInt (Z.of_N n))
                   = Ok (VBool (cmp_Q op (to_Q num) (inject_Z (Z.of_N n))))).
    { unfold py_compare, VInt, scalar_cmp, scalar_eq, scalar_order.
      rewrite Hnum. destruct op; reflexivity. }
    rewrite Hcmp. simpl. eexists. split; [reflexivity|]. simpl.
    split_and!; [|exact Hval|reflexivity].
    destruct (cmp_Q op (to_Q num) (inject_Z (Z.of_N n))); reflexivity.
  - intros ->. destruct op; simpl; try reflexivity; eexists; split; reflexivity.
Qed.

(** *** The range of the percentages *)

Lemma percentage_range (x r : Z) :
  (0 <= x <= r)%Z -> (0 < r)%Z -> (0 <= percentage x r <= 100)%Q.
Proof.
  intros Hx Hr. unfold percentage. rewrite Qred_correct.
  assert (Hpos : (0 < inject_Z r)%Q).
  { change 0%Q with (inject_Z 0). rewrite <- Zlt_Qlt. assumption. }
  split.
  - apply Qle_shift_div_l; [assumption|].
    rewrite Qmult_0_l. change 0%Q with (inject_Z 0). rewrite <- Zle_Qle. lia.
  - apply Qle_shift_div_r; [assumption|].
    change 100%Q with (inject_Z 100). rewrite <- inject_Z_mult, <- Zle_Qle. lia.
Qed.

(** X17: for a table with rows and counts that the table can have (a
    missing count and a valid count that are not negative and together at
    most the row count), the derived measurements are all defined, the
    invalid count is not negative, every percentage lies between 0 and 100,
    and the missing, invalid and valid percentages add up to 100. *)
Theorem derived_percentages_partition (c : string) (r a v : Z) :
  (0 < r)%Z -> (0 <= a)%Z -> (0 <= v)%Z -> (a + v <= r)%Z ->
  exists mp vp ip valp : Q,
    derive_missing c (VInt r) (VInt a)
    = Ok [mkMeasurement Metric.MISSING_PERCENTAGE (Some c) (VFloat mp);
          mkMeasurement Metric.VALUES_COUNT (Some c) (VInt (r - a));
          mkMeasurement Metric.VALUES_PERCENTAGE (Some c) (VFloat vp)]
    /\ derive_valid c (VInt r) (VInt a) (VInt v)
       = Ok [mkMeasurement Metric.INVALID_PERCENTAGE (Some c) (VFloat ip);
             mkMeasurement Metric.INVALID_COUNT (Some c) (VInt (r - a - v));
             mkMeasurement Metric.VALID_PERCENTAGE (Some c) (VFloat valp)]
    /\ (0 <= r - a - v)%Z
    /\ (0 <= mp <= 100)%Q /\ (0 <= vp <= 100)%Q
    /\ (0 <= ip <= 100)%Q /\ (0 <= valp <= 100)%Q
    /\ (mp + ip + valp == 100)%Q.
Proof.
  intros Hr Ha Hv Hsum.
  exists (percentage a r), (percentage (r - a) r), (percentage (r - a - v) r),
    (percentage v r).
  split_and!.
  - apply derive_missing_int. lia.
  - apply derive_valid_int. lia.
  - lia.
  - apply percentage_range; lia.
  - apply percentage_range; lia.
  - apply percentage_range; lia.
  - apply percentage_range; lia.
  - apply percentage_range; lia.
  - apply percentage_range; lia.
  - apply percentage_range; lia.
  - apply percentage_range; lia.
  - rewrite !percentage_eq. unfold Zminus. rewrite !inject_Z_plus, !inject_Z_opp.
    field. apply inject_Z_nonzero. lia.
Qed.

(** *** The columns that get lists of values *)

Lemma build_column_caches_lookup cols column :
  NoDup (col_name <$> cols) -> column ∈ cols ->
  build_column_caches cols !! col_name column
  = Some (new_ScanColumnCache scan_configuration column).
Proof.
  unfold build_column_caches.
  induction cols as [|x cols IH] using rev_ind; intros Hnd Hin.
  - apply elem_of_nil in Hin. destruct Hin.
  - rewrite fold_left_app. simpl. rewrite fmap_app in Hnd.
    apply NoDup_app in Hnd as (Hnd & Hdisj & _).
    apply elem_of_app in Hin as [Hin|Hin].
    + rewrite lookup_insert_ne; [apply IH; assumption|].
      intros E. apply (Hdisj (col_name column)).
      * apply list_elem_of_fmap. exists column. split; [reflexivity|assumption].
      * rewrite <- E. apply list_elem_of_here.
    + apply list_elem_of_singleton in Hin as ->. apply lookup_insert_eq.
Qed.

(** The column caches of a scan that returns. *)
Lemma execute_caches s :
  execute = Ok s ->
  NoDup (col_name <$> scan_columns s) ->
  forall column, column ∈ scan_columns s ->
    exists c,
      column_caches s !! col_name column = Some c
      /\ classified column (new_ScanColumnCache scan_configuration column) c.
Proof.
  intros H. apply execute_inv in H.
  destruct H as (cols & agg & self1 & grp & results & _ & Ha & _ & _ & ->).
  cbn zeta. cbn [scan_columns column_caches].
  destruct (add_measurements_result (add_measurements self1 agg) grp)
    as (_ & _ & E2 & E5).
  destruct (add_measurements_result self1 agg) as (_ & _ & E4 & E6).
  destruct (query_aggregations_stable _ _ _ Ha) as (_ & Hc1 & _).
  rewrite E2, E4, Hc1, E5, E6. change (scan_columns (discovered cols)) with cols.
  intros Hnd column Hin.
  apply query_aggregations_inv in Ha.
  destruct Ha as (b & tuple & raw & derived & Hb & _ & _ & _ & _ & ->).
  unfold aggregation_batch in Hb. change (scan_columns (discovered cols)) with cols in Hb.
  destruct (aggregation_columns_classify _ _ _ Hnd Hb) as [_ Hcols].
  destruct (Hcols column Hin) as (c0 & c & Hc0 & Hc & Hcl).
  cbn [b_caches] in Hc0. change (column_caches (discovered cols))
    with (build_column_caches cols) in Hc0.
  rewrite (build_column_caches_lookup cols column Hnd Hin) in Hc0.
  injection Hc0 as <-. exists c. split; [exact Hc|exact Hcl].
Qed.

(** X18: in the result of a scan of a table whose columns have distinct
    names, a measurement of mins, maxs or frequent values is the list of
    cells of a column of the table for which that metric is enabled, and
    which the dialect has as a number, or as text with a validity format
    that starts with number_ (for a column that is neither, the flag is the
    one that the constructor of the column cache has set). *)
Theorem value_lists_only_for_numeric_columns (s : Scan) (m : Measurement) :
  execute = Ok s ->
  NoDup (col_name <$> scan_columns s) ->
  m ∈ measurements (scan_result s) ->
  metric m ∈ [Metric.MINS; Metric.MAXS; Metric.FREQUENT_VALUES] ->
  exists (column : Column) (cells : list scalar),
    column ∈ scan_columns s
    /\ column_name m = Some (col_name column)
    /\ value_of m = VList (IScalar <$> cells)
    /\ is_metric_enabled scan_configuration (col_name column) (metric m) = true
    /\ (is_number column = true
        \/ if is_text column
           then exists f, get_validity_format scan_configuration column = Some f
                          /\ startswith f "number_" = true
           else ScanColumnCache.is_column_numeric_text_format
                  (new_ScanColumnCache scan_configuration column) = true).
Proof.
  intros H Hnd Hin Hk.
  pose proof (execute_caches s H Hnd) as Hcaches.
  destruct (execute_measurements s H) as (cols & rc & agg & grp & _ & Hcols & Hms & Ha & Hg).
  rewrite Hms in Hin. rewrite Hcols in Hcaches.
  rewrite !elem_of_cons, elem_of_nil in Hk.
  rewrite !elem_of_cons, elem_of_app in Hin.
  destruct Hin as [->|[->|[Hin|Hin]]].
  - exfalso. simpl in Hk. destruct Hk as [Hk|[Hk|[Hk|[]]]]; discriminate Hk.
  - exfalso. simpl in Hk. destruct Hk as [Hk|[Hk|[Hk|[]]]]; discriminate Hk.
  - exfalso. rewrite Forall_forall in Ha. destruct (Ha m Hin) as (_ & _ & _ & Hm).
    unfold aggregation_metrics, raw_column_metrics in Hm. simpl in Hm.
    rewrite !elem_of_cons, elem_of_nil in Hm.
    destruct Hk as [Hk|[Hk|[Hk|[]]]]; rewrite Hk in Hm;
      repeat (destruct Hm as [Hm|Hm]; [discriminate Hm|]); destruct Hm.
  - rewrite Forall_forall in Hg.
    destruct (Hg m Hin) as (column & cache & Hc & Hcache & Hn & [[Hd _]|Hv]).
    + exfalso. rewrite !elem_of_cons, elem_of_nil in Hd.
      destruct Hk as [Hk|[Hk|[Hk|[]]]]; rewrite Hk in Hd;
        repeat (destruct Hd as [Hd|Hd]; [discriminate Hd|]); destruct Hd.
    + destruct Hv as (_ & Hen & Hnum & cells & Hval).
      destruct (Hcaches column Hc) as (c & Hc' & Hcl).
      rewrite Hcache in Hc'. injection Hc' as <-.
      destruct Hcl as (_ & _ & _ & _ & Hisn & Hfmt).
      exists column, cells. rewrite Hcols. split_and!; try assumption.
      apply orb_true_iff in Hnum as [Hnum|Hnum].
      * left. rewrite <- Hisn. exact Hnum.
      * right. destruct (is_text column).
        -- destruct Hfmt as [_ Hfmt]. rewrite Hfmt in Hnum.
           destruct (get_validity_format scan_configuration column) as [f|];
             [|discriminate Hnum].
           exists f. split; [reflexivity|exact Hnum].
        -- destruct Hfmt as [_ Hfmt]. rewrite <- Hfmt. exact Hnum.
Qed.

End Scan.

(** * The properties on the example warehouse *)

Lemma row_count_first_witness :
  aggregation_batch (dialect := Example.sql) (Example.configuration [] [])
    (Example.scan true) = Ok Example.batch_missing
  /\ b_fields Example.batch_missing !! 0 = Some "COUNT(*)"
  /\ b_measurements Example.batch_missing !! 0
     = Some (mkMeasurement Metric.ROW_COUNT None VNone)
  /\ exists rest,
       aggregation_sql (dialect := Example.sql) (Example.configuration [] [])
         (b_fields Example.batch_missing)
       = "SELECT " +:+ nl +:+ "  " +:+ "COUNT(*)" +:+ rest.
Proof.
  split; [vm_compute; reflexivity|].
  apply (proj1 (row_count_first (dialect := Example.sql) (Example.configuration [] [])
                  (Example.new_cache true))
           (Example.scan true) Example.batch_missing).
  vm_compute. reflexivity.
Defined.

Lemma fields_measurements_lock_step_witness :
  aggregation_batch (dialect := Example.sql) (Example.configuration [Metric.DISTINCT] [])
    (Example.scan false) = Ok Example.batch_counts
  /\ length (b_fields Example.batch_counts) = length (b_measurements Example.batch_counts)
  /\ query_aggregations (dialect := Example.sql)
       (Example.warehouse [SInt 10; SInt 2; SInt 8] [])
       (Example.configuration [Metric.DISTINCT] []) (Example.scan false)
     = Ok (Example.measurements_counts,
           with_caches (Example.scan false) (b_caches Example.batch_counts))
  /\ exists tuple,
       execute_query_one (Example.warehouse [SInt 10; SInt 2; SInt 8] [])
         (aggregation_sql (dialect := Example.sql)
            (Example.configuration [Metric.DISTINCT] [])
            (b_fields Example.batch_counts)) = Ok tuple
       /\ forall i m, b_measurements Example.batch_counts !! i = Some m ->
            exists v, tuple !! i = Some v
                      /\ Example.measurements_counts !! i
                         = Some (set_value (VScalar v) m).
Proof.
  assert (Hb : aggregation_batch (dialect := Example.sql)
                 (Example.configuration [Metric.DISTINCT] [])
                 (Example.scan false) = Ok Example.batch_counts)
    by (vm_compute; reflexivity).
  assert (Hq : query_aggregations (dialect := Example.sql)
                 (Example.warehouse [SInt 10; SInt 2; SInt 8] [])
                 (Example.configuration [Metric.DISTINCT] []) (Example.scan false)
               = Ok (Example.measurements_counts,
                     with_caches (Example.scan false) (b_caches Example.batch_counts)))
    by (vm_compute; reflexivity).
  destruct (fields_measurements_lock_step (dialect := Example.sql)
              (Example.warehouse [SInt 10; SInt 2; SInt 8] [])
              (Example.configuration [Metric.DISTINCT] [])
              (Example.scan false) Example.batch_counts Hb) as [Hl Ha].
  split_and!; [exact Hb|exact Hl|exact Hq|exact (Ha _ _ Hq)].
Defined.

Lemma distinct_implies_missing_and_valid_witness :
  aggregation_batch (dialect := Example.sql) (Example.configuration [Metric.DISTINCT] [])
    (Example.scan false) = Ok Example.batch_counts
  /\ Example.age ∈ scan_columns (Example.scan false)
  /\ is_any_metric_enabled (Example.configuration [Metric.DISTINCT] []) "age"
       [Metric.DISTINCT; Metric.UNIQUENESS] = true
  /\ exists i j,
       b_measurements Example.batch_counts !! i
       = Some (mkMeasurement Metric.MISSING_COUNT (Some "age") VNone)
       /\ b_measurements Example.batch_counts !! j
          = Some (mkMeasurement Metric.VALID_COUNT (Some "age") VNone)
       /\ forall ms self',
            query_aggregations (dialect := Example.sql)
              (Example.warehouse [SInt 10; SInt 2; SInt 8] [])
              (Example.configuration [Metric.DISTINCT] []) (Example.scan false)
            = Ok (ms, self') ->
            exists v w,
              ms !! i = Some (mkMeasurement Metric.MISSING_COUNT (Some "age") (VScalar v))
              /\ ms !! j = Some (mkMeasurement Metric.VALID_COUNT (Some "age") (VScalar w)).
Proof.
  assert (Hb : aggregation_batch (dialect := Example.sql)
                 (Example.configuration [Metric.DISTINCT] [])
                 (Example.scan false) = Ok Example.batch_counts)
    by (vm_compute; reflexivity).
  assert (Hin : Example.age ∈ scan_columns (Example.scan false))
    by apply list_elem_of_here.
  assert (Hen : is_any_metric_enabled (Example.configuration [Metric.DISTINCT] []) "age"
                  [Metric.DISTINCT; Metric.UNIQUENESS] = true)
    by (vm_compute; reflexivity).
  split_and!; [exact Hb|exact Hin|exact Hen|].
  exact (distinct_implies_missing_and_valid (dialect := Example.sql)
           (Example.warehouse [SInt 10; SInt 2; SInt 8] [])
           (Example.configuration [Metric.DISTINCT] [])
           (Example.scan false) Example.batch_counts Example.age Hb Hin Hen).
Defined.

Lemma example_count_cells_int :
  count_cells_int Example.batch_counts [SInt 10; SInt 2; SInt 8].
Proof.
  intros i m Hm _. destruct i as [|[|[|i]]]; simpl; eauto. discriminate Hm.
Defined.

Lemma derived_measurements_computed_witness :
  aggregation_batch (dialect := Example.sql) (Example.configuration [Metric.DISTINCT] [])
    (Example.scan false) = Ok Example.batch_counts
  /\ (query_aggregations (dialect := Example.sql)
        (Example.warehouse [SInt 10; SInt 2; SInt 8] [])
        (Example.configuration [Metric.DISTINCT] []) (Example.scan false)
      = Ok (Example.measurements_counts,
            with_caches (Example.scan false) (b_caches Example.batch_counts))
      /\ exists row_count,
           Example.measurements_counts !! 0
           = Some (mkMeasurement Metric.ROW_COUNT None row_count)
           /\ forall column, column ∈ scan_columns (Example.scan false) ->
                derived_values_for (Example.configuration [Metric.DISTINCT] [])
                  (Example.scan false) row_count Example.measurements_counts column
                  (drop (length (b_measurements Example.batch_counts))
                     Example.measurements_counts))
  /\ execute_query_one (Example.warehouse [SInt 10; SInt 2; SInt 8] [])
       (aggregation_sql (dialect := Example.sql)
          (Example.configuration [Metric.DISTINCT] [])
          (b_fields Example.batch_counts)) = Ok [SInt 10; SInt 2; SInt 8]
  /\ length (b_measurements Example.batch_counts) <= length [SInt 10; SInt 2; SInt 8]
  /\ count_cells_int Example.batch_counts [SInt 10; SInt 2; SInt 8]
  /\ [SInt 10; SInt 2; SInt 8] !! 0 = Some (SInt 10)
  /\ 10%Z <> 0%Z
  /\ exists ms,
       query_aggregations (dialect := Example.sql)
         (Example.warehouse [SInt 10; SInt 2; SInt 8] [])
         (Example.configuration [Metric.DISTINCT] []) (Example.scan false)
       = Ok (ms, with_caches (Example.scan false) (b_caches Example.batch_counts))
       /\ ms !! 0 = Some (mkMeasurement Metric.ROW_COUNT None (VInt 10))
       /\ forall column, column ∈ scan_columns (Example.scan false) ->
            derived_for (Example.configuration [Metric.DISTINCT] []) (Example.scan false)
              10 ms column (drop (length (b_measurements Example.batch_counts)) ms).
Proof.
  assert (Hb : aggregation_batch (dialect := Example.sql)
                 (Example.configuration [Metric.DISTINCT] [])
                 (Example.scan false) = Ok Example.batch_counts)
    by (vm_compute; reflexivity).
  assert (Hrun : query_aggregations (dialect := Example.sql)
                   (Example.warehouse [SInt 10; SInt 2; SInt 8] [])
                   (Example.configuration [Metric.DISTINCT] []) (Example.scan false)
                 = Ok (Example.measurements_counts,
                       with_caches (Example.scan false) (b_caches Example.batch_counts)))
    by (vm_compute; reflexivity).
  assert (Hq : execute_query_one (Example.warehouse [SInt 10; SInt 2; SInt 8] [])
                 (aggregation_sql (dialect := Example.sql)
                    (Example.configuration [Metric.DISTINCT] [])
                    (b_fields Example.batch_counts)) = Ok [SInt 10; SInt 2; SInt 8])
    by (vm_compute; reflexivity).
  assert (Hl : length (b_measurements Example.batch_counts)
               <= length [SInt 10; SInt 2; SInt 8]) by (simpl; lia).
  assert (Hr : 10%Z <> 0%Z) by lia.
  destruct (derived_measurements_computed (dialect := Example.sql)
              (Example.warehouse [SInt 10; SInt 2; SInt 8] [])
              (Example.configuration [Metric.DISTINCT] [])
              (Example.scan false) Example.batch_counts Hb) as [HA HB].
  split_and!; [exact Hb|exact Hrun|exact (HA _ _ Hrun)|exact Hq|exact Hl
              |exact example_count_cells_int|reflexivity|exact Hr|].
  exact (HB [SInt 10; SInt 2; SInt 8] 10%Z Hq Hl example_count_cells_int eq_refl Hr).
Defined.

Lemma derived_identities_witness :
  (10 > 0)%Z
  /\ (exists mp vp : Q,
        derive_missing "age" (VInt 10) (VInt 2)
        = Ok [mkMeasurement Metric.MISSING_PERCENTAGE (Some "age") (VFloat mp);
              mkMeasurement Metric.VALUES_COUNT (Some "age") (VInt (10 - 2));
              mkMeasurement Metric.VALUES_PERCENTAGE (Some "age") (VFloat vp)]
        /\ (mp + vp == 100)%Q)
  /\ 10%Z <> 0%Z
  /\ (exists l, derive_valid "age" (VInt 10) (VInt 2) (VInt 8) = Ok l)
  /\ derive_valid "age" (VInt 10) (VInt 2) (VInt 8)
     = Ok [mkMeasurement Metric.INVALID_PERCENTAGE (Some "age") (VFloat 0);
           mkMeasurement Metric.INVALID_COUNT (Some "age") (VInt 0);
           mkMeasurement Metric.VALID_PERCENTAGE (Some "age") (VFloat 80)]
  /\ exists (ip valp : Q) (ic : Z),
       [mkMeasurement Metric.INVALID_PERCENTAGE (Some "age") (VFloat 0);
        mkMeasurement Metric.INVALID_COUNT (Some "age") (VInt 0);
        mkMeasurement Metric.VALID_PERCENTAGE (Some "age") (VFloat 80)]
       = [mkMeasurement Metric.INVALID_PERCENTAGE (Some "age") (VFloat ip);
          mkMeasurement Metric.INVALID_COUNT (Some "age") (VInt ic);
          mkMeasurement Metric.VALID_PERCENTAGE (Some "age") (VFloat valp)]
       /\ (ic + 8 + 2 = 10)%Z.
Proof.
  destruct (derived_identities "age" 10 2 8) as (H1 & H2 & H3).
  assert (Hpos : (10 > 0)%Z) by lia.
  assert (Hne : 10%Z <> 0%Z) by lia.
  assert (Hv : derive_valid "age" (VInt 10) (VInt 2) (VInt 8)
               = Ok [mkMeasurement Metric.INVALID_PERCENTAGE (Some "age") (VFloat 0);
                     mkMeasurement Metric.INVALID_COUNT (Some "age") (VInt 0);
                     mkMeasurement Metric.VALID_PERCENTAGE (Some "age") (VFloat 80)])
    by (vm_compute; reflexivity).
  split_and!; [exact Hpos|exact (H1 Hpos)|exact Hne|exact (H2 Hne)|exact Hv
              |exact (H3 _ Hv)].
Defined.

Lemma uniqueness_bounds_witness :
  is_any_metric_enabled (Example.configuration [Metric.UNIQUENESS] []) "age"
    [Metric.DISTINCT; Metric.UNIQUENESS; Metric.UNIQUE_COUNT] = true
  /\ execute_query_one (Example.warehouse [] [SInt 5; SInt 3])
       (distinct_sql (group_by_cte (dialect := Example.sql)
                        (Example.configuration [Metric.UNIQUENESS] [])
                        Example.age (Example.scanned_cache false)))
     = Ok [SInt 5; SInt 3]
  /\ ScanResult_get (scan_result (Example.scan_with_valid_count 8))
       Metric.VALID_COUNT "age" = VInt 8
  /\ (8 > 1)%Z /\ (1 <= 5 <= 8)%Z
  /\ exists u : Q,
       derive_uniqueness (VInt 5) (VInt 8) = Ok (VFloat u)
       /\ distinct_metrics (Example.warehouse [] [SInt 5; SInt 3])
            (Example.configuration [Metric.UNIQUENESS] [])
            (Example.scan_with_valid_count 8) Example.age
            (group_by_cte (dialect := Example.sql)
               (Example.configuration [Metric.UNIQUENESS] [])
               Example.age (Example.scanned_cache false)) []
          = Ok ([] ++ [mkMeasurement Metric.DISTINCT (Some "age") (VInt 5);
                       mkMeasurement Metric.UNIQUE_COUNT (Some "age") (VInt 3);
                       mkMeasurement Metric.UNIQUENESS (Some "age") (VFloat u)])
       /\ (u == (inject_Z 5 - 1) * 100 / (inject_Z 8 - 1))%Q
       /\ (0 <= u <= 100)%Q
       /\ (5%Z = 1%Z -> (u == 0)%Q)
       /\ (5%Z = 8%Z -> (u == 100)%Q).
Proof.
  assert (Hen : is_any_metric_enabled (Example.configuration [Metric.UNIQUENESS] []) "age"
                  [Metric.DISTINCT; Metric.UNIQUENESS; Metric.UNIQUE_COUNT] = true)
    by (vm_compute; reflexivity).
  assert (Hq : execute_query_one (Example.warehouse [] [SInt 5; SInt 3])
                 (distinct_sql (group_by_cte (dialect := Example.sql)
                                  (Example.configuration [Metric.UNIQUENESS] [])
                                  Example.age (Example.scanned_cache false)))
               = Ok [SInt 5; SInt 3]) by (vm_compute; reflexivity).
  assert (Hget : ScanResult_get (scan_result (Example.scan_with_valid_count 8))
                   Metric.VALID_COUNT "age" = VInt 8) by (vm_compute; reflexivity).
  assert (Hv : (8 > 1)%Z) by lia.
  assert (Hd : (1 <= 5 <= 8)%Z) by lia.
  split_and!; [exact Hen|exact Hq|exact Hget|exact Hv|lia|lia|].
  exact (uniqueness_bounds (Example.warehouse [] [SInt 5; SInt 3])
           (Example.configuration [Metric.UNIQUENESS] [])
           (Example.scan_with_valid_count 8) Example.age _ [] 5 3 8 [] Hen Hq Hget Hv Hd).
Defined.

Lemma example_missing_cells_int :
  count_cells_int Example.batch_missing [SInt 0; SInt 0].
Proof.
  intros i m Hm _. destruct i as [|[|i]]; simpl; eauto. discriminate Hm.
Defined.

(** C5, counterexample: on an empty table with the missing count of [age]
    enabled, no metric is reported as undefined: the whole scan fails with
    ZeroDivisionError. *)
Lemma empty_table_scan_fails :
  execute (dialect := Example.sql) (Example.warehouse [SInt 0; SInt 0] [])
    (Example.configuration [] []) false (Example.new_cache true) Example.builtins
  = Err ZeroDivisionError.
Proof. vm_compute. reflexivity. Qed.

Lemma zero_denominator_raises_witness :
  (aggregation_batch (dialect := Example.sql) (Example.configuration [] [])
     (Example.scan true) = Ok Example.batch_missing
   /\ query_aggregations (dialect := Example.sql)
        (Example.warehouse [SInt 0; SInt 0] []) (Example.configuration [] [])
        (Example.scan true) = Err ZeroDivisionError)
  /\ (ScanResult_get (scan_result (Example.scan_with_valid_count 1))
        Metric.VALID_COUNT "age" = VInt 1
      /\ query_group_by_value (dialect := Example.sql)
           (Example.warehouse [] [SInt 1; SInt 1])
           (Example.configuration [Metric.UNIQUENESS] [])
           (Example.scan_with_valid_count 1) = Err ZeroDivisionError)
  /\ (ScanResult_get (scan_result (Example.scan_with_valid_count 0))
        Metric.VALID_COUNT "age" = VInt 0
      /\ exists u : Q,
           distinct_metrics (Example.warehouse [] [SInt 0; SInt 0])
             (Example.configuration [Metric.UNIQUENESS] [])
             (Example.scan_with_valid_count 0) Example.age "WITH" []
           = Ok ([] ++ [mkMeasurement Metric.DISTINCT (Some "age") (VInt 0);
                        mkMeasurement Metric.UNIQUE_COUNT (Some "age") (VInt 0);
                        mkMeasurement Metric.UNIQUENESS (Some "age") (VFloat u)])
           /\ (u == (inject_Z 0 - 1) * 100 / (-1))%Q).
Proof.
  destruct (zero_denominator_raises (dialect := Example.sql)
              (Example.warehouse [SInt 0; SInt 0] []) (Example.configuration [] []))
    as (H1 & _ & _).
  destruct (zero_denominator_raises (dialect := Example.sql)
              (Example.warehouse [] [SInt 1; SInt 1])
              (Example.configuration [Metric.UNIQUENESS] []))
    as (_ & H2 & _).
  destruct (zero_denominator_raises (dialect := Example.sql)
              (Example.warehouse [] [SInt 0; SInt 0])
              (Example.configuration [Metric.UNIQUENESS] []))
    as (_ & _ & H3).
  assert (Hb : aggregation_batch (dialect := Example.sql) (Example.configuration [] [])
                 (Example.scan true) = Ok Example.batch_missing)
    by (vm_compute; reflexivity).
  split_and!.
  - exact Hb.
  - apply (H1 (Example.scan true) Example.batch_missing [SInt 0; SInt 0] Hb).
    + vm_compute. reflexivity.
    + simpl. lia.
    + exact example_missing_cells_int.
    + reflexivity.
    + exists Example.age, (Example.cache true). split_and!.
      * apply list_elem_of_here.
      * vm_compute. reflexivity.
      * vm_compute. reflexivity.
  - vm_compute. reflexivity.
  - apply (H2 (Example.scan_with_valid_count 1) [] [] Example.age
             (Example.cache false) [] 1%Z 1%Z []).
    + reflexivity.
    + reflexivity.
    + vm_compute. reflexivity.
    + vm_compute. reflexivity.
    + vm_compute. reflexivity.
    + vm_compute. reflexivity.
  - vm_compute. reflexivity.
  - apply (H3 (Example.scan_with_valid_count 0) Example.age "WITH" [] 0%Z 0%Z []).
    + vm_compute. reflexivity.
    + vm_compute. reflexivity.
    + vm_compute. reflexivity.
Defined.

(** C6, counterexample: a rule on [missing_percentage], which is not computed
    for [age], gives no test result: the scan fails with NameError.  A rule
    on [min], which is not computed either and is a name of the builtins,
    silently fails the test. *)
Lemma uncomputed_metric_not_reported :
  execute (dialect := Example.sql) (Example.warehouse [SInt 10] [])
    (Example.configuration [] [Example.missing_percentage_below_10]) false
    (Example.new_cache false) Example.builtins
  = Err NameError
  /\ Example.outcomes
       (execute (dialect := Example.sql) (Example.warehouse [SInt 10] [])
          (Example.configuration [] [Example.min_is_0]) false
          (Example.new_cache false) Example.builtins)
     = Ok [("min == 0", false)].
Proof. split; vm_compute; reflexivity. Qed.

Lemma uncomputed_metric_raises_witness :
  columns_get (columns (Example.configuration [] [Example.missing_percentage_below_10]))
    "age" = Some (mkScanConfigurationColumn [Example.missing_percentage_below_10])
  /\ Example.missing_percentage_below_10
     ∈ tests (mkScanConfigurationColumn [Example.missing_percentage_below_10])
  /\ well_formed Example.missing_percentage_below_10 = true
  /\ first_name Example.missing_percentage_below_10 = Some "missing_percentage"
  /\ (column_measurement_values (measurements (scan_result (Example.scan false))) "age")
     !! "missing_percentage" = None
  /\ (column_measurement_values (measurements (scan_result (Example.scan false))) "age")
     !! "__builtins__" = None
  /\ "missing_percentage" <> "__builtins__"
  /\ ("missing_percentage" ∉ Example.builtins)
  /\ run_test Example.builtins "age"
       (column_measurement_values (measurements (scan_result (Example.scan false))) "age")
       Example.missing_percentage_below_10 = Err NameError
  /\ exists x,
       run_tests (Example.configuration [] [Example.missing_percentage_below_10])
         Example.builtins (Example.scan false) = Err x.
Proof.
  assert (Hget : columns_get
                   (columns (Example.configuration [] [Example.missing_percentage_below_10]))
                   "age"
                 = Some (mkScanConfigurationColumn [Example.missing_percentage_below_10]))
    by reflexivity.
  assert (Hin : Example.missing_percentage_below_10
                ∈ tests (mkScanConfigurationColumn [Example.missing_percentage_below_10]))
    by apply list_elem_of_here.
  assert (Hid : (column_measurement_values
                   (measurements (scan_result (Example.scan false))) "age")
                !! "missing_percentage" = None) by (vm_compute; reflexivity).
  assert (Hb : (column_measurement_values
                  (measurements (scan_result (Example.scan false))) "age")
               !! "__builtins__" = None) by (vm_compute; reflexivity).
  assert (Hne : "missing_percentage" <> "__builtins__") by discriminate.
  assert (Hn : "missing_percentage" ∉ Example.builtins).
  { intros H. apply (bool_decide_eq_true_2 _) in H. vm_compute in H. discriminate H. }
  split_and!; [exact Hget|exact Hin|reflexivity|reflexivity|exact Hid|exact Hb|exact Hne
              |exact Hn|..];
    apply (uncomputed_metric_raises
             (Example.configuration [] [Example.missing_percentage_below_10])
             Example.builtins (Example.scan false) "age" _
             Example.missing_percentage_below_10 "missing_percentage"
             Hget Hin eq_refl eq_refl Hid Hb Hne Hn).
Defined.

(** C9, counterexample: with no metric value bound at all, the rule
    [min == 0] is evaluated to a result, through the builtins that [eval]
    puts in the evaluation context; with other builtins the same expression
    over the same bound values raises NameError. *)
Lemma evaluation_reaches_builtins :
  run_test Example.builtins "age" ∅ Example.min_is_0
  = Ok (mkTestResult false "min == 0" {["__builtins__" := VBuiltins]} "age")
  /\ run_test ∅ "age" ∅ Example.min_is_0 = Err NameError.
Proof. split; vm_compute; reflexivity. Qed.

Lemma example_agree k :
  py_contains k (source_text Example.missing_percentage_below_10) = true ->
  Example.computed !! k
  = ({["missing_percentage" := VFloat 20]} : gmap string value) !! k.
Proof.
  intros Hk. unfold Example.computed.
  destruct (decide (k = "min")) as [->|Hmin]; [discriminate Hk|].
  destruct (decide (k = "max")) as [->|Hmax]; [discriminate Hk|].
  rewrite !lookup_insert_ne by congruence. reflexivity.
Defined.

Lemma test_values_selected_witness :
  (forall k v,
      select_test_values Example.computed
        (source_text Example.missing_percentage_below_10) !! k = Some v
      <-> Example.computed !! k = Some v
          /\ py_contains k (source_text Example.missing_percentage_below_10) = true)
  /\ (run_test Example.builtins "age" Example.computed
        Example.missing_percentage_below_10
      = Ok (mkTestResult false "missing_percentage < 10"
              (<["__builtins__" := VBuiltins]>
                 {["missing_percentage" := VFloat 20]}) "age")
      /\ is_Some ((<["__builtins__" := VBuiltins]>
                     ({["missing_percentage" := VFloat 20]} : gmap string value))
                  !! "__builtins__"))
  /\ run_test Example.builtins "age" Example.computed
       Example.missing_percentage_below_10
     = run_test Example.builtins "age" {["missing_percentage" := VFloat 20]}
         Example.missing_percentage_below_10.
Proof.
  destruct (test_values_selected Example.builtins "age" Example.computed
              Example.missing_percentage_below_10) as (H1 & H2 & H3).
  assert (Hrun : run_test Example.builtins "age" Example.computed
                   Example.missing_percentage_below_10
                 = Ok (mkTestResult false "missing_percentage < 10"
                         (<["__builtins__" := VBuiltins]>
                            {["missing_percentage" := VFloat 20]}) "age"))
    by (vm_compute; reflexivity).
  split_and!.
  - exact H1.
  - exact Hrun.
  - destruct (H2 _ Hrun) as (_ & _ & Hb). exact Hb.
  - exact (H3 _ example_agree).
Defined.

Lemma unique_count_alone_has_no_valid_count_witness :
  (exists (d uq : scalar) (u : value),
      [mkMeasurement Metric.DISTINCT (Some "age") (VInt 5);
       mkMeasurement Metric.UNIQUE_COUNT (Some "age") (VInt 3);
       mkMeasurement Metric.UNIQUENESS (Some "age") (VFloat (400 # 7))]
      = [] ++ [mkMeasurement Metric.DISTINCT (Some "age") (VScalar d);
               mkMeasurement Metric.UNIQUE_COUNT (Some "age") (VScalar uq);
               mkMeasurement Metric.UNIQUENESS (Some "age") u]
      /\ derive_uniqueness (VScalar d)
           (ScanResult_get (scan_result (Example.scan_with_valid_count 8))
              Metric.VALID_COUNT "age") = Ok u)
  /\ (exists cache,
        column_caches (Example.scan false) !! "age" = Some cache
        /\ ((ScanColumnCache.validity cache <> None
             /\ ScanColumnCache.is_validity_metric_enabled cache = true)
            \/ is_metric_enabled (Example.configuration [Metric.DISTINCT] []) "age"
                 Metric.DISTINCT = true
            \/ is_metric_enabled (Example.configuration [Metric.DISTINCT] []) "age"
                 Metric.UNIQUENESS = true))
  /\ (query_aggregations (dialect := Example.sql) (Example.warehouse [SInt 10] [SInt 5; SInt 3])
        (Example.configuration [Metric.UNIQUE_COUNT] []) (Example.scan false)
      = Ok ([mkMeasurement Metric.ROW_COUNT None (VInt 10)],
            with_caches (Example.scan false) (b_caches Example.batch_row_count))
      /\ Forall (fun m => ~ is_valid_count_of "age" m)
           (measurements
              (scan_result
                 (add_measurements false
                    (with_caches (Example.scan false) (b_caches Example.batch_row_count))
                    [mkMeasurement Metric.ROW_COUNT None (VInt 10)])))
      /\ ScanResult_get
           (scan_result
              (add_measurements false
                 (with_caches (Example.scan false) (b_caches Example.batch_row_count))
                 [mkMeasurement Metric.ROW_COUNT None (VInt 10)]))
           Metric.VALID_COUNT "age" = VNone
      /\ distinct_metrics (Example.warehouse [SInt 10] [SInt 5; SInt 3])
           (Example.configuration [Metric.UNIQUE_COUNT] [])
           (add_measurements false
              (with_caches (Example.scan false) (b_caches Example.batch_row_count))
              [mkMeasurement Metric.ROW_COUNT None (VInt 10)])
           Example.age "WITH" [] = Err TypeError).
Proof.
  destruct (unique_count_alone_has_no_valid_count (dialect := Example.sql)
              (Example.warehouse [] [SInt 5; SInt 3])
              (Example.configuration [Metric.UNIQUENESS] []) false) as (H1 & _ & _).
  destruct (unique_count_alone_has_no_valid_count (dialect := Example.sql)
              (Example.warehouse [SInt 10; SInt 2; SInt 8] [])
              (Example.configuration [Metric.DISTINCT] []) false) as (_ & H2 & _).
  destruct (unique_count_alone_has_no_valid_count (dialect := Example.sql)
              (Example.warehouse [SInt 10] [SInt 5; SInt 3])
              (Example.configuration [Metric.UNIQUE_COUNT] []) false) as (_ & _ & H3).
  assert (Hq : query_aggregations (dialect := Example.sql)
                 (Example.warehouse [SInt 10] [SInt 5; SInt 3])
                 (Example.configuration [Metric.UNIQUE_COUNT] []) (Example.scan false)
               = Ok ([mkMeasurement Metric.ROW_COUNT None (VInt 10)],
                     with_caches (Example.scan false) (b_caches Example.batch_row_count)))
    by (vm_compute; reflexivity).
  split_and!.
  - apply (H1 (Example.scan_with_valid_count 8) Example.age "WITH" []).
    + vm_compute. reflexivity.
    + vm_compute. reflexivity.
  - apply (H2 (Example.scan false)
             (with_caches (Example.scan false) (b_caches Example.batch_counts))
             Example.measurements_counts
             (mkMeasurement Metric.VALID_COUNT (Some "age") (VInt 8)) "age").
    + vm_compute. reflexivity.
    + do 2 apply list_elem_of_further. apply list_elem_of_here.
    + reflexivity.
    + reflexivity.
  - exact Hq.
  - apply (H3 (Example.scan false) _ _ [] Example.age (Example.cache false)
             "WITH" 5%Z 3%Z [] Hq); try reflexivity.
    repeat constructor; intros [Hm _]; discriminate Hm.
  - apply (H3 (Example.scan false) _ _ [] Example.age (Example.cache false)
             "WITH" 5%Z 3%Z [] Hq); try reflexivity.
    repeat constructor; intros [Hm _]; discriminate Hm.
  - apply (H3 (Example.scan false) _ _ [] Example.age (Example.cache false)
             "WITH" 5%Z 3%Z [] Hq); try reflexivity.
    repeat constructor; intros [Hm _]; discriminate Hm.
Defined.

(** ** Further properties on the example warehouse *)


Lemma malformed_metadata_row_raises_witness :
  execute_query_all
    (Example.warehouse_of
       [[SStr "age"; SStr "integer"; SStr "YES"]; [SStr "name"; SStr "text"; SNone]]
       [] [] [])
    (sql_columns_metadata_query (Dialect := Example.sql) (Example.configuration [] []))
  = Ok ([[SStr "age"; SStr "integer"; SStr "YES"]]
        ++ [SStr "name"; SStr "text"; SNone] :: [])
  /\ Forall2 row_describes [[SStr "age"; SStr "integer"; SStr "YES"]] [Example.age]
  /\ query_columns (dialect := Example.sql)
       (Example.warehouse_of
          [[SStr "age"; SStr "integer"; SStr "YES"]; [SStr "name"; SStr "text"; SNone]]
          [] [] [])
       (Example.configuration [] [])
     = Err AttributeError.
Proof.
  assert (Hq : execute_query_all
                 (Example.warehouse_of
                    [[SStr "age"; SStr "integer"; SStr "YES"];
                     [SStr "name"; SStr "text"; SNone]] [] [] [])
                 (sql_columns_metadata_query (Dialect := Example.sql)
                    (Example.configuration [] []))
               = Ok ([[SStr "age"; SStr "integer"; SStr "YES"]]
                     ++ [SStr "name"; SStr "text"; SNone] :: []))
    by (vm_compute; reflexivity).
  assert (Hrows : Forall2 row_describes [[SStr "age"; SStr "integer"; SStr "YES"]]
                    [Example.age]).
  { constructor; [|constructor]. exists "YES", []. split; reflexivity. }
  split_and!; [exact Hq|exact Hrows|].
  refine (proj2 (malformed_metadata_row_raises (dialect := Example.sql) _
                   (Example.configuration [] []) _ _ _ _ Hq Hrows)
            (SStr "name") (SStr "text") SNone [] eq_refl _).
  intros s. discriminate.
Defined.

Lemma batch_follows_columns_witness :
  aggregation_batch (dialect := Example.sql) (Example.configuration [Metric.DISTINCT] [])
    (Example.scan false) = Ok Example.batch_counts
  /\ exists segs : list (list Measurement),
       b_measurements Example.batch_counts
       = mkMeasurement Metric.ROW_COUNT None VNone :: concat segs
       /\ Forall2 (column_segment (dialect := Example.sql)
                     (Example.configuration [Metric.DISTINCT] []))
            (scan_columns (Example.scan false)) segs.
Proof.
  assert (Hb : aggregation_batch (dialect := Example.sql)
                 (Example.configuration [Metric.DISTINCT] [])
                 (Example.scan false) = Ok Example.batch_counts)
    by (vm_compute; reflexivity).
  exact (conj Hb (batch_follows_columns (dialect := Example.sql) _ _ _ Hb)).
Defined.

Lemma derived_follow_columns_witness :
  query_aggregations (dialect := Example.sql)
    (Example.warehouse [SInt 10; SInt 2; SInt 8] [])
    (Example.configuration [Metric.DISTINCT] []) (Example.scan false)
  = Ok (Example.measurements_counts,
        with_caches (Example.scan false) (b_caches Example.batch_counts))
  /\ exists (b : Batch) (segs : list (list Measurement)),
       aggregation_batch (dialect := Example.sql)
         (Example.configuration [Metric.DISTINCT] []) (Example.scan false) = Ok b
       /\ drop (length (b_measurements b)) Example.measurements_counts = concat segs
       /\ Forall2 (derived_segment (Example.configuration [Metric.DISTINCT] [])
                     (Example.scan false))
            (scan_columns (Example.scan false)) segs.
Proof.
  assert (Hq : query_aggregations (dialect := Example.sql)
                 (Example.warehouse [SInt 10; SInt 2; SInt 8] [])
                 (Example.configuration [Metric.DISTINCT] []) (Example.scan false)
               = Ok (Example.measurements_counts,
                     with_caches (Example.scan false) (b_caches Example.batch_counts)))
    by (vm_compute; reflexivity).
  exact (conj Hq (derived_follow_columns (dialect := Example.sql) _ _ _ _ _ Hq)).
Defined.

Lemma valid_count_has_companions_witness :
  query_aggregations (dialect := Example.sql)
    (Example.warehouse [SInt 10; SInt 2; SInt 8] [])
    (Example.configuration [Metric.DISTINCT] []) (Example.scan false)
  = Ok (Example.measurements_counts,
        with_caches (Example.scan false) (b_caches Example.batch_counts))
  /\ mkMeasurement Metric.VALID_COUNT (Some "age") (VInt 8) ∈ Example.measurements_counts
  /\ exists v : value,
       mkMeasurement Metric.INVALID_COUNT (Some "age") v ∈ Example.measurements_counts.
Proof.
  assert (Hq : query_aggregations (dialect := Example.sql)
                 (Example.warehouse [SInt 10; SInt 2; SInt 8] [])
                 (Example.configuration [Metric.DISTINCT] []) (Example.scan false)
               = Ok (Example.measurements_counts,
                     with_caches (Example.scan false) (b_caches Example.batch_counts)))
    by (vm_compute; reflexivity).
  assert (Hin : mkMeasurement Metric.VALID_COUNT (Some "age") (VInt 8)
                ∈ Example.measurements_counts).
  { apply list_elem_of_lookup. exists 2. reflexivity. }
  split_and!; [exact Hq|exact Hin|].
  refine (valid_count_has_companions (dialect := Example.sql) _ _ _ _ _ _ "age"
            Hq Hin eq_refl eq_refl Metric.INVALID_COUNT _).
  apply list_elem_of_lookup. exists 4. reflexivity.
Defined.

Lemma aggregation_pass_classifies_columns_witness :
  NoDup (col_name <$> scan_columns (Example.scan false))
  /\ query_aggregations (dialect := Example.sql)
       (Example.warehouse [SInt 10; SInt 2; SInt 8] [])
       (Example.configuration [Metric.DISTINCT] []) (Example.scan false)
     = Ok (Example.measurements_counts,
           with_caches (Example.scan false) (b_caches Example.batch_counts))
  /\ exists c0 c,
       column_caches (Example.scan false) !! "age" = Some c0
       /\ column_caches (with_caches (Example.scan false)
                           (b_caches Example.batch_counts)) !! "age" = Some c
       /\ classified (dialect := Example.sql)
            (Example.configuration [Metric.DISTINCT] []) Example.age c0 c.
Proof.
  assert (Hnd : NoDup (col_name <$> scan_columns (Example.scan false))).
  { apply NoDup_singleton. }
  assert (Hq : query_aggregations (dialect := Example.sql)
                 (Example.warehouse [SInt 10; SInt 2; SInt 8] [])
                 (Example.configuration [Metric.DISTINCT] []) (Example.scan false)
               = Ok (Example.measurements_counts,
                     with_caches (Example.scan false) (b_caches Example.batch_counts)))
    by (vm_compute; reflexivity).
  split_and!; [exact Hnd|exact Hq|].
  destruct (aggregation_pass_classifies_columns (dialect := Example.sql) _ _ _ _ _ Hnd Hq)
    as (_ & _ & _ & _ & Hcols).
  apply (Hcols Example.age). apply list_elem_of_here.
Defined.

Lemma group_by_skips_disabled_columns_witness :
  (forall column, column ∈ scan_columns (Example.scan true) ->
     is_any_metric_enabled (Example.configuration [Metric.MISSING_COUNT] [])
       (col_name column) group_by_metrics = false)
  /\ query_group_by_value (dialect := Example.sql) (Example.warehouse [] [])
       (Example.configuration [Metric.MISSING_COUNT] []) (Example.scan true)
     = Ok [].
Proof.
  assert (Hall : forall column, column ∈ scan_columns (Example.scan true) ->
            is_any_metric_enabled (Example.configuration [Metric.MISSING_COUNT] [])
              (col_name column) group_by_metrics = false).
  { intros column _. vm_compute. reflexivity. }
  split; [exact Hall|].
  exact (proj2 (group_by_skips_disabled_columns (dialect := Example.sql) _ _ _) Hall).
Defined.

Lemma values_list_has_one_entry_per_row_witness :
  is_metric_enabled (Example.configuration [Metric.MINS] []) (col_name Example.age)
    Metric.MINS = true
  /\ (ScanColumnCache.is_number (Example.scanned_cache false)
      || ScanColumnCache.is_column_numeric_text_format (Example.scanned_cache false))
     = true
  /\ execute_query_all (Example.warehouse_of [] [] [] [[SInt 18; SInt 4]; [SInt 21]])
       "WITH group_by_value" = Ok [[SInt 18; SInt 4]; [SInt 21]]
  /\ exists ms' cells,
       values_metric (Example.warehouse_of [] [] [] [[SInt 18; SInt 4]; [SInt 21]])
         (Example.configuration [Metric.MINS] []) Example.age
         (Example.scanned_cache false) Metric.MINS "WITH group_by_value" [] = Ok ms'
       /\ ms' = [] ++ [mkMeasurement Metric.MINS (Some (col_name Example.age))
                         (VList (IScalar <$> cells))]
       /\ length cells = 2.
Proof.
  assert (Hen : is_metric_enabled (Example.configuration [Metric.MINS] [])
                  (col_name Example.age) Metric.MINS = true)
    by (vm_compute; reflexivity).
  assert (Hnum : (ScanColumnCache.is_number (Example.scanned_cache false)
                  || ScanColumnCache.is_column_numeric_text_format
                       (Example.scanned_cache false)) = true)
    by (vm_compute; reflexivity).
  assert (Hq : execute_query_all
                 (Example.warehouse_of [] [] [] [[SInt 18; SInt 4]; [SInt 21]])
                 "WITH group_by_value" = Ok [[SInt 18; SInt 4]; [SInt 21]])
    by (vm_compute; reflexivity).
  split_and!; [exact Hen|exact Hnum|exact Hq|].
  destruct (values_list_has_one_entry_per_row _ _ Example.age _ Metric.MINS _ []
              _ Hen Hnum Hq) as (Hshape & Hreturns & _).
  destruct Hreturns as [ms' Hms'].
  { repeat constructor; discriminate. }
  destruct (Hshape ms' Hms') as (cells & E & Hlen & _).
  exists ms', cells. split_and!; [exact Hms'|exact E|exact Hlen].
Defined.

Lemma group_by_measurements_are_enabled_witness :
  exists ms,
    query_group_by_value (dialect := Example.sql) (Example.warehouse [] [SInt 5; SInt 3])
      (Example.configuration [Metric.UNIQUENESS] []) (Example.scan_with_valid_count 8)
    = Ok ms
    /\ length ms = 3
    /\ Forall (group_by_measurement (Example.configuration [Metric.UNIQUENESS] [])
                 (Example.scan_with_valid_count 8)
                 (scan_columns (Example.scan_with_valid_count 8))) ms.
Proof.
  destruct (query_group_by_value (dialect := Example.sql)
              (Example.warehouse [] [SInt 5; SInt 3])
              (Example.configuration [Metric.UNIQUENESS] [])
              (Example.scan_with_valid_count 8)) as [ms|e] eqn:E.
  - exists ms. split; [reflexivity|]. split.
    + vm_compute in E. injection E as <-. reflexivity.
    + exact (group_by_measurements_are_enabled (dialect := Example.sql) _ _ _ _ E).
  - vm_compute in E. discriminate E.
Defined.

Lemma run_tests_one_result_per_test_witness :
  NoDup (map fst (columns (Example.configuration []
                             [Example.missing_percentage_below_10; Example.min_is_0])))
  /\ exists results,
       run_tests (Example.configuration []
                    [Example.missing_percentage_below_10; Example.min_is_0])
         Example.builtins Example.scan_with_counts = Ok results
       /\ length results = 2
       /\ Forall2 (result_of_test Example.builtins Example.scan_with_counts)
            (configured_tests
               (Example.configuration []
                  [Example.missing_percentage_below_10; Example.min_is_0]))
            results.
Proof.
  assert (Hnd : NoDup (map fst (columns (Example.configuration []
                          [Example.missing_percentage_below_10; Example.min_is_0])))).
  { apply NoDup_singleton. }
  split; [exact Hnd|].
  destruct (run_tests (Example.configuration []
                         [Example.missing_percentage_below_10; Example.min_is_0])
              Example.builtins Example.scan_with_counts) as [results|e] eqn:E.
  - exists results. split; [reflexivity|]. split.
    + vm_compute in E. injection E as <-. reflexivity.
    + exact (proj1 (run_tests_one_result_per_test _ _ _ results Hnd) E).
  - vm_compute in E. discriminate E.
Defined.

Lemma scan_result_follows_passes_witness :
  exists s,
    execute (dialect := Example.sql)
      (Example.warehouse [SInt 10; SInt 2; SInt 8] [SInt 5; SInt 3])
      (Example.configuration [Metric.DISTINCT] []) true (Example.new_cache false)
      Example.builtins = Ok s
    /\ length (measurements (scan_result s)) = 13
    /\ exists (cols : list Column) (row_count : value) (agg grp : list Measurement),
         query_columns (dialect := Example.sql)
           (Example.warehouse [SInt 10; SInt 2; SInt 8] [SInt 5; SInt 3])
           (Example.configuration [Metric.DISTINCT] []) = Ok cols
         /\ scan_columns s = cols
         /\ measurements (scan_result s)
            = mkMeasurement Metric.SCHEMA None (VList (IColumn <$> cols))
              :: mkMeasurement Metric.ROW_COUNT None row_count :: agg ++ grp
         /\ Forall (measurement_of aggregation_metrics cols) agg
         /\ Forall (group_by_measurement (Example.configuration [Metric.DISTINCT] [])
                      s cols) grp.
Proof.
  destruct (execute (dialect := Example.sql)
              (Example.warehouse [SInt 10; SInt 2; SInt 8] [SInt 5; SInt 3])
              (Example.configuration [Metric.DISTINCT] []) true (Example.new_cache false)
              Example.builtins) as [s|e] eqn:E.
  - exists s. split; [reflexivity|]. split.
    + vm_compute in E. injection E as <-. reflexivity.
    + exact (scan_result_follows_passes (dialect := Example.sql) _ _ _ _ _ s E).
  - vm_compute in E. discriminate E.
Defined.

Lemma test_on_table_metric_aborts_scan_witness :
  columns_get (columns (Example.configuration [] [Example.row_count_above_0])) "age"
  = Some (mkScanConfigurationColumn [Example.row_count_above_0])
  /\ well_formed Example.row_count_above_0 = true
  /\ first_name Example.row_count_above_0 = Some "row_count"
  /\ ("row_count" ∉ column_metrics)
  /\ ("row_count" ∉ Example.builtins)
  /\ forall s,
       execute (dialect := Example.sql) (Example.warehouse [SInt 10] [])
         (Example.configuration [] [Example.row_count_above_0]) false
         (Example.new_cache false) Example.builtins <> Ok s.
Proof.
  assert (Hget : columns_get
                   (columns (Example.configuration [] [Example.row_count_above_0])) "age"
                 = Some (mkScanConfigurationColumn [Example.row_count_above_0]))
    by (vm_compute; reflexivity).
  assert (Hwf : well_formed Example.row_count_above_0 = true)
    by (vm_compute; reflexivity).
  assert (Hfirst : first_name Example.row_count_above_0 = Some "row_count")
    by reflexivity.
  assert (Hid : "row_count" ∉ column_metrics).
  { unfold column_metrics, aggregation_metrics, raw_column_metrics. simpl. intros H.
    rewrite !elem_of_cons, elem_of_nil in H.
    repeat (destruct H as [H|H]; [discriminate H|]). destruct H. }
  assert (Hbi : "row_count" ∉ Example.builtins).
  { intros H. apply (bool_decide_eq_true_2 _) in H. vm_compute in H. discriminate H. }
  split_and!; try assumption.
  refine (test_on_table_metric_aborts_scan (dialect := Example.sql) _ _ _ _ _
            "age" _ Example.row_count_above_0 "row_count" Hget _ Hwf Hfirst Hid _ Hbi).
  - apply list_elem_of_here.
  - discriminate.
Defined.

Lemma measurements_are_forwarded_witness :
  exists s,
    execute (dialect := Example.sql)
      (Example.warehouse [SInt 10; SInt 2; SInt 8] [SInt 5; SInt 3])
      (Example.configuration [Metric.DISTINCT] []) true (Example.new_cache false)
      Example.builtins = Ok s
    /\ length (sent s) = 3
    /\ concat (sent s) = measurements (scan_result s)
    /\ Forall (fun batch => batch <> []) (sent s)
    /\ length (sent s) <= 3.
Proof.
  destruct (execute (dialect := Example.sql)
              (Example.warehouse [SInt 10; SInt 2; SInt 8] [SInt 5; SInt 3])
              (Example.configuration [Metric.DISTINCT] []) true (Example.new_cache false)
              Example.builtins) as [s|e] eqn:E.
  - exists s. split; [reflexivity|]. split.
    + vm_compute in E. injection E as <-. reflexivity.
    + exact (measurements_are_forwarded (dialect := Example.sql) _ _ true _ _ s E).
  - vm_compute in E. discriminate E.
Defined.

Lemma short_result_tuple_raises_witness :
  aggregation_batch (dialect := Example.sql) (Example.configuration [Metric.DISTINCT] [])
    (Example.scan false) = Ok Example.batch_counts
  /\ execute_query_one (Example.warehouse [SInt 10; SInt 2] [])
       (aggregation_sql (dialect := Example.sql)
          (Example.configuration [Metric.DISTINCT] [])
          (b_fields Example.batch_counts)) = Ok [SInt 10; SInt 2]
  /\ length [SInt 10; SInt 2] < length (b_fields Example.batch_counts)
  /\ query_aggregations (dialect := Example.sql) (Example.warehouse [SInt 10; SInt 2] [])
       (Example.configuration [Metric.DISTINCT] []) (Example.scan false)
     = Err IndexError.
Proof.
  assert (Hb : aggregation_batch (dialect := Example.sql)
                 (Example.configuration [Metric.DISTINCT] [])
                 (Example.scan false) = Ok Example.batch_counts)
    by (vm_compute; reflexivity).
  assert (Hq : execute_query_one (Example.warehouse [SInt 10; SInt 2] [])
                 (aggregation_sql (dialect := Example.sql)
                    (Example.configuration [Metric.DISTINCT] [])
                    (b_fields Example.batch_counts)) = Ok [SInt 10; SInt 2])
    by (vm_compute; reflexivity).
  assert (Hlen : length [SInt 10; SInt 2] < length (b_fields Example.batch_counts))
    by (simpl; lia).
  split_and!; [exact Hb|exact Hq|exact Hlen|].
  exact (short_result_tuple_raises (dialect := Example.sql) _ _ _ _ _ Hb Hq Hlen).
Defined.

Lemma threshold_test_outcome_witness :
  is_identifier "missing_percentage" = true
  /\ Example.computed !! "missing_percentage" = Some (VFloat 20)
  /\ exists tr,
       run_test Example.builtins "age" Example.computed
         Example.missing_percentage_below_10 = Ok tr
       /\ passed tr = false
       /\ values tr !! "missing_percentage" = Some (VFloat 20)
       /\ test_column_name tr = "age".
Proof.
  assert (Hid : is_identifier "missing_percentage" = true) by (vm_compute; reflexivity).
  assert (Hd : Example.computed !! "missing_percentage" = Some (VFloat 20))
    by (vm_compute; reflexivity).
  split_and!; [exact Hid|exact Hd|].
  exact (proj1 (threshold_test_outcome Example.builtins "age" Example.computed
                  "missing_percentage" CLt 10 (VFloat 20) Hid Hd)
           (NFloat 20) eq_refl).
Defined.

Lemma derived_percentages_partition_witness :
  exists mp vp ip valp : Q,
    derive_missing "age" (VInt 10) (VInt 2)
    = Ok [mkMeasurement Metric.MISSING_PERCENTAGE (Some "age") (VFloat mp);
          mkMeasurement Metric.VALUES_COUNT (Some "age") (VInt (10 - 2));
          mkMeasurement Metric.VALUES_PERCENTAGE (Some "age") (VFloat vp)]
    /\ derive_valid "age" (VInt 10) (VInt 2) (VInt 7)
       = Ok [mkMeasurement Metric.INVALID_PERCENTAGE (Some "age") (VFloat ip);
             mkMeasurement Metric.INVALID_COUNT (Some "age") (VInt (10 - 2 - 7));
             mkMeasurement Metric.VALID_PERCENTAGE (Some "age") (VFloat valp)]
    /\ (0 <= 10 - 2 - 7)%Z
    /\ (0 <= mp <= 100)%Q /\ (0 <= vp <= 100)%Q
    /\ (0 <= ip <= 100)%Q /\ (0 <= valp <= 100)%Q
    /\ (mp + ip + valp == 100)%Q.
Proof.
  apply (derived_percentages_partition "age" 10 2 7); lia.
Defined.

Lemma value_lists_only_for_numeric_columns_witness :
  exists s,
    execute (dialect := Example.sql)
      (Example.warehouse_of [[SStr "age"; SStr "integer"; SStr "YES"]] [SInt 10] []
         [[SInt 18]; [SInt 21]])
      (Example.configuration [Metric.MINS] []) false (Example.new_cache false)
      Example.builtins = Ok s
    /\ NoDup (col_name <$> scan_columns s)
    /\ mkMeasurement Metric.MINS (Some "age") (VList [IScalar (SInt 18); IScalar (SInt 21)])
       ∈ measurements (scan_result s)
    /\ exists (column : Column) (cells : list scalar),
         column ∈ scan_columns s
         /\ Some "age" = Some (col_name column)
         /\ VList [IScalar (SInt 18); IScalar (SInt 21)] = VList (IScalar <$> cells)
         /\ is_metric_enabled (Example.configuration [Metric.MINS] []) (col_name column)
              Metric.MINS = true
         /\ (is_number (Dialect := Example.sql) column = true
             \/ if is_text (Dialect := Example.sql) column
                then exists f,
                       get_validity_format (Example.configuration [Metric.MINS] []) column
                       = Some f
                       /\ startswith f "number_" = true
                else ScanColumnCache.is_column_numeric_text_format
                       (Example.new_cache false (Example.configuration [Metric.MINS] [])
                          column) = true).
Proof.
  destruct (execute (dialect := Example.sql)
              (Example.warehouse_of [[SStr "age"; SStr "integer"; SStr "YES"]] [SInt 10] []
                 [[SInt 18]; [SInt 21]])
              (Example.configuration [Metric.MINS] []) false (Example.new_cache false)
              Example.builtins) as [s|e] eqn:E.
  - exists s.
    assert (Hs : s = mkScan
                       (mkScanResult
                          [mkMeasurement Metric.SCHEMA None (VList [IColumn Example.age]);
                           mkMeasurement Metric.ROW_COUNT None (VInt 10);
                           mkMeasurement Metric.MINS (Some "age")
                             (VList [IScalar (SInt 18); IScalar (SInt 21)])] [])
                       [Example.age] {["age" := Example.scanned_cache false]} []).
    { vm_compute in E. injection E as <-. vm_compute. reflexivity. }
    assert (Hnd : NoDup (col_name <$> scan_columns s)).
    { rewrite Hs. apply NoDup_singleton. }
    assert (Hin : mkMeasurement Metric.MINS (Some "age")
                    (VList [IScalar (SInt 18); IScalar (SInt 21)])
                  ∈ measurements (scan_result s)).
    { rewrite Hs. apply list_elem_of_lookup. exists 2. reflexivity. }
    split_and!; [reflexivity|exact Hnd|exact Hin|].
    refine (value_lists_only_for_numeric_columns (dialect := Example.sql) _ _ _ _ _
              s _ E Hnd Hin _).
    apply list_elem_of_here.
  - vm_compute in E. discriminate E.
Defined.
